(** * Role-based reporting bot: access control and report workflow

    A shallow embedding of the persistence layer ([bot/database_enhanced.py]),
    the access-control wrapper ([bot/permissions.py]), the report handlers
    ([bot/report_handlers.py], [bot/handlers.py]) and the summarisation client
    ([bot/gemini_client.py]).

    The relational store is a record of tables, each table a list of rows in
    rowid order.  Every method of [DatabaseEnhanced] becomes a function of the
    store; methods that write return the new store.  The recursive query of
    [get_department_hierarchy] is run by the queue algorithm of the SQL
    engine, with an explicit step budget: [None] means the budget ran out. *)

From Stdlib Require Import ZArith List Ascii String Bool Lia Arith DecimalString.
From stdpp Require Import gmap strings list.
Import ListNotations.

Open Scope string_scope.
Open Scope list_scope.
Open Scope Z_scope.

(* ================================================================== *)
(** * Part I: the data model *)
(* ================================================================== *)

(** A TEXT column as [json.loads] sees it: SQL NULL, blank text (which the
    guards [r[5] and r[5].strip()] reject), text that does not decode, or an
    object of capability flags. *)
Inductive json_text :=
| JNull
| JBlank
| JInvalid
| JObject (m : gmap string bool).

(** [permissions = {}] unless the column is non-blank and decodes. *)
Definition decode_permissions (t : json_text) : gmap string bool :=
  match t with
  | JObject m => m
  | _ => ∅
  end.

(** [perms.get(k)] / [perms.get(k, False)] used as a condition. *)
Definition perm_get (perms : gmap string bool) (k : string) : bool :=
  default false (perms !! k).

Module User.
(** Row of [users]; [is_active] is the truth value of the stored flag. *)
Record t := mk { user_id : Z; is_active : bool }.
End User.

Module Department.
Record t := mk {
  id : Z;
  name : string;
  parent_department_id : option Z;
  level : Z;
  is_active : bool
}.
End Department.

Module Role.
(** Row of [roles]: columns 0..5 are id, name, name_ar, description, level,
    permissions. *)
Record t := mk {
  id : Z;
  name : string;
  name_ar : string;
  description : json_text;
  level : Z;
  permissions : json_text
}.
End Role.

Module UserRole.
Record t := mk {
  user_id : Z;
  role_id : Z;
  department_id : option Z;
  is_active : bool;
  assigned_by : option Z;
  assigned_at : Z;
  is_primary : bool
}.
End UserRole.

Module Report.
Record t := mk {
  id : Z;
  title : string;
  content : string;
  report_type : string;
  status : string;
  priority : string;
  visibility : string;
  submitted_by : Z;
  department_id : option Z;
  is_cumulative : bool;
  source_report_ids : option (list Z);
  aggregation_type : option string;
  aggregation_period : option string;
  aggregation_start_date : option Z;
  aggregation_end_date : option Z;
  submitted_at : option Z
}.
End Report.

Module Approval.
Record t := mk {
  report_id : Z;
  approver_id : Z;
  status : string;
  approved_at : option Z
}.
End Approval.

Module Aggregation.
Record t := mk {
  cumulative_report_id : Z;
  source_report_id : Z;
  department_id : option Z
}.
End Aggregation.

Module Summary.
Record t := mk { user_id : Z; summary : string; date : Z }.
End Summary.

(** The database file. *)
Record database := mk_database {
  users : list User.t;
  departments : list Department.t;
  roles : list Role.t;
  user_roles : list UserRole.t;
  reports : list Report.t;
  report_approvals : list Approval.t;
  report_aggregations : list Aggregation.t;
  summaries : list Summary.t
}.

Definition with_users (db : database) (us : list User.t) : database :=
  mk_database us (departments db) (roles db) (user_roles db) (reports db)
    (report_approvals db) (report_aggregations db) (summaries db).

Definition with_user_roles (db : database) (urs : list UserRole.t) : database :=
  mk_database (users db) (departments db) (roles db) urs (reports db)
    (report_approvals db) (report_aggregations db) (summaries db).

Definition with_reports (db : database) (rs : list Report.t) : database :=
  mk_database (users db) (departments db) (roles db) (user_roles db) rs
    (report_approvals db) (report_aggregations db) (summaries db).

Definition with_report_approvals (db : database) (aps : list Approval.t) : database :=
  mk_database (users db) (departments db) (roles db) (user_roles db) (reports db)
    aps (report_aggregations db) (summaries db).

Definition with_report_aggregations (db : database) (ags : list Aggregation.t) : database :=
  mk_database (users db) (departments db) (roles db) (user_roles db) (reports db)
    (report_approvals db) ags (summaries db).

Definition with_summaries (db : database) (ss : list Summary.t) : database :=
  mk_database (users db) (departments db) (roles db) (user_roles db) (reports db)
    (report_approvals db) (report_aggregations db) ss.

(** ** Small Python and SQL idioms *)

(** Equality of two nullable integers as Python's [==] on [int]/[None]. *)
Definition opt_Z_eqb (a b : option Z) : bool :=
  match a, b with
  | Some x, Some y => x =? y
  | None, None => true
  | _, _ => false
  end.

(** SQL [a = b]: never true when either side is NULL. *)
Definition sql_eqb (a b : option Z) : bool :=
  match a, b with
  | Some x, Some y => x =? y
  | _, _ => false
  end.

(** Python truth value of a nullable integer: [None] and [0] are false. *)
Definition truthy (a : option Z) : bool :=
  match a with
  | Some x => negb (x =? 0)
  | None => false
  end.

(** [x in l] for a nullable [x] and a list of integers. *)
Definition opt_in (x : option Z) (l : list Z) : bool :=
  match x with
  | Some v => existsb (Z.eqb v) l
  | None => false
  end.

(** ORDER BY: insertion into a list sorted by [le]. *)
Fixpoint insert_by {A : Type} (le : A -> A -> bool) (x : A) (l : list A) : list A :=
  match l with
  | [] => [x]
  | y :: l' => if le x y then x :: y :: l' else y :: insert_by le x l'
  end.

Definition sort_by {A : Type} (le : A -> A -> bool) (l : list A) : list A :=
  fold_right (insert_by le) [] l.

(** ** Users *)

(** [get_user]: [SELECT * FROM users WHERE user_id = ?], first row. *)
Definition get_user (db : database) (user_id : Z) : option User.t :=
  find (fun u => User.user_id u =? user_id) (users db).

(** The guard every checker starts with, negated:
    [user and user.get('is_active', 1)]. *)
Definition active_user (db : database) (user_id : Z) : bool :=
  match get_user db user_id with
  | Some u => User.is_active u
  | None => false
  end.

(** [deactivate_user]: [UPDATE users SET is_active = 0 WHERE user_id = ?];
    the result is [rowcount > 0]. *)
Definition deactivate_user (db : database) (user_id : Z) : database * bool :=
  (with_users db
     (map (fun u => if User.user_id u =? user_id
                    then User.mk (User.user_id u) false else u) (users db)),
   existsb (fun u => User.user_id u =? user_id) (users db)).

(** ** Departments *)

Definition department_le (a b : Department.t) : bool :=
  (Department.level a <? Department.level b)
  || ((Department.level a =? Department.level b)
      && String.leb (Department.name a) (Department.name b)).

(** [get_all_departments(active_only=True)]:
    [SELECT * FROM departments WHERE is_active = 1 ORDER BY level, name]. *)
Definition get_all_departments (db : database) : list Department.t :=
  sort_by department_le (List.filter Department.is_active (departments db)).

(** The initial select of the recursive query:
    [SELECT id FROM departments WHERE id = ?]. *)
Definition initial_select (depts : list Department.t) (dept_id : option Z) : list Z :=
  map Department.id
    (List.filter (fun d => sql_eqb (Some (Department.id d)) dept_id) depts).

(** The recursive select run with the single row [x] as [dept_tree]:
    [SELECT d.id FROM departments d JOIN dept_tree dt
     ON d.parent_department_id = dt.id]. *)
Definition recursive_select (depts : list Department.t) (x : Z) : list Z :=
  map Department.id
    (List.filter (fun d => sql_eqb (Department.parent_department_id d) (Some x)) depts).

(** [WITH RECURSIVE ... UNION ALL]: the initial rows go to a queue; while the
    queue is not empty, one row is taken from it, emitted, and the rows of the
    recursive select run on that row alone are added to the queue.  UNION ALL
    keeps duplicates.  One unit of [fuel] is one row taken from the queue. *)
Fixpoint dept_tree (fuel : nat) (depts : list Department.t) (queue : list Z)
  : option (list Z) :=
  match queue with
  | [] => Some []
  | x :: q =>
      match fuel with
      | O => None
      | S fuel' =>
          match dept_tree fuel' depts (q ++ recursive_select depts x) with
          | Some out => Some (x :: out)
          | None => None
          end
      end
  end.

(** [get_department_hierarchy]: the rows of [dept_tree], in emission order. *)
Definition get_department_hierarchy (fuel : nat) (db : database) (dept_id : option Z)
  : option (list Z) :=
  dept_tree fuel (departments db) (initial_select (departments db) dept_id).

(** *** Specification side: the department forest *)

(** [descendant depts root x]: [x] is an existing department reachable from
    the existing department [root] by child links ([root] included). *)
Inductive descendant (depts : list Department.t) (root : Z) : Z -> Prop :=
| descendant_root d :
    In d depts -> Department.id d = root -> descendant depts root root
| descendant_child p d :
    descendant depts root p ->
    In d depts -> Department.parent_department_id d = Some p ->
    descendant depts root (Department.id d).

(** The parent links form a forest: some height function strictly decreases
    from every parent to each of its children. *)
Definition acyclic (depts : list Department.t) : Prop :=
  exists rank : Z -> nat,
    forall d p, In d depts -> Department.parent_department_id d = Some p ->
                (rank (Department.id d) < rank p)%nat.

(** Termination measure of the recursive query on a forest: a queued row of
    height [rank x] weighs [(1 + |departments|) ^ rank x], more than all the
    rows its recursive select can add. *)
Definition weight (depts : list Department.t) (rank : Z -> nat) (x : Z) : nat :=
  (S (length depts) ^ rank x)%nat.

Definition queue_weight (depts : list Department.t) (rank : Z -> nat)
  (queue : list Z) : nat :=
  list_sum (map (weight depts rank) queue).

(** How many times [y] is queued as a child of the rows in [out]. *)
Definition queued_as_child (depts : list Department.t) (y : Z) (out : list Z) : nat :=
  list_sum (map (fun x => count_occ Z.eq_dec (recursive_select depts x) y) out).

(** A department table with a parent-link cycle: department 1 is its own
    parent. *)
Definition self_parent_departments : list Department.t :=
  [Department.mk 1 "A" (Some 1) 0 true].

Definition self_parent_db : database :=
  mk_database [] self_parent_departments [] [] [] [] [] [].

(** ** Roles *)

Module RoleInfo.
(** One entry of [get_user_roles]: a role joined with the assignment's
    department. *)
Record t := mk {
  role_id : Z;
  role_name : string;
  role_name_ar : string;
  level : Z;
  permissions : gmap string bool;
  department_id : option Z
}.
End RoleInfo.

(** [get_user_roles]: the active assignments of the user, in table order,
    each joined with its role ([JOIN roles r ON ur.role_id = r.id]).  The
    left join on [departments] only adds the display name and is left out. *)
Definition get_user_roles (db : database) (user_id : Z) : list RoleInfo.t :=
  flat_map
    (fun ur =>
       if (UserRole.user_id ur =? user_id) && UserRole.is_active ur
       then map (fun r => RoleInfo.mk (Role.id r) (Role.name r) (Role.name_ar r)
                            (Role.level r)
                            (decode_permissions (Role.permissions r))
                            (UserRole.department_id ur))
                (List.filter (fun r => Role.id r =? UserRole.role_id ur) (roles db))
       else [])
    (user_roles db).

(** [max(roles, key=lambda x: x['level'])]: the first entry of greatest
    level. *)
Definition max_by_level (first : RoleInfo.t) (rest : list RoleInfo.t) : RoleInfo.t :=
  fold_left (fun best r => if RoleInfo.level best <? RoleInfo.level r then r else best)
    rest first.

(** [get_user_primary_role]: the user's highest-level role. *)
Definition get_user_primary_role (db : database) (user_id : Z) : option RoleInfo.t :=
  match get_user_roles db user_id with
  | [] => None
  | r :: rs => Some (max_by_level r rs)
  end.

(** [get_user_department]: the department of the highest role. *)
Definition get_user_department (db : database) (user_id : Z) : option Z :=
  match get_user_primary_role db user_id with
  | Some r => RoleInfo.department_id r
  | None => None
  end.

(** [has_permission]: some active role of the user carries the flag. *)
Definition has_permission (db : database) (user_id : Z) (permission : string) : bool :=
  existsb (fun r => perm_get (RoleInfo.permissions r) permission)
    (get_user_roles db user_id).

(** [can_access_department] of the persistence layer. *)
Definition can_access_department (fuel : nat) (db : database) (user_id : Z)
  (dept_id : option Z) : option bool :=
  match get_user_primary_role db user_id with
  | None => Some false
  | Some user_role =>
      if String.eqb (RoleInfo.role_name user_role) "admin" then Some true
      else
        let user_dept := RoleInfo.department_id user_role in
        if negb (truthy user_dept) then Some false
        else if opt_Z_eqb user_dept dept_id then Some true
        else if perm_get (RoleInfo.permissions user_role) "can_view_subdepartments"
        then match get_department_hierarchy fuel db user_dept with
             | Some dept_hierarchy => Some (opt_in dept_id dept_hierarchy)
             | None => None
             end
        else Some false
  end.

(** ** Reports (reads) *)

(** [get_report]: the report row inner-joined with its submitter and its
    department, first row. *)
Definition get_report (db : database) (report_id : Z) : option Report.t :=
  find (fun r =>
          (Report.id r =? report_id)
          && existsb (fun u => User.user_id u =? Report.submitted_by r) (users db)
          && existsb (fun d => sql_eqb (Report.department_id r) (Some (Department.id d)))
               (departments db))
    (reports db).

(** ** Access control ([AccessControl]) *)

Definition can_create_report (db : database) (user_id : Z) : bool :=
  if negb (active_user db user_id) then false
  else has_permission db user_id "can_create_report".

Definition can_view_report (fuel : nat) (db : database) (user_id report_id : Z)
  : option bool :=
  if negb (active_user db user_id) then Some false
  else match get_report db report_id with
       | None => Some false
       | Some report =>
           if Report.submitted_by report =? user_id then Some true
           else if String.eqb (Report.visibility report) "public" then Some true
           else can_access_department fuel db user_id (Report.department_id report)
       end.

Definition can_approve_report (fuel : nat) (db : database) (user_id report_id : Z)
  : option bool :=
  if negb (active_user db user_id) then Some false
  else if negb (has_permission db user_id "can_approve") then Some false
  else match get_report db report_id with
       | None => Some false
       | Some report =>
           if Report.submitted_by report =? user_id then Some false
           else can_access_department fuel db user_id (Report.department_id report)
       end.

Definition can_create_cumulative_report (db : database) (user_id : Z) : bool :=
  if negb (active_user db user_id) then false
  else has_permission db user_id "can_create_cumulative".

Definition can_manage_users (db : database) (user_id : Z) : bool :=
  if negb (active_user db user_id) then false
  else has_permission db user_id "can_manage_users".

Definition can_manage_departments (db : database) (user_id : Z) : bool :=
  if negb (active_user db user_id) then false
  else has_permission db user_id "can_manage_departments".

(** [role and role['role_name'] == 'admin'], as a truth value. *)
Definition is_admin (db : database) (user_id : Z) : bool :=
  if negb (active_user db user_id) then false
  else match get_user_primary_role db user_id with
       | Some role => String.eqb (RoleInfo.role_name role) "admin"
       | None => false
       end.

Definition is_upper_manager (db : database) (user_id : Z) : bool :=
  if negb (active_user db user_id) then false
  else match get_user_primary_role db user_id with
       | Some role =>
           existsb (String.eqb (RoleInfo.role_name role)) ["upper_manager"; "admin"]
       | None => false
       end.

Definition is_manager (db : database) (user_id : Z) : bool :=
  if negb (active_user db user_id) then false
  else match get_user_primary_role db user_id with
       | Some role =>
           existsb (String.eqb (RoleInfo.role_name role))
             ["manager"; "upper_manager"; "admin"]
       | None => false
       end.

Definition get_accessible_departments (fuel : nat) (db : database) (user_id : Z)
  : option (list Z) :=
  if negb (active_user db user_id) then Some []
  else match get_user_primary_role db user_id with
       | None => Some []
       | Some user_role =>
           if String.eqb (RoleInfo.role_name user_role) "admin"
           then Some (map Department.id (get_all_departments db))
           else
             let user_dept := RoleInfo.department_id user_role in
             if negb (truthy user_dept) then Some []
             else if perm_get (RoleInfo.permissions user_role) "can_view_subdepartments"
             then get_department_hierarchy fuel db user_dept
             else if perm_get (RoleInfo.permissions user_role) "can_view_department"
             then Some (match user_dept with Some d => [d] | None => [] end)
             else Some []
       end.

(** *** Specification side: who may reach which department *)

(** [primary] is the user's highest-level active role: an active role of the
    user that no other active role of theirs outranks; none when the user has
    no active role. *)
Definition highest_active_role (db : database) (user_id : Z)
  (primary : option RoleInfo.t) : Prop :=
  match primary with
  | Some r =>
      In r (get_user_roles db user_id)
      /\ forall r', In r' (get_user_roles db user_id) ->
                    RoleInfo.level r' <= RoleInfo.level r
  | None => get_user_roles db user_id = []
  end.



(** What [can_access_department] grants: everything to admin; to anyone else
    with a department set, that very department and, with sub-tree
    visibility, its descendants. *)
Definition department_access (db : database) (user_id : Z) (d : option Z) : Prop :=
  exists r, get_user_primary_role db user_id = Some r /\
    (String.eqb (RoleInfo.role_name r) "admin" = true
     \/ (String.eqb (RoleInfo.role_name r) "admin" = false
         /\ truthy (RoleInfo.department_id r) = true
         /\ (RoleInfo.department_id r = d
             \/ (perm_get (RoleInfo.permissions r) "can_view_subdepartments" = true
                 /\ exists root x, RoleInfo.department_id r = Some root
                                   /\ d = Some x
                                   /\ descendant (departments db) root x)))).

(** ** A small organisation *)

(** The role catalogue inserted by [scripts/migrate_database.py]; the
    descriptions are English sentences, which do not decode as JSON. *)
Definition default_roles : list Role.t :=
  [ Role.mk 1 "employee" "موظف" JInvalid 10
      (JObject {[ "can_create_report" := true; "can_view_own" := true;
                  "can_view_department" := false; "can_approve" := false;
                  "can_create_cumulative" := false ]});
    Role.mk 2 "manager" "مدير" JInvalid 50
      (JObject {[ "can_create_report" := true; "can_view_own" := true;
                  "can_view_department" := true; "can_approve" := true;
                  "can_create_cumulative" := false ]});
    Role.mk 3 "upper_manager" "مدير أعلى" JInvalid 70
      (JObject {[ "can_create_report" := true; "can_view_own" := true;
                  "can_view_department" := true; "can_view_subdepartments" := true;
                  "can_approve" := true; "can_create_cumulative" := true ]});
    Role.mk 4 "admin" "مسؤول النظام" JInvalid 99
      (JObject {[ "can_create_report" := true; "can_view_all" := true;
                  "can_approve" := true; "can_create_cumulative" := true;
                  "can_manage_users" := true; "can_manage_departments" := true ]}) ].

Definition plain_report (id : Z) (status : string) (visibility : string)
  (submitted_by : Z) (department_id : option Z) : Report.t :=
  Report.mk id "title" "content" "daily" status "normal" visibility submitted_by
    department_id false None None None None None None.

(** Departments A = 1 (root) and B = 2 (child of A); admin 10,
    upper-manager U = 11 in A, manager M = 12 in B, employee E = 13 in B;
    E's report 100 and M's own report 101, both in B. *)
Definition org_db : database :=
  mk_database
    [User.mk 10 true; User.mk 11 true; User.mk 12 true; User.mk 13 true]
    [Department.mk 1 "A" None 0 true; Department.mk 2 "B" (Some 1) 1 true]
    default_roles
    [UserRole.mk 10 4 None true None 0 true;
     UserRole.mk 11 3 (Some 1) true (Some 10) 0 true;
     UserRole.mk 12 2 (Some 2) true (Some 10) 0 true;
     UserRole.mk 13 1 (Some 2) true (Some 10) 0 true]
    [plain_report 100 "submitted" "department" 13 (Some 2);
     plain_report 101 "submitted" "department" 12 (Some 2)]
    [] [] [].

Definition org_rank (x : Z) : nat := if x =? 1 then 1%nat else 0%nat.

(** The same organisation after employee 13 has been deactivated. *)
Definition org_db_deactivated : database := fst (deactivate_user org_db 13).

(** The organisation after the web panel's [remove_department] has
    soft-deleted department B ([UPDATE departments SET is_active = 0]). *)
Definition org_db_b_removed : database :=
  mk_database (users org_db)
    [Department.mk 1 "A" None 0 true; Department.mk 2 "B" (Some 1) 1 false]
    (roles org_db) (user_roles org_db) (reports org_db) [] [] [].


(** ** Python values, exceptions and replies *)

(** The values stored in the dictionary [get_role_by_name] returns. *)
Inductive pyval :=
| PyInt (z : Z)
| PyStr (s : string)
| PyPerms (m : gmap string bool).

Inductive py_exception :=
| KeyError (key : string)
| TypeError
| IntegrityError.

(** A call either returns or raises. *)
Inductive outcome (A : Type) :=
| Returns (a : A)
| Raises (e : py_exception).
Arguments Returns {A} a.
Arguments Raises {A} e.

(** The fixed texts of [permissions.py], by meaning. *)
Inductive denial :=
| AccountInactive            (* the account is not active *)
| NoCreatePermission         (* no permission to create reports *)
| ReportsOwnDepartmentOnly   (* reports only in one's own department *)
| NoManageUsersPermission    (* no permission to manage users *)
| RoleNotFound (role_name : string)
| RoleNotBelowOwn            (* cannot grant a role higher than one's own *)
| RolesOwnDepartmentOnly     (* roles only in one's own department *)
| NoMessage.                 (* the empty string of an allow *)

(** [get_role_by_name] as the class ends up defining it: the class body
    defines the method twice and the later definition replaces the earlier
    one.  It reads column 2 as the display name and column 3 as the
    permissions text, and its dictionary has no ['level'] entry. *)
Definition get_role_by_name (db : database) (role_name : string)
  : option (gmap string pyval) :=
  match find (fun r => String.eqb (Role.name r) role_name) (roles db) with
  | Some row =>
      Some {[ "id" := PyInt (Role.id row);
              "name" := PyStr (Role.name row);
              "display_name" := PyStr (Role.name_ar row);
              "permissions" := PyPerms (decode_permissions (Role.description row)) ]}
  | None => None
  end.

(** [d[k]]: a missing key raises [KeyError]. *)
Definition getitem (d : gmap string pyval) (k : string) : outcome pyval :=
  match d !! k with
  | Some v => Returns v
  | None => Raises (KeyError k)
  end.

(** [can_assign_role] of [AccessControl]. *)
Definition can_assign_role (db : database) (assigner_id target_user_id : Z)
  (role_name : string) (department_id : option Z) : outcome (bool * denial) :=
  if negb (active_user db assigner_id) then Returns (false, AccountInactive)
  else if negb (can_manage_users db assigner_id)
  then Returns (false, NoManageUsersPermission)
  else
    let assigner_role := get_user_primary_role db assigner_id in
    match get_role_by_name db role_name with
    | None => Returns (false, RoleNotFound role_name)
    | Some target_role =>
        match getitem target_role "level" with
        | Raises e => Raises e
        | Returns target_level =>
            match assigner_role, target_level with
            | Some assigner_role, PyInt target_level =>
                if target_level >=? RoleInfo.level assigner_role
                then Returns (false, RoleNotBelowOwn)
                else if String.eqb (RoleInfo.role_name assigner_role) "admin"
                then Returns (true, NoMessage)
                else if negb (opt_Z_eqb department_id
                                (RoleInfo.department_id assigner_role))
                then Returns (false, RolesOwnDepartmentOnly)
                else Returns (true, NoMessage)
            | _, _ => Raises TypeError
            end
        end
    end.

(** ** Role assignment *)

(** The UNIQUE(user_id, role_id, department_id) constraint of [user_roles]:
    the new key collides with a stored row.  As in SQL, a NULL department is
    distinct from every department, NULL included. *)
Definition unique_violation (rows : list UserRole.t) (user_id role_id : Z)
  (department_id : option Z) : bool :=
  existsb (fun ur =>
             (UserRole.user_id ur =? user_id)
             && (UserRole.role_id ur =? role_id)
             && sql_eqb (UserRole.department_id ur) department_id)
    rows.

(** The row matched by
    [WHERE user_id = ? AND role_id = ? AND department_id IS ?]. *)
Definition same_assignment (user_id role_id : Z) (department_id : option Z)
  (ur : UserRole.t) : bool :=
  (UserRole.user_id ur =? user_id)
  && (UserRole.role_id ur =? role_id)
  && opt_Z_eqb (UserRole.department_id ur) department_id.

(** [UPDATE user_roles SET is_primary = 0 WHERE user_id = ?]. *)
Definition unset_primary (user_id : Z) (rows : list UserRole.t) : list UserRole.t :=
  map (fun ur =>
         if UserRole.user_id ur =? user_id
         then UserRole.mk (UserRole.user_id ur) (UserRole.role_id ur)
                (UserRole.department_id ur) (UserRole.is_active ur)
                (UserRole.assigned_by ur) (UserRole.assigned_at ur) false
         else ur)
    rows.

(** The row of [INSERT INTO user_roles (user_id, role_id, department_id,
    assigned_by, is_primary)]; [is_active] and [assigned_at] take their
    defaults, 1 and the current time. *)
Definition new_assignment (now user_id role_id : Z) (department_id assigned_by : option Z)
  (is_primary : bool) : UserRole.t :=
  UserRole.mk user_id role_id department_id true assigned_by now is_primary.

(** [UPDATE user_roles SET is_active = 1, is_primary = ?, assigned_by = ?,
    assigned_at = CURRENT_TIMESTAMP WHERE ...]. *)
Definition refresh_assignment (now user_id role_id : Z)
  (department_id assigned_by : option Z) (is_primary : bool)
  (rows : list UserRole.t) : list UserRole.t :=
  map (fun ur =>
         if same_assignment user_id role_id department_id ur
         then UserRole.mk (UserRole.user_id ur) (UserRole.role_id ur)
                (UserRole.department_id ur) true assigned_by now is_primary
         else ur)
    rows.

(** [assign_role]; [now] is the clock read by CURRENT_TIMESTAMP.  The result
    pairs the committed store with the value returned. *)
Definition assign_role (now : Z) (db : database) (user_id : Z) (role_name : string)
  (department_id assigned_by : option Z) (is_primary : bool) : database * bool :=
  match get_role_by_name db role_name with
  | None => (db, false)
  | Some role =>
      match getitem role "id" with
      | Returns (PyInt role_id) =>
          let rows1 := if is_primary then unset_primary user_id (user_roles db)
                       else user_roles db in
          if negb (unique_violation rows1 user_id role_id department_id)
          then (with_user_roles db
                  (rows1 ++ [new_assignment now user_id role_id department_id
                               assigned_by is_primary]),
                true)
          else
            (* except sqlite3.IntegrityError *)
            let rows2 := refresh_assignment now user_id role_id department_id
                           assigned_by is_primary rows1 in
            if existsb (same_assignment user_id role_id department_id) rows1
            then (with_user_roles db rows2, true)
            else
              (* rowcount == 0: delete the primary rows and insert again *)
              let rows3 := List.filter
                             (fun ur => negb ((UserRole.user_id ur =? user_id)
                                              && UserRole.is_primary ur))
                             rows2 in
              if negb (unique_violation rows3 user_id role_id department_id)
              then (with_user_roles db
                      (rows3 ++ [new_assignment now user_id role_id department_id
                                   assigned_by is_primary]),
                    true)
              else (* except Exception: rollback *) (db, false)
      | _ => (db, false)
      end
  end.

(** The store after the web panel has made user 20 an admin once
    ([assign_role(20, 'admin', None, assigned_by=10)] at time 5) and the
    assignment was then revoked ([UPDATE user_roles SET is_active = 0]). *)
Definition revoked_admin_db : database :=
  mk_database [User.mk 10 true; User.mk 20 true] [] default_roles
    [UserRole.mk 10 4 None true None 0 true;
     UserRole.mk 20 4 None false (Some 10) 5 true]
    [] [] [] [].

(** ** Reports (writes) *)

(** [cursor.lastrowid] of an AUTOINCREMENT table that never loses rows. *)
Definition next_id (ids : list Z) : Z := 1 + fold_right Z.max 0 ids.

(** [create_report]: the row takes the status it is given; the submission
    time is stamped unless the status is ['draft'].  Visibility and the
    cumulative flag take their column defaults. *)
Definition create_report (now : Z) (db : database) (title content report_type : string)
  (user_id department_id : Z) (status priority : string) : database * Z :=
  let report_id := next_id (map Report.id (reports db)) in
  let submitted_at := if negb (String.eqb status "draft") then Some now else None in
  (with_reports db
     (reports db ++
      [Report.mk report_id title content report_type status priority "department"
         user_id (Some department_id) false None None None None None submitted_at]),
   report_id).

Definition set_status (status : string) (submitted_at : option Z) (r : Report.t)
  : Report.t :=
  Report.mk (Report.id r) (Report.title r) (Report.content r) (Report.report_type r)
    status (Report.priority r) (Report.visibility r) (Report.submitted_by r)
    (Report.department_id r) (Report.is_cumulative r) (Report.source_report_ids r)
    (Report.aggregation_type r) (Report.aggregation_period r)
    (Report.aggregation_start_date r) (Report.aggregation_end_date r) submitted_at.

(** [update_report_status]: [UPDATE reports SET status = ? WHERE id = ?],
    with the submission time as well when the new status is ['submitted'].
    The current status is not read.  The result is [rowcount > 0]. *)
Definition update_report_status (now : Z) (db : database) (report_id : Z)
  (status : string) : database * bool :=
  (with_reports db
     (map (fun r =>
             if Report.id r =? report_id
             then set_status status
                    (if String.eqb status "submitted" then Some now
                     else Report.submitted_at r) r
             else r)
        (reports db)),
   existsb (fun r => Report.id r =? report_id) (reports db)).

(** [add_approval]: one more row of [report_approvals]. *)
Definition add_approval (now : Z) (db : database) (report_id approver_id : Z)
  (status : string) : database :=
  with_report_approvals db
    (report_approvals db ++
     [Approval.mk report_id approver_id status
        (if String.eqb status "approved" then Some now else None)]).

(** [create_cumulative_report]: the report row is inserted with type
    ['cumulative'], status ['submitted'] and the cumulative flag, then one
    aggregation row per source report.  [reports.department_id] is NOT NULL,
    so a null department raises before anything is committed. *)
Definition create_cumulative_report (now : Z) (db : database) (title : string)
  (source_report_ids : list Z) (aggregation_type aggregation_period : string)
  (user_id : Z) (department_id : option Z) (content : string)
  (start_date end_date : option Z) : outcome (database * Z) :=
  match department_id with
  | None => Raises IntegrityError
  | Some _ =>
      let cumulative_id := next_id (map Report.id (reports db)) in
      let row :=
        Report.mk cumulative_id title content "cumulative" "submitted" "normal"
          "department" user_id department_id true (Some source_report_ids)
          (Some aggregation_type) (Some aggregation_period) start_date end_date
          (Some now) in
      let reports' := reports db ++ [row] in
      let aggregations :=
        map (fun source_id =>
               Aggregation.mk cumulative_id source_id
                 (match find (fun r => Report.id r =? source_id) reports' with
                  | Some r => Report.department_id r
                  | None => None
                  end))
          source_report_ids in
      Returns
        (with_report_aggregations (with_reports db reports')
           (report_aggregations db ++ aggregations),
         cumulative_id)
  end.

(** [DATE(t)] of a timestamp in seconds, as a day number. *)
Definition date_of (t : Z) : Z := t / 86400.

(** NULLs sort first in ascending order. *)
Definition opt_Z_leb (a b : option Z) : bool :=
  match a, b with
  | None, _ => true
  | Some _, None => false
  | Some x, Some y => x <=? y
  end.

(** [ORDER BY r.department_id, r.submitted_at DESC]. *)
Definition hierarchical_le (a b : Report.t * string) : bool :=
  let dept_a := Report.department_id (fst a) in
  let dept_b := Report.department_id (fst b) in
  if opt_Z_eqb dept_a dept_b
  then opt_Z_leb (Report.submitted_at (fst b)) (Report.submitted_at (fst a))
  else opt_Z_leb dept_a dept_b.

(** [get_hierarchical_reports] with a status and both dates given: the
    reports of the department sub-tree in that status and date range, joined
    with their submitter and their department's name. *)
Definition get_hierarchical_reports (fuel : nat) (db : database) (dept_id : option Z)
  (start_date end_date : Z) (status : string)
  : option (list (Report.t * string)) :=
  match get_department_hierarchy fuel db dept_id with
  | None => None
  | Some dept_ids =>
      Some
        (sort_by hierarchical_le
           (flat_map
              (fun r =>
                 if opt_in (Report.department_id r) dept_ids
                    && existsb (fun u => User.user_id u =? Report.submitted_by r)
                         (users db)
                    && String.eqb (Report.status r) status
                    && match Report.submitted_at r with
                       | Some t => (start_date <=? date_of t) && (date_of t <=? end_date)
                       | None => false
                       end
                 then map (fun d => (r, Department.name d))
                        (List.filter
                           (fun d => sql_eqb (Report.department_id r)
                                       (Some (Department.id d)))
                           (departments db))
                 else [])
              (reports db)))
  end.

(** [get_user_reports]: the user's reports that join a department, newest
    first, at most [limit] of them.  Rows are stored in creation order and
    the row model has no [created_at]: [ORDER BY r.created_at DESC] is read
    as the reverse of that order, which is what the query gives for rows
    created in different seconds.  Rows created within one second compare
    equal in the query and come back oldest first; the model does not
    follow it there. *)
Definition get_user_reports (db : database) (user_id : Z) (limit : nat)
  : list Report.t :=
  firstn limit
    (rev (List.filter
            (fun r =>
               (Report.submitted_by r =? user_id)
               && existsb (fun d => sql_eqb (Report.department_id r)
                                      (Some (Department.id d)))
                    (departments db))
            (reports db))).

(** [save_summary]: one more row of [summaries]. *)
Definition save_summary (db : database) (user_id : Z) (summary : string) (date : Z)
  : database :=
  with_summaries db (summaries db ++ [Summary.mk user_id summary date]).

(** [validate_report_creation] of [AccessControl]. *)
Definition validate_report_creation (db : database) (user_id : Z)
  (department_id : option Z) : bool * denial :=
  if negb (active_user db user_id) then (false, AccountInactive)
  else if negb (can_create_report db user_id) then (false, NoCreatePermission)
  else
    let user_dept := get_user_department db user_id in
    match get_user_primary_role db user_id with
    | Some user_role =>
        if String.eqb (RoleInfo.role_name user_role) "admin" then (true, NoMessage)
        else if negb (opt_Z_eqb department_id user_dept)
        then (false, ReportsOwnDepartmentOnly)
        else (true, NoMessage)
    | None =>
        if negb (opt_Z_eqb department_id user_dept)
        then (false, ReportsOwnDepartmentOnly)
        else (true, NoMessage)
    end.

(** ** The summarisation client *)

(** String concatenation, Python's [+] and f-strings. *)
Infix "+++" := String.append (at level 60, right associativity).

Definition nl : string := String "010"%char EmptyString.

(** What the text-generation service hands back for one candidate:
    [finish_reason] when the attribute is there, and the text of the first
    content part when it can be read. *)
Record candidate := mk_candidate {
  finish_reason : option Z;
  first_part_text : option string
}.

(** The outcome of [model.generate_content]: the call raises (network,
    quota) with [str(e)], or it answers with its candidates ([None] when the
    attribute is missing) and [response.text] ([None] when reading it
    raises, as it does for blocked content). *)
Inductive generate_result :=
| GenerateRaises (error_msg : string)
| GenerateResponse (candidates : option (list candidate)) (text : option string).

Definition safety_msg : string :=
  "تم حظر المحتوى بواسطة فلاتر الأمان." +++ nl +++ nl
  +++ "السبب المحتمل: المحادثات تحتوي على محتوى حساس." +++ nl
  +++ "الحل: حاول مع محادثات مختلفة أو استخدم /clear لمسح المحادثات.".

(** [summarize_text]: every path, failure included, returns a string. *)
Definition summarize_text (generate_content : string -> generate_result)
  (text language : string) : string :=
  let ar := String.eqb language "ar" in
  let prompt :=
    if ar
    then "قم بتلخيص النص التالي باللغة العربية بشكل مختصر ومفيد:" +++ nl +++ nl +++ text
    else "Please summarize the following text concisely:" +++ nl +++ nl +++ text in
  match generate_content prompt with
  | GenerateRaises error_msg =>
      if ar then "عذراً، حدث خطأ في التلخيص:" +++ nl +++ error_msg
      else "Sorry, error in summarization:" +++ nl +++ error_msg
  | GenerateResponse None _ | GenerateResponse (Some []) _ =>
      if ar then "لا يوجد رد من النموذج" else "No response from model"
  | GenerateResponse (Some (candidate :: _)) response_text =>
      let extract :=
        match response_text with
        | Some result_text => result_text
        | None =>
            match first_part_text candidate with
            | Some result_text => result_text
            | None =>
                if ar then "لا يمكن استخراج النص من الرد"
                else "Cannot extract text from response"
            end
        end in
      match finish_reason candidate with
      | Some reason =>
          if reason =? 2
          then if ar then safety_msg
               else "Content blocked by safety filters. Try different conversations."
          else if reason =? 3
          then if ar then "المحتوى محمي بحقوق النشر"
               else "Content protected by copyright"
          else if reason =? 4
          then if ar then "فشل في التلخيص لأسباب فنية"
               else "Failed due to technical reasons"
          else extract
      | None => extract
      end
  end.

(** ** Bot handlers *)

Inductive save_reply :=
| SaveNoDepartment
| SaveDenied (msg : denial)
| SaveSubmitted (report_id : Z)
| SaveDraft (report_id : Z).

(** [save_report]: the last step of the report wizard; [action] is the
    callback data, ['submit_report'] or ['draft_report']. *)
Definition save_report (now : Z) (db : database) (user_id : Z)
  (action title content report_type : string) : database * save_reply :=
  match get_user_department db user_id with
  | None => (db, SaveNoDepartment)
  | Some user_dept =>
      if user_dept =? 0 then (db, SaveNoDepartment)
      else
        let '(valid, msg) := validate_report_creation db user_id (Some user_dept) in
        if negb valid then (db, SaveDenied msg)
        else
          let status := if String.eqb action "submit_report" then "submitted"
                        else "draft" in
          let '(db', report_id) :=
            create_report now db title content report_type user_id user_dept
              status "normal" in
          if String.eqb action "submit_report" then (db', SaveSubmitted report_id)
          else (db', SaveDraft report_id)
  end.

Inductive approve_reply :=
| ApproveUsage
| ApproveDenied
| Approved (report_id : Z).

(** [approve_button_callback]: the permission check, then the approval row
    and the status update. *)
Definition approve_button_callback (fuel : nat) (now : Z) (db : database)
  (user_id report_id : Z) : option (database * approve_reply) :=
  match can_approve_report fuel db user_id report_id with
  | None => None
  | Some false => Some (db, ApproveDenied)
  | Some true =>
      let db1 := add_approval now db report_id user_id "approved" in
      Some (fst (update_report_status now db1 report_id "approved"),
            Approved report_id)
  end.

(** [approve_report_command]: [arg] is the report number of the command,
    [None] when it is missing or not made of digits. *)
Definition approve_report_command (fuel : nat) (now : Z) (db : database)
  (user_id : Z) (arg : option Z) : option (database * approve_reply) :=
  match arg with
  | None => Some (db, ApproveUsage)
  | Some report_id => approve_button_callback fuel now db user_id report_id
  end.

Inductive cumulative_reply :=
| NoApprovedReports
| CumulativeCreated (cumulative_id : Z) (summary : string).

Definition period_days (period : string) : Z :=
  if String.eqb period "weekly" then 7
  else if String.eqb period "monthly" then 30
  else if String.eqb period "quarterly" then 90
  else 7.

(** [cumulative_period_handler]; [period] is the callback data without its
    ['cum_'] prefix.  The summary returned by [summarize_text] goes into the
    new report as it is. *)
Definition cumulative_period_handler (fuel : nat) (now : Z)
  (generate_content : string -> generate_result) (db : database) (user_id : Z)
  (period : string) : option (outcome (database * cumulative_reply)) :=
  let end_date := date_of now in
  let start_date := date_of (now - period_days period * 86400) in
  let user_dept := get_user_department db user_id in
  match get_department_hierarchy fuel db user_dept with
  | None => None
  | Some accessible_depts =>
      match get_hierarchical_reports fuel db user_dept start_date end_date "approved" with
      | None => None
      | Some [] => Some (Returns (db, NoApprovedReports))
      | Some reports =>
          let combined_text :=
            String.concat (nl +++ nl +++ "---" +++ nl +++ nl)
              (map (fun r => "تقرير من " +++ snd r +++ ":" +++ nl +++ Report.content (fst r))
                 reports) in
          let summary := summarize_text generate_content combined_text "ar" in
          match create_cumulative_report now db ("تقرير تجميعي - " +++ period)
                  (map (fun r => Report.id (fst r)) reports) "summary" period
                  user_id user_dept summary (Some start_date) (Some end_date) with
          | Raises e => Some (Raises e)
          | Returns (db', cumulative_id) =>
              Some (Returns (db', CumulativeCreated cumulative_id summary))
          end
      end
  end.

Inductive summary_reply :=
| NothingToSummarise
| NoContentToSummarise
| SummaryFailed (summary : string)
| SummarySaved (summary : string).

(** The test [summary_command] applies to what [summarize_text] returned:
    [summary.startswith("عذراً") or summary.startswith("تم حظر")]. *)
Definition is_error_summary (summary : string) : bool :=
  String.prefix "عذراً" summary || String.prefix "تم حظر" summary.

(** [summary_command] of [bot/handlers.py]: summarise the user's last ten
    reports; an error summary is reported and not saved.  A block is added
    to the text only for a report with content, so the text is blank exactly
    when it is empty. *)
Definition summary_command (now : Z) (generate_content : string -> generate_result)
  (db : database) (user_id : Z) : database * summary_reply :=
  match get_user_reports db user_id 10 with
  | [] => (db, NothingToSummarise)
  | reports =>
      let reports_text :=
        String.concat ""
          (flat_map
             (fun ir =>
                match get_report db (Report.id (snd ir)) with
                | Some full_report =>
                    if negb (String.eqb (Report.content full_report) "")
                    then [nl +++ nl +++ "--- التقرير "
                          +++ NilEmpty.string_of_uint (Nat.to_uint (fst ir)) +++ ": "
                          +++ Report.title full_report +++ " ---" +++ nl
                          +++ "النوع: " +++ Report.report_type full_report +++ nl
                          +++ "الحالة: " +++ Report.status full_report +++ nl
                          +++ "المحتوى:" +++ nl +++ Report.content full_report +++ nl]
                    else []
                | None => []
                end)
             (combine (seq 1 (length reports)) reports)) in
      if String.eqb reports_text "" then (db, NoContentToSummarise)
      else
        let summary := summarize_text generate_content reports_text "ar" in
        if is_error_summary summary then (db, SummaryFailed summary)
        else (save_summary db user_id summary (date_of now), SummarySaved summary)
  end.

(** *** Report life cycle *)

(** The status of report [report_id], read from the first row of that id. *)
Definition status_of (db : database) (report_id : Z) : option string :=
  match find (fun r => Report.id r =? report_id) (reports db) with
  | Some r => Some (Report.status r)
  | None => None
  end.

(** One interaction with the bot that can touch the reports table, or any
    other operation, which leaves that table as it is. *)
Inductive handler_step (db : database) : database -> Prop :=
| step_save_report now user_id action title content report_type :
    handler_step db
      (fst (save_report now db user_id action title content report_type))
| step_approve_command fuel now user_id arg db' reply :
    approve_report_command fuel now db user_id arg = Some (db', reply) ->
    handler_step db db'
| step_approve_button fuel now user_id report_id db' reply :
    approve_button_callback fuel now db user_id report_id = Some (db', reply) ->
    handler_step db db'
| step_cumulative fuel now generate_content user_id period db' reply :
    cumulative_period_handler fuel now generate_content db user_id period
    = Some (Returns (db', reply)) ->
    handler_step db db'
| step_other db' :
    reports db' = reports db ->
    handler_step db db'.

Inductive reachable (init : database) : database -> Prop :=
| reachable_init : reachable init init
| reachable_step db db' :
    reachable init db -> handler_step db db' -> reachable init db'.

(** What the approve handlers do to one row of [reports]. *)
Definition approve_row (report_id : Z) (r : Report.t) : Report.t :=
  if Report.id r =? report_id then set_status "approved" (Report.submitted_at r) r
  else r.

(** Every cumulative report is submitted or approved, and every report is a
    draft, submitted or approved. *)
Definition lifecycle_ok (r : Report.t) : Prop :=
  (Report.status r = "draft" \/ Report.status r = "submitted"
   \/ Report.status r = "approved")
  /\ (Report.is_cumulative r = true -> Report.status r <> "draft").

Definition lifecycle_invariant (db : database) : Prop :=
  Forall lifecycle_ok (reports db).

(** [create_department]: the level is one more than the parent's when the
    parent row exists, 0 otherwise; the parent reference itself is stored
    unchecked.  [departments.name] is UNIQUE. *)
Definition create_department (db : database) (name : string) (parent_id : option Z)
  : outcome (database * Z) :=
  let level :=
    if truthy parent_id
    then match find (fun d => sql_eqb (Some (Department.id d)) parent_id)
                 (departments db) with
         | Some parent => Department.level parent + 1
         | None => 0
         end
    else 0 in
  if existsb (fun d => String.eqb (Department.name d) name) (departments db)
  then Raises IntegrityError
  else
    let dept_id := next_id (map Department.id (departments db)) in
    Returns
      (mk_database (users db)
         (departments db ++ [Department.mk dept_id name parent_id level true])
         (roles db) (user_roles db) (reports db) (report_approvals db)
         (report_aggregations db) (summaries db),
       dept_id).

(** ** Stores and services for the report workflow *)

(** The organisation with one more report: draft 102 of employee 13. *)
Definition draft_db : database :=
  with_reports org_db
    (reports org_db ++ [plain_report 102 "draft" "department" 13 (Some 2)]).

(** The organisation at a time when report 100 has been approved; it was
    submitted at second 1000000 (day 11). *)
Definition approved_db : database :=
  with_reports org_db
    [Report.mk 100 "title" "content" "daily" "approved" "normal" "department" 13
       (Some 2) false None None None None None (Some 1000000);
     plain_report 101 "submitted" "department" 12 (Some 2)].

(** The service blocks the content: one candidate with finish reason 2
    (SAFETY), no readable text. *)
Definition blocking_service (prompt : string) : generate_result :=
  GenerateResponse (Some [mk_candidate (Some 2) None]) None.

(** The service answers normally. *)
Definition answering_service (prompt : string) : generate_result :=
  GenerateResponse (Some [mk_candidate (Some 1) (Some "digest")]) (Some "digest").

(** The row [cumulative_period_handler] stores for upper-manager 11 at
    second 1000500 when the service blocks the content. *)
Definition blocked_cumulative_report : Report.t :=
  Report.mk 102 ("تقرير تجميعي - " +++ "weekly") safety_msg "cumulative" "submitted"
    "normal" "department" 11 (Some 1) true (Some [100]) (Some "summary")
    (Some "weekly") (Some 4) (Some 11) (Some 1000500).

(* ------------------------------------------------------------------ *)
(** ** Accounts, registration and the hidden admin commands *)
(* ------------------------------------------------------------------ *)

(** [add_user]: [INSERT OR REPLACE INTO users (...) VALUES (..., 1)].  The
    row with the same primary key, if any, is replaced; the new row is
    active.  The name and contact columns are not part of the row model, and
    the bot passes no email, so the primary key is the only key that can
    collide. *)
Definition add_user (db : database) (user_id : Z) : database :=
  with_users db
    (List.filter (fun u => negb (User.user_id u =? user_id)) (users db)
     ++ [User.mk user_id true]).

(** [start] of [bot/handlers.py]: stores the user, then greets. *)
Definition start (db : database) (user_id : Z) : database := add_user db user_id.

(** [get_department]: [SELECT * FROM departments WHERE id = ?], first row. *)
Definition get_department (db : database) (dept_id : Z) : option Department.t :=
  find (fun d => Department.id d =? dept_id) (departments db).

(** [get_subdepartments]: the active rows whose parent is [dept_id]. *)
Definition get_subdepartments (db : database) (dept_id : Z) : list Department.t :=
  List.filter
    (fun d => sql_eqb (Department.parent_department_id d) (Some dept_id)
              && Department.is_active d)
    (departments db).

Inductive register_reply :=
| RegisterNoDepartments
| RegisterChoose (buttons : list (string * Z)).

(** [register_command]: stores the user like [start], then offers the first
    ten active departments. *)
Definition register_command (db : database) (user_id : Z)
  : database * register_reply :=
  let db' := add_user db user_id in
  match get_all_departments db' with
  | [] => (db', RegisterNoDepartments)
  | depts =>
      (db', RegisterChoose
              (map (fun d => (Department.name d, Department.id d)) (firstn 10 depts)))
  end.

Inductive register_dept_reply :=
| RegisterDeptMissing
| RegisterAlready
| Registered
| RegisterFailed.

(** [register_department_callback]: the department must exist and the user
    must have no active role; then the employee role is assigned in it. *)
Definition register_department_callback (now : Z) (db : database)
  (user_id dept_id : Z) : database * register_dept_reply :=
  match get_department db dept_id with
  | None => (db, RegisterDeptMissing)
  | Some dept =>
      match get_user_roles db user_id with
      | _ :: _ => (db, RegisterAlready)
      | [] =>
          let '(db', success) :=
            assign_role now db user_id "employee" (Some dept_id) None true in
          if success then (db', Registered) else (db', RegisterFailed)
      end
  end.

(** What a hidden command answers; [AdminSilent] is the bare [return] for a
    requester who is not an admin. *)
Inductive admin_reply :=
| AdminSilent
| AdminUsage
| AdminSelfRefused
| AdminUserNotFound (user_id : Z)
| AdminAlreadyAdmin
| AdminNotAdmin
| AdminTargetIsAdmin
| AdminAlreadyActive
| AdminInvalidRole
| AdminNoDepartment
| AdminDone
| AdminFailed
| AdminRaised (e : py_exception).

(** [any(role['role_name'] == 'admin' for role in get_user_roles(u))]. *)
Definition holds_admin_role (db : database) (user_id : Z) : bool :=
  existsb (fun r => String.eqb (RoleInfo.role_name r) "admin")
    (get_user_roles db user_id).

(** [create_admin_command]; [arg] is the number given, [None] when it is
    missing or not made of digits. *)
Definition create_admin_command (now : Z) (db : database) (user_id : Z)
  (arg : option Z) : database * admin_reply :=
  if negb (is_admin db user_id) then (db, AdminSilent)
  else match arg with
       | None => (db, AdminUsage)
       | Some target_user_id =>
           match get_user db target_user_id with
           | None => (db, AdminUserNotFound target_user_id)
           | Some _ =>
               if holds_admin_role db target_user_id then (db, AdminAlreadyAdmin)
               else
                 let '(db', success) :=
                   assign_role now db target_user_id "admin" None (Some user_id) true in
                 if success then (db', AdminDone) else (db', AdminFailed)
           end
       end.

(** The scalar subquery [(SELECT id FROM roles WHERE name = 'admin')]. *)
Definition admin_role_id (db : database) : option Z :=
  match find (fun r => String.eqb (Role.name r) "admin") (roles db) with
  | Some r => Some (Role.id r)
  | None => None
  end.

(** [UPDATE user_roles SET is_active = 0 WHERE user_id = ? AND role_id = ...]
    and [... WHERE user_id = ?]. *)
Definition deactivate_assignments (keep : UserRole.t -> bool) (rows : list UserRole.t)
  : list UserRole.t :=
  map (fun ur =>
         if keep ur then ur
         else UserRole.mk (UserRole.user_id ur) (UserRole.role_id ur)
                (UserRole.department_id ur) false (UserRole.assigned_by ur)
                (UserRole.assigned_at ur) (UserRole.is_primary ur))
    rows.

(** [remove_admin_command]. *)
Definition remove_admin_command (db : database) (user_id : Z) (arg : option Z)
  : database * admin_reply :=
  if negb (is_admin db user_id) then (db, AdminSilent)
  else match arg with
       | None => (db, AdminUsage)
       | Some target_user_id =>
           if target_user_id =? user_id then (db, AdminSelfRefused)
           else match get_user db target_user_id with
                | None => (db, AdminUserNotFound target_user_id)
                | Some _ =>
                    if negb (holds_admin_role db target_user_id) then (db, AdminNotAdmin)
                    else
                      (with_user_roles db
                         (deactivate_assignments
                            (fun ur =>
                               negb ((UserRole.user_id ur =? target_user_id)
                                     && sql_eqb (Some (UserRole.role_id ur))
                                          (admin_role_id db)))
                            (user_roles db)),
                       AdminDone)
                end
       end.

(** [remove_user_command]: the account and all its role assignments are
    deactivated. *)
Definition remove_user_command (db : database) (user_id : Z) (arg : option Z)
  : database * admin_reply :=
  if negb (is_admin db user_id) then (db, AdminSilent)
  else match arg with
       | None => (db, AdminUsage)
       | Some target_user_id =>
           if target_user_id =? user_id then (db, AdminSelfRefused)
           else match get_user db target_user_id with
                | None => (db, AdminUserNotFound target_user_id)
                | Some _ =>
                    if holds_admin_role db target_user_id then (db, AdminTargetIsAdmin)
                    else
                      (with_user_roles (fst (deactivate_user db target_user_id))
                         (deactivate_assignments
                            (fun ur => negb (UserRole.user_id ur =? target_user_id))
                            (user_roles db)),
                       AdminDone)
                end
       end.

(** [UPDATE users SET is_active = 1 WHERE user_id = ?]. *)
Definition set_user_active (db : database) (user_id : Z) : database :=
  with_users db
    (map (fun u => if User.user_id u =? user_id
                   then User.mk (User.user_id u) true else u) (users db)).

(** [activate_user_command]: only the account flag is restored. *)
Definition activate_user_command (db : database) (user_id : Z) (arg : option Z)
  : database * admin_reply :=
  if negb (is_admin db user_id) then (db, AdminSilent)
  else match arg with
       | None => (db, AdminUsage)
       | Some target_user_id =>
           match get_user db target_user_id with
           | None => (db, AdminUserNotFound target_user_id)
           | Some target_user =>
               if User.is_active target_user then (db, AdminAlreadyActive)
               else (set_user_active db target_user_id, AdminDone)
           end
       end.

(** The arguments of [/promote]: fewer than two, a user or department that
    is not a number ([int(...)] raises), or the parsed values with the role
    name already in lower case. *)
Inductive promote_args :=
| PromoteTooFew
| PromoteNotNumeric
| PromoteParsed (target_user_id : Z) (role_name : string) (dept_id : option Z).

Inductive value_error := ValueError.

(** [promote_manager_command].  The result is [inl ValueError] when
    [int(...)] raises, before anything is written.  The department is looked up only after the
    role has been assigned, to word the answer: [dept['name']] raises
    [TypeError] when there is no such department. *)
Definition promote_manager_command (now : Z) (db : database) (user_id : Z)
  (args : promote_args) : value_error + database * admin_reply :=
  if negb (is_admin db user_id) then inr (db, AdminSilent)
  else match args with
       | PromoteTooFew => inr (db, AdminUsage)
       | PromoteNotNumeric => inl ValueError
       | PromoteParsed target_user_id role_name dept_id =>
           if negb (existsb (String.eqb role_name) ["manager"; "upper_manager"])
           then inr (db, AdminInvalidRole)
           else match get_user db target_user_id with
                | None => inr (db, AdminUserNotFound target_user_id)
                | Some _ =>
                    let chosen :=
                      if negb (truthy dept_id)
                      then get_user_department db target_user_id
                      else dept_id in
                    if negb (truthy chosen) then inr (db, AdminNoDepartment)
                    else
                      let '(db', success) :=
                        assign_role now db target_user_id role_name chosen
                          (Some user_id) true in
                      if success
                      then match chosen with
                           | Some d =>
                               match get_department db' d with
                               | Some _ => inr (db', AdminDone)
                               | None => inr (db', AdminRaised TypeError)
                               end
                           | None => inr (db', AdminRaised TypeError)
                           end
                      else inr (db', AdminFailed)
                end
       end.

(** The UNIQUE(user_id, role_id, department_id) constraint holds of a table:
    no row collides with a later one. *)
Fixpoint unique_assignments (rows : list UserRole.t) : bool :=
  match rows with
  | [] => true
  | ur :: rest =>
      negb (unique_violation rest (UserRole.user_id ur) (UserRole.role_id ur)
              (UserRole.department_id ur))
      && unique_assignments rest
  end.

(** The number of assignments of [user_id] flagged primary. *)
Definition primary_count (rows : list UserRole.t) (user_id : Z) : nat :=
  length (List.filter (fun ur => (UserRole.user_id ur =? user_id)
                                 && UserRole.is_primary ur) rows).

(** The assignment without its primary flag. *)
Definition forget_primary (ur : UserRole.t) : UserRole.t :=
  UserRole.mk (UserRole.user_id ur) (UserRole.role_id ur) (UserRole.department_id ur)
    (UserRole.is_active ur) (UserRole.assigned_by ur) (UserRole.assigned_at ur) false.

(** The department table is well formed: ids are unique, the parent links
    form a forest, and every parent reference names a row. *)
Definition parents_resolve (depts : list Department.t) : Prop :=
  forall d p, In d depts -> Department.parent_department_id d = Some p ->
              exists q, In q depts /\ Department.id q = p.

Definition well_formed_departments (depts : list Department.t) : Prop :=
  List.NoDup (map Department.id depts) /\ acyclic depts /\ parents_resolve depts.

(** [ur'] stands for [ur] in the new table: same key, and active if [ur]
    was. *)
Definition covers (ur ur' : UserRole.t) : Prop :=
  UserRole.user_id ur' = UserRole.user_id ur
  /\ UserRole.role_id ur' = UserRole.role_id ur
  /\ UserRole.department_id ur' = UserRole.department_id ur
  /\ (UserRole.is_active ur = true -> UserRole.is_active ur' = true).

(** The role catalogue respects the keys of [roles]: [id] is the primary key
    and [name] is UNIQUE. *)
Fixpoint distinct_roles (rs : list Role.t) : bool :=
  match rs with
  | [] => true
  | r :: rest =>
      forallb (fun r' => negb (Role.id r' =? Role.id r)
                         && negb (String.eqb (Role.name r') (Role.name r))) rest
      && distinct_roles rest
  end.

(** The organisation after admin 10 has made upper-manager 11 an admin as
    well ([/createadmin 11] at second 5). *)
Definition org_db_two_admins : database :=
  fst (create_admin_command 5 org_db 10 (Some 11)).

(** The service stops with finish reason 3 (RECITATION). *)
Definition recitation_service (prompt : string) : generate_result :=
  GenerateResponse (Some [mk_candidate (Some 3) None]) None.

(* ------------------------------------------------------------------ *)
(** ** Listing reports *)
(* ------------------------------------------------------------------ *)

(** The optional status filter of the report queries: [if status:] adds
    [AND r.status = ?], so [None] and the empty string filter nothing. *)
Definition status_filter (status : option string) (r : Report.t) : bool :=
  match status with
  | Some s => if String.eqb s "" then true else String.eqb (Report.status r) s
  | None => true
  end.

(** [ORDER BY r.submitted_at DESC]: NULLs sort last. *)
Definition submitted_desc (a b : Report.t) : bool :=
  opt_Z_leb (Report.submitted_at b) (Report.submitted_at a).

(** [get_department_reports] without dates: the reports of the department
    that join their submitter, newest submission first, at most [limit]. *)
Definition get_department_reports (db : database) (dept_id : Z)
  (status : option string) (limit : nat) : list Report.t :=
  firstn limit
    (sort_by submitted_desc
       (List.filter
          (fun r =>
             sql_eqb (Report.department_id r) (Some dept_id)
             && existsb (fun u => User.user_id u =? Report.submitted_by r) (users db)
             && status_filter status r)
          (reports db))).

(** [get_user_reports] with its optional status; the order is read as in
    [get_user_reports]. *)
Definition get_user_reports_by_status (db : database) (user_id : Z) (limit : nat)
  (status : option string) : list Report.t :=
  firstn limit
    (rev (List.filter
            (fun r =>
               (Report.submitted_by r =? user_id)
               && existsb (fun d => sql_eqb (Report.department_id r)
                                      (Some (Department.id d)))
                    (departments db)
               && status_filter status r)
            (reports db))).

(** The merge loop of [get_accessible_reports]: the first report of each id
    is kept; [seen] is [seen_ids]. *)
Fixpoint unique_reports (seen : list Z) (l : list Report.t) : list Report.t :=
  match l with
  | [] => []
  | r :: l' =>
      if existsb (Z.eqb (Report.id r)) seen then unique_reports seen l'
      else r :: unique_reports (Report.id r :: seen) l'
  end.

Definition no_submission_time (r : Report.t) : bool :=
  match Report.submitted_at r with
  | Some _ => false
  | None => true
  end.

(** [l.sort(key=lambda x: x.get('submitted_at', ''), reverse=True)].  Both
    kinds of dictionaries carry the key, with [None] for SQL NULL.  Sorting
    two or more items compares every key with another one, and comparing
    [None] raises [TypeError]; otherwise the sort is stable and descending. *)
Definition sort_by_submitted_at (l : list Report.t) : outcome (list Report.t) :=
  if (2 <=? length l)%nat && existsb no_submission_time l then Raises TypeError
  else Returns (sort_by submitted_desc l).

(** [get_accessible_reports] of [AccessControl]. *)
Definition get_accessible_reports (fuel : nat) (db : database) (user_id : Z)
  (limit : nat) (status : option string) : option (outcome (list Report.t)) :=
  if negb (active_user db user_id) then Some (Returns [])
  else match get_user_primary_role db user_id with
       | None => Some (Returns [])
       | Some user_role =>
           if perm_get (RoleInfo.permissions user_role) "can_view_all"
           then Some (Returns [])
           else
             match get_accessible_departments fuel db user_id with
             | None => None
             | Some [] =>
                 Some (Returns (get_user_reports_by_status db user_id limit status))
             | Some accessible_depts =>
                 let all_reports :=
                   flat_map (fun dept_id =>
                               get_department_reports db dept_id status limit)
                     accessible_depts in
                 let own_reports :=
                   get_user_reports_by_status db user_id limit status in
                 match sort_by_submitted_at
                         (unique_reports [] (all_reports ++ own_reports)) with
                 | Raises e => Some (Raises e)
                 | Returns sorted => Some (Returns (firstn limit sorted))
                 end
             end
       end.

Inductive search_reply :=
| SearchNothing
| SearchFound (report_ids : list Z).

(** [search_reports_command]: the approved reports the user can reach, at
    most twenty, of which the first ten are shown. *)
Definition search_reports_command (fuel : nat) (db : database) (user_id : Z)
  : option (outcome search_reply) :=
  match get_accessible_reports fuel db user_id 20 (Some "approved") with
  | None => None
  | Some (Raises e) => Some (Raises e)
  | Some (Returns []) => Some (Returns SearchNothing)
  | Some (Returns accessible_reports) =>
      Some (Returns (SearchFound (map Report.id (firstn 10 accessible_reports))))
  end.

(** The organisation after employee 13 has saved two drafts (reports 102
    and 103) and manager 12 has approved both with the approve button. *)
Definition approved_drafts_db : database :=
  let db1 := fst (save_report 10 org_db 13 "draft_report" "first" "text" "daily") in
  let db2 := fst (save_report 11 db1 13 "draft_report" "second" "text" "daily") in
  match approve_button_callback 5 12 db2 12 102 with
  | Some (db3, _) =>
      match approve_button_callback 5 13 db3 12 103 with
      | Some (db4, _) => db4
      | None => db3
      end
  | None => db2
  end.

(** What [validate_cumulative_report_creation] answers, by meaning. *)
Inductive cumulative_denial :=
| CumulativeAccountInactive       (* the account is not active *)
| NoCumulativePermission          (* upper managers only *)
| SourceNotFound (report_id : Z)
| SourceNotAccessible (report_id : Z)
| CumulativeAllowed.              (* the empty string of an allow *)

(** The loop over [source_report_ids]: the first source that is not
    retrieved, or whose department is not in [accessible_depts], decides. *)
Fixpoint check_sources (db : database) (accessible_depts : list Z)
  (source_report_ids : list Z) : bool * cumulative_denial :=
  match source_report_ids with
  | [] => (true, CumulativeAllowed)
  | report_id :: rest =>
      match get_report db report_id with
      | None => (false, SourceNotFound report_id)
      | Some report =>
          if negb (opt_in (Report.department_id report) accessible_depts)
          then (false, SourceNotAccessible report_id)
          else check_sources db accessible_depts rest
      end
  end.

(** [validate_cumulative_report_creation] of [AccessControl]. *)
Definition validate_cumulative_report_creation (fuel : nat) (db : database)
  (user_id : Z) (source_report_ids : list Z) : option (bool * cumulative_denial) :=
  if negb (active_user db user_id) then Some (false, CumulativeAccountInactive)
  else if negb (can_create_cumulative_report db user_id)
  then Some (false, NoCumulativePermission)
  else match get_accessible_departments fuel db user_id with
       | None => None
       | Some accessible_depts =>
           Some (check_sources db accessible_depts source_report_ids)
       end.

(** [c] lies on a parent-link cycle: a row of id [c] has a parent that is a
    descendant of [c]. *)
Definition on_cycle (depts : list Department.t) (c : Z) : Prop :=
  exists d p, In d depts /\ Department.id d = c
              /\ Department.parent_department_id d = Some p
              /\ descendant depts c p.

(** A parent-link cycle can be reached from the department [root] by child
    links. *)
Definition reaches_cycle (depts : list Department.t) (root : Z) : Prop :=
  exists c, descendant depts root c /\ on_cycle depts c.

(** A table with a cycle away from the root: department 1 is a root, and
    departments 2 and 3 are each other's parent. *)
Definition cyclic_db : database :=
  mk_database []
    [Department.mk 1 "A" None 0 true; Department.mk 2 "B" (Some 3) 1 true;
     Department.mk 3 "C" (Some 2) 2 true]
    [] [] [] [] [] [].

(** One pass through the workflow: employee 13 submits report 102 at second
    1000000, manager 12 approves it with the button, and upper-manager 11
    asks for the weekly cumulative report at second 1000500. *)
Definition submitted_db : database :=
  fst (save_report 1000000 org_db 13 "submit_report" "weekly" "text" "daily").

Definition button_approved_db : database :=
  match approve_button_callback 5 1000100 submitted_db 12 102 with
  | Some (db, _) => db
  | None => submitted_db
  end.

Definition workflow_db : database :=
  match cumulative_period_handler 5 1000500 answering_service button_approved_db 11
          "weekly" with
  | Some (Returns (db, _)) => db
  | _ => button_approved_db
  end.

(** *** Specification side: the user's roles, read from the tables *)

(** [role] is an active role of the user through the assignment [ur]: [ur]
    is an active row of [user_roles] for the user and [role] is the row of
    [roles] it names. *)
Definition active_assignment (db : database) (user_id : Z) (ur : UserRole.t)
  (role : Role.t) : Prop :=
  In ur (user_roles db)
  /\ UserRole.user_id ur = user_id
  /\ UserRole.is_active ur = true
  /\ In role (roles db)
  /\ Role.id role = UserRole.role_id ur.

(** [role], held through [ur], is a highest-level active role of the user. *)
Definition highest_assignment (db : database) (user_id : Z) (ur : UserRole.t)
  (role : Role.t) : Prop :=
  active_assignment db user_id ur role
  /\ forall ur' role', active_assignment db user_id ur' role' ->
                       Role.level role' <= Role.level role.

(** The role grants capability [k]: its permission text is an object in
    which [k] is true. *)
Definition grants (role : Role.t) (k : string) : bool :=
  match Role.permissions role with
  | JObject m =>
      match m !! k with
      | Some true => true
      | _ => false
      end
  | _ => false
  end.

(** The accessible-department set as the specification words it, for a role
    held in [department]: all active departments for admin, the descendant
    closure of the department with sub-tree visibility, the department alone
    with same-department visibility, nothing otherwise. *)
Definition accessible_set (db : database) (role : Role.t) (department : option Z)
  (out : list Z) : Prop :=
  if String.eqb (Role.name role) "admin"
  then forall x, In x out <->
                 exists d, In d (departments db)
                           /\ Department.is_active d = true
                           /\ Department.id d = x
  else if grants role "can_view_subdepartments"
  then forall x, In x out <->
                 exists root, department = Some root
                              /\ descendant (departments db) root x
  else if grants role "can_view_department"
  then forall x, In x out <-> department = Some x
  else out = [].

(** The department an assignment counts for in the amended claim: a
    department id of 0 is read as no department. *)
Definition counted_department (ur : UserRole.t) : option Z :=
  match UserRole.department_id ur with
  | Some d => if d =? 0 then None else Some d
  | None => None
  end.

(** A store in which a department has id 0: manager 12 is assigned to it. *)
Definition zero_department_db : database :=
  mk_database
    [User.mk 12 true]
    [Department.mk 0 "Z" None 0 true]
    default_roles
    [UserRole.mk 12 2 (Some 0) true None 0 true]
    [] [] [] [].

(* ================================================================== *)
(** * Part II: properties *)
(* ================================================================== *)

(** ** The recursive department query *)

Lemma dept_tree_fuel_mono depts fuel fuel' queue out :
  dept_tree fuel depts queue = Some out -> (fuel <= fuel')%nat ->
  dept_tree fuel' depts queue = Some out.
Proof.
  revert fuel' queue out.
  induction fuel as [|fuel IH]; intros fuel' queue out Hrun Hle.
  - destruct queue; simpl in Hrun; [|discriminate].
    destruct fuel'; exact Hrun.
  - destruct queue as [|x q]; [destruct fuel'; exact Hrun|].
    destruct fuel' as [|fuel']; [lia|].
    simpl in *.
    destruct (dept_tree fuel depts (q ++ recursive_select depts x)) as [o|] eqn:E;
      [|discriminate].
    rewrite (IH fuel' _ o E); [exact Hrun | lia].
Qed.

Lemma recursive_select_spec depts x c :
  In c (recursive_select depts x) <->
  exists d, In d depts /\ Department.parent_department_id d = Some x
            /\ Department.id d = c.
Proof.
  unfold recursive_select. rewrite in_map_iff. split.
  - intros (d & Hid & Hin). apply filter_In in Hin as [Hin Hpar].
    exists d. repeat split; auto.
    unfold sql_eqb in Hpar.
    destruct (Department.parent_department_id d) as [p|]; [|discriminate].
    apply Z.eqb_eq in Hpar. congruence.
  - intros (d & Hin & Hpar & Hid). exists d. split; [exact Hid|].
    apply filter_In. split; [exact Hin|].
    rewrite Hpar. simpl. apply Z.eqb_refl.
Qed.

Lemma initial_select_spec depts root x :
  In x (initial_select depts (Some root)) <->
  x = root /\ exists d, In d depts /\ Department.id d = root.
Proof.
  unfold initial_select. rewrite in_map_iff. split.
  - intros (d & Hid & Hin). apply filter_In in Hin as [Hin Heq].
    simpl in Heq. apply Z.eqb_eq in Heq. split; [congruence|]. eauto.
  - intros (-> & d & Hin & Hid). exists d. split; [exact Hid|].
    apply filter_In. split; [exact Hin|]. simpl. apply Z.eqb_eq. exact Hid.
Qed.

Lemma initial_select_null depts : initial_select depts None = [].
Proof.
  unfold initial_select. induction depts as [|d ds IH]; simpl; auto.
Qed.

(** Every emitted row is a descendant when every queued row is. *)
Lemma dept_tree_sound depts root fuel :
  forall queue out,
    (forall x, In x queue -> descendant depts root x) ->
    dept_tree fuel depts queue = Some out ->
    forall x, In x out -> descendant depts root x.
Proof.
  induction fuel as [|fuel IH]; intros queue out Hq Hrun x Hx.
  - destruct queue; simpl in Hrun; [|discriminate].
    injection Hrun as <-. destruct Hx.
  - destruct queue as [|y q]; simpl in Hrun.
    + injection Hrun as <-. destruct Hx.
    + destruct (dept_tree fuel depts (q ++ recursive_select depts y)) as [o|] eqn:E;
        [|discriminate].
      injection Hrun as <-. destruct Hx as [<-|Hx].
      * apply Hq. now left.
      * eapply IH; [|exact E|exact Hx].
        intros z Hz. apply in_app_or in Hz as [Hz|Hz].
        -- apply Hq. now right.
        -- apply recursive_select_spec in Hz as (d & Hin & Hpar & <-).
           eapply descendant_child; eauto. apply Hq. now left.
Qed.

(** The emitted rows contain the queue and are closed under child links. *)
Lemma dept_tree_closed depts fuel :
  forall queue out,
    dept_tree fuel depts queue = Some out ->
    (forall x, In x queue -> In x out) /\
    (forall x c, In x out -> In c (recursive_select depts x) -> In c out).
Proof.
  induction fuel as [|fuel IH]; intros queue out Hrun.
  - destruct queue; simpl in Hrun; [|discriminate].
    injection Hrun as <-. split; intros; contradiction.
  - destruct queue as [|y q]; simpl in Hrun.
    + injection Hrun as <-. split; intros; contradiction.
    + destruct (dept_tree fuel depts (q ++ recursive_select depts y)) as [o|] eqn:E;
        [|discriminate].
      injection Hrun as <-. destruct (IH _ _ E) as [Hq Hc]. split.
      * intros x [<-|Hx]; [now left|]. right. apply Hq. apply in_or_app. now left.
      * intros x c [<-|Hx] Hcx; right.
        -- apply Hq. apply in_or_app. now right.
        -- eapply Hc; eauto.
Qed.

(** Whenever the query returns, it returns exactly the descendant closure. *)
Lemma get_department_hierarchy_descendants fuel db root out :
  get_department_hierarchy fuel db (Some root) = Some out ->
  forall x, In x out <-> descendant (departments db) root x.
Proof.
  unfold get_department_hierarchy. intros Hrun x. split.
  - eapply dept_tree_sound; [|exact Hrun].
    intros y Hy. apply initial_select_spec in Hy as (-> & d & Hin & Hid).
    eapply descendant_root; eauto.
  - destruct (dept_tree_closed _ _ _ _ Hrun) as [Hq Hc].
    induction 1 as [d Hin Hid | p d Hp IH Hin Hpar].
    + apply Hq. apply initial_select_spec. eauto.
    + eapply Hc; [exact IH|]. apply recursive_select_spec. eauto.
Qed.

Lemma descendant_exists depts root x :
  descendant depts root x -> exists d, In d depts /\ Department.id d = x.
Proof. induction 1; eauto. Qed.

Section Termination.
Variable depts : list Department.t.
Variable rank : Z -> nat.
Hypothesis rank_decreases :
  forall d p, In d depts -> Department.parent_department_id d = Some p ->
              (rank (Department.id d) < rank p)%nat.

Local Abbreviation weight := (weight depts rank).
Local Abbreviation queue_weight := (queue_weight depts rank).

Lemma queue_weight_app q1 q2 :
  queue_weight (q1 ++ q2) = (queue_weight q1 + queue_weight q2)%nat.
Proof. unfold queue_weight. now rewrite map_app, list_sum_app. Qed.

Lemma recursive_select_length x :
  (length (recursive_select depts x) <= length depts)%nat.
Proof.
  unfold recursive_select. rewrite length_map. apply filter_length_le.
Qed.

Lemma bounded_queue_weight r (l : list Z) :
  (forall c, In c l -> (rank c <= r)%nat) ->
  (queue_weight l <= length l * S (length depts) ^ r)%nat.
Proof.
  induction l as [|c l IH]; intros Hall; [unfold queue_weight; simpl; lia|].
  unfold queue_weight in *. simpl.
  assert (Hc : (weight c <= S (length depts) ^ r)%nat).
  { unfold weight. apply Nat.pow_le_mono_r; [lia|]. apply Hall. now left. }
  assert (Hl : (list_sum (map weight l) <= length l * S (length depts) ^ r)%nat).
  { apply IH. intros c' Hc'. apply Hall. now right. }
  generalize dependent (S (length depts) ^ r)%nat. intros; lia.
Qed.

Lemma recursive_select_weight x :
  (queue_weight (recursive_select depts x) < weight x)%nat.
Proof.
  unfold weight at 1.
  destruct (rank x) as [|r] eqn:Hr.
  - destruct (recursive_select depts x) as [|c l] eqn:E;
      [unfold queue_weight; simpl; lia|].
    assert (Hin : In c (recursive_select depts x)) by (rewrite E; now left).
    apply recursive_select_spec in Hin as (d & Hin & Hpar & <-).
    pose proof (rank_decreases d x Hin Hpar) as Hrd. lia.
  - assert (Hb : (queue_weight (recursive_select depts x)
                  <= length (recursive_select depts x) * S (length depts) ^ r)%nat).
    { apply bounded_queue_weight. intros c Hin.
      apply recursive_select_spec in Hin as (d & Hin & Hpar & <-).
      pose proof (rank_decreases d x Hin Hpar) as Hrd. lia. }
    pose proof (recursive_select_length x) as Hlen.
    assert (Hmul : (length (recursive_select depts x) * S (length depts) ^ r
                    <= length depts * S (length depts) ^ r)%nat)
      by (apply Nat.mul_le_mono_r; exact Hlen).
    rewrite Nat.pow_succ_r'.
    assert (Hpos : (0 < S (length depts) ^ r)%nat)
      by (apply Nat.neq_0_lt_0, Nat.pow_nonzero; lia).
    lia.
Qed.

Lemma dept_tree_terminates fuel :
  forall queue, (queue_weight queue < fuel)%nat ->
                exists out, dept_tree fuel depts queue = Some out.
Proof.
  induction fuel as [|fuel IH]; intros queue Hw; [lia|].
  destruct queue as [|x q]; [exists []; reflexivity|].
  simpl.
  destruct (IH (q ++ recursive_select depts x)) as [o Ho].
  - rewrite queue_weight_app. pose proof (recursive_select_weight x).
    unfold queue_weight in Hw. simpl in Hw. fold (queue_weight q) in Hw. lia.
  - exists (x :: o). now rewrite Ho.
Qed.
End Termination.

(** On a forest the recursive query returns, and more fuel never changes the
    rows returned. *)
Lemma hierarchy_returns_on_forest db dept_id :
  acyclic (departments db) ->
  exists n out, forall fuel, (n <= fuel)%nat ->
    get_department_hierarchy fuel db dept_id = Some out.
Proof.
  intros [rank Hrank]. unfold get_department_hierarchy.
  set (q := initial_select (departments db) dept_id).
  destruct (dept_tree_terminates (departments db) rank Hrank
              (S (queue_weight (departments db) rank q)) q) as [out Hout]; [lia|].
  exists (S (queue_weight (departments db) rank q)), out.
  intros fuel Hle. eapply dept_tree_fuel_mono; eauto.
Qed.

(** With department 1 as its own parent the queue never empties. *)
Lemma self_parent_never_returns fuel :
  dept_tree fuel self_parent_departments [1] = None.
Proof.
  induction fuel as [|fuel IH]; [reflexivity|].
  cbn in *. now rewrite IH.
Qed.

(** The query takes exactly one step per row it returns. *)
Lemma dept_tree_fuel_exact depts fuel :
  forall queue out,
    dept_tree fuel depts queue = Some out ->
    forall fuel',
      dept_tree fuel' depts queue
      = if (length out <=? fuel')%nat then Some out else None.
Proof.
  induction fuel as [|fuel IH]; intros queue out Hrun fuel'.
  - destruct queue; simpl in Hrun; [|discriminate].
    injection Hrun as <-. now destruct fuel'.
  - destruct queue as [|x q]; simpl in Hrun.
    + injection Hrun as <-. now destruct fuel'.
    + destruct (dept_tree fuel depts (q ++ recursive_select depts x)) as [o|] eqn:E;
        [|discriminate].
      injection Hrun as <-. destruct fuel' as [|fuel']; [reflexivity|].
      simpl. rewrite (IH _ _ E fuel').
      change (length (x :: o) <=? S fuel')%nat with (length o <=? fuel')%nat.
      now destruct (length o <=? fuel')%nat.
Qed.

(** *** Each department is visited once *)

Section Visits.
Variable depts : list Department.t.
Hypothesis unique_ids : List.NoDup (map Department.id depts).

Local Abbreviation queued_as_child := (queued_as_child depts).

Lemma dept_tree_count fuel :
  forall queue out y,
    dept_tree fuel depts queue = Some out ->
    count_occ Z.eq_dec out y
    = (count_occ Z.eq_dec queue y + queued_as_child y out)%nat.
Proof.
  induction fuel as [|fuel IH]; intros queue out y Hrun.
  - destruct queue; simpl in Hrun; [|discriminate]. now injection Hrun as <-.
  - destruct queue as [|x q]; simpl in Hrun.
    + now injection Hrun as <-.
    + destruct (dept_tree fuel depts (q ++ recursive_select depts x)) as [o|] eqn:E;
        [|discriminate].
      injection Hrun as <-. pose proof (IH _ _ y E) as Hcount.
      rewrite count_occ_app in Hcount.
      unfold queued_as_child in *. simpl.
      destruct (Z.eq_dec x y); lia.
Qed.

Lemma count_filtered_id (f : Department.t -> bool) (l : list Department.t) d :
  List.NoDup (map Department.id l) -> In d l ->
  count_occ Z.eq_dec (map Department.id (List.filter f l)) (Department.id d)
  = if f d then 1%nat else 0%nat.
Proof.
  induction l as [|e l IH]; intros Hnd Hin; [destruct Hin|].
  simpl in Hnd. apply List.NoDup_cons_iff in Hnd as [Hfresh Hnd].
  destruct Hin as [->|Hin].
  - assert (Hrest : count_occ Z.eq_dec (map Department.id (List.filter f l))
                      (Department.id d) = 0%nat).
    { apply count_occ_not_In. intros Hin. apply Hfresh.
      apply in_map_iff in Hin as (e & He & Hin).
      apply filter_In in Hin as [Hin _]. apply in_map_iff. eauto. }
    simpl. destruct (f d); simpl; [|exact Hrest].
    destruct (Z.eq_dec (Department.id d) (Department.id d)); [|contradiction].
    now rewrite Hrest.
  - assert (Hne : Department.id e <> Department.id d).
    { intros Heq. apply Hfresh. rewrite Heq. now apply in_map. }
    simpl. destruct (f e); simpl; [|now apply IH].
    destruct (Z.eq_dec (Department.id e) (Department.id d)); [contradiction|].
    now apply IH.
Qed.

Lemma count_child_of x d :
  In d depts ->
  count_occ Z.eq_dec (recursive_select depts x) (Department.id d)
  = if sql_eqb (Department.parent_department_id d) (Some x) then 1%nat else 0%nat.
Proof.
  intros Hin. unfold recursive_select.
  now rewrite (count_filtered_id _ depts d unique_ids Hin).
Qed.

(** A department is queued as a child only by its one parent. *)
Lemma queued_as_child_le d out :
  In d depts ->
  (queued_as_child (Department.id d) out
   <= match Department.parent_department_id d with
      | Some p => count_occ Z.eq_dec out p
      | None => 0
      end)%nat.
Proof.
  intros Hin. unfold queued_as_child.
  induction out as [|x out IH]; simpl.
  - destruct (Department.parent_department_id d); lia.
  - rewrite (count_child_of x d Hin).
    destruct (Department.parent_department_id d) as [p|]; simpl.
    + destruct (Z.eq_dec x p) as [->|Hne].
      * rewrite Z.eqb_refl. lia.
      * destruct (p =? x) eqn:E; [apply Z.eqb_eq in E; congruence|]. lia.
    + exact IH.
Qed.

Variable rank : Z -> nat.
Hypothesis rank_decreases :
  forall d p, In d depts -> Department.parent_department_id d = Some p ->
              (rank (Department.id d) < rank p)%nat.

Lemma descendant_rank root x :
  descendant depts root x -> (rank x <= rank root)%nat.
Proof.
  induction 1 as [d Hin Hid | p d Hp IH Hin Hpar]; [lia|].
  pose proof (rank_decreases d p Hin Hpar) as Hrd. lia.
Qed.

Lemma initial_select_count root y :
  (count_occ Z.eq_dec (initial_select depts (Some root)) y
   <= if Z.eq_dec y root then 1 else 0)%nat.
Proof.
  destruct (Z.eq_dec y root) as [->|Hne].
  - destruct (in_dec Z.eq_dec root (map Department.id depts)) as [Hin|Hout].
    + apply in_map_iff in Hin as (d & <- & Hin). unfold initial_select.
      rewrite (count_filtered_id _ depts d unique_ids Hin).
      destruct (sql_eqb _ _); lia.
    + rewrite (proj1 (count_occ_not_In Z.eq_dec _ _)); [lia|].
      intros Hin. apply initial_select_spec in Hin as (_ & d & Hd & Hid).
      apply Hout. rewrite <- Hid. now apply in_map.
  - rewrite (proj1 (count_occ_not_In Z.eq_dec _ _)); [lia|].
    intros Hin. now apply initial_select_spec in Hin as (-> & _).
Qed.

Lemma visited_once fuel root out :
  dept_tree fuel depts (initial_select depts (Some root)) = Some out ->
  forall k y, (rank root - rank y <= k)%nat ->
              (count_occ Z.eq_dec out y <= 1)%nat.
Proof.
  intros Hrun.
  assert (Hdesc : forall x, In x out -> descendant depts root x).
  { eapply dept_tree_sound; [|exact Hrun].
    intros x Hx. apply initial_select_spec in Hx as (-> & d & Hin & Hid).
    eapply descendant_root; eauto. }
  induction k as [|k IH]; intros y Hk;
    (destruct (in_dec Z.eq_dec y out) as [Hy|Hy];
     [|rewrite (proj1 (count_occ_not_In Z.eq_dec _ _) Hy); lia]);
    destruct (descendant_exists _ _ _ (Hdesc y Hy)) as (d & Hin & <-);
    pose proof (descendant_rank _ _ (Hdesc _ Hy)) as Hry;
    rewrite (dept_tree_count _ _ _ (Department.id d) Hrun);
    pose proof (initial_select_count root (Department.id d)) as Hinit;
    pose proof (queued_as_child_le d out Hin) as Hq;
    destruct (Department.parent_department_id d) as [p|] eqn:Hpar;
    try (destruct (Z.eq_dec (Department.id d) root); lia);
    pose proof (rank_decreases d p Hin Hpar) as Hrd.
  - (* rank y = rank root: the parent is no descendant *)
    assert (Hp : count_occ Z.eq_dec out p = 0%nat).
    { apply count_occ_not_In. intros Hp.
      pose proof (descendant_rank _ _ (Hdesc _ Hp)). lia. }
    destruct (Z.eq_dec (Department.id d) root); lia.
  - destruct (Z.eq_dec (Department.id d) root) as [Hroot|Hroot].
    + assert (Hp : count_occ Z.eq_dec out p = 0%nat).
      { apply count_occ_not_In. intros Hp.
        pose proof (descendant_rank _ _ (Hdesc _ Hp)). rewrite Hroot in *. lia. }
      lia.
    + assert (Hp : (count_occ Z.eq_dec out p <= 1)%nat) by (apply IH; lia).
      lia.
Qed.

Lemma visits_bounded fuel root out :
  dept_tree fuel depts (initial_select depts (Some root)) = Some out ->
  List.NoDup out /\ (length out <= length depts)%nat.
Proof.
  intros Hrun.
  assert (Hnd : List.NoDup out).
  { apply (List.NoDup_count_occ Z.eq_dec). intros y.
    apply (visited_once fuel root out Hrun (rank root - rank y) y). lia. }
  split; [exact Hnd|].
  rewrite <- (length_map Department.id depts).
  apply List.NoDup_incl_length; [exact Hnd|].
  intros x Hx.
  assert (Hd : descendant depts root x).
  { eapply dept_tree_sound; [|exact Hrun|exact Hx].
    intros z Hz. apply initial_select_spec in Hz as (-> & d & Hin & Hid).
    eapply descendant_root; eauto. }
  apply descendant_exists in Hd as (d & Hin & <-). now apply in_map.
Qed.
End Visits.

(** *** Cycles *)

(** A descendant is the start itself or a descendant of one of its
    children. *)
Lemma descendant_first_step depts x c :
  descendant depts x c ->
  c = x \/ exists y, In y (recursive_select depts x) /\ descendant depts y c.
Proof.
  induction 1 as [d Hin Hid | p d Hp IH Hin Hpar]; [now left|].
  right. destruct IH as [->|(y & Hy & Hyp)].
  - exists (Department.id d). split.
    + apply recursive_select_spec. eauto.
    + eapply descendant_root; eauto.
  - exists y. split; [exact Hy|]. eapply descendant_child; eauto.
Qed.

(** From a department that reaches a cycle, some child reaches one too. *)
Lemma reaches_cycle_child depts x :
  reaches_cycle depts x ->
  exists y, In y (recursive_select depts x) /\ reaches_cycle depts y.
Proof.
  intros (c & Hc & Hcycle).
  destruct (descendant_first_step _ _ _ Hc) as [->|(y & Hy & Hyc)].
  - destruct Hcycle as (d & p & Hd & Hid & Hpar & Hp).
    destruct (descendant_first_step _ _ _ Hp) as [->|(y & Hy & Hyp)].
    + exists x. split.
      * apply recursive_select_spec. exists d. auto.
      * exists x. split; [eapply descendant_root; eauto|].
        exists d, x. auto.
    + exists y. split; [exact Hy|]. exists x. split.
      * rewrite <- Hid. eapply descendant_child; eauto.
      * exists d, p. auto.
  - exists y. split; [exact Hy|]. exists c. auto.
Qed.

(** A queue that holds a department from which a cycle can be reached never
    empties. *)
Lemma dept_tree_diverges depts fuel :
  forall queue,
    (exists x, In x queue /\ reaches_cycle depts x) ->
    dept_tree fuel depts queue = None.
Proof.
  induction fuel as [|fuel IH]; intros queue (x & Hx & Hcycle).
  - destruct queue; [destruct Hx|reflexivity].
  - destruct queue as [|h q]; [destruct Hx|]. simpl.
    rewrite IH; [reflexivity|].
    destruct Hx as [->|Hx].
    + destruct (reaches_cycle_child _ _ Hcycle) as (y & Hy & Hycycle).
      exists y. split; [apply in_app_iff; now right|exact Hycycle].
    + exists x. split; [apply in_app_iff; now left|exact Hcycle].
Qed.

Lemma descendant_root_exists depts root x :
  descendant depts root x -> exists d, In d depts /\ Department.id d = root.
Proof. induction 1; eauto. Qed.

Lemma get_department_hierarchy_diverges db root :
  reaches_cycle (departments db) root ->
  forall fuel, get_department_hierarchy fuel db (Some root) = None.
Proof.
  intros Hcycle fuel. unfold get_department_hierarchy. apply dept_tree_diverges.
  exists root. split; [|exact Hcycle].
  destruct Hcycle as (c & Hc & _).
  apply descendant_root_exists in Hc as (d & Hin & Hid).
  apply initial_select_spec. eauto.
Qed.

(** Claim C2 (amended): on every department table whose parent links form a
    forest, [get_department_hierarchy] returns for every start department: it
    takes one step per row returned, and the rows are exactly the descendants
    of the start department; with unique department ids each is returned
    once, so there are at most as many steps as departments.  The query
    itself carries no bound on the traversal: on every table with a
    parent-link cycle that can be reached from the start department it
    returns for no step budget. *)
Theorem get_department_hierarchy_terminates_on_forests db dept_id :
  (acyclic (departments db) ->
   exists out,
     (forall fuel,
         get_department_hierarchy fuel db dept_id
         = if (length out <=? fuel)%nat then Some out else None)
     /\ (forall x, In x out <->
                   exists root, dept_id = Some root
                                /\ descendant (departments db) root x)
     /\ (List.NoDup (map Department.id (departments db)) ->
         List.NoDup out /\ (length out <= length (departments db))%nat))
  /\ (forall root,
        dept_id = Some root ->
        reaches_cycle (departments db) root ->
        forall fuel, get_department_hierarchy fuel db dept_id = None).
Proof.
  split.
  2:{ intros root -> Hcycle. now apply get_department_hierarchy_diverges. }
  intros Hforest.
  destruct (hierarchy_returns_on_forest db dept_id Hforest) as (n & out & Hout).
  pose proof (Hout n (Nat.le_refl n)) as Hrun.
  exists out. split; [|split].
  - intros fuel. unfold get_department_hierarchy in *.
    now apply (dept_tree_fuel_exact _ n).
  - intros x. destruct dept_id as [root|].
    + rewrite (get_department_hierarchy_descendants _ _ _ _ Hrun). split.
      * intros Hd. now exists root.
      * intros (root' & Heq & Hd). now injection Heq as <-.
    + unfold get_department_hierarchy in Hrun. rewrite initial_select_null in Hrun.
      destruct n; simpl in Hrun; injection Hrun as <-.
      all: split; [intros []|intros (root & Heq & _); discriminate].
  - intros Hids. destruct Hforest as [rank Hrank]. destruct dept_id as [root|].
    + now apply (visits_bounded _ Hids rank Hrank n root).
    + unfold get_department_hierarchy in Hrun. rewrite initial_select_null in Hrun.
      destruct n; simpl in Hrun; injection Hrun as <-.
      all: split; [constructor|simpl; lia].
Qed.

Lemma org_acyclic : acyclic (departments org_db).
Proof.
  exists org_rank. intros d p Hin Hpar. simpl in Hin.
  destruct Hin as [<-|[<-|[]]]; simpl in Hpar; [discriminate|].
  injection Hpar as <-. vm_compute. lia.
Qed.

(** A table with a longer cycle: department 1 is the root, and departments
    2 and 3 are each other's parent. *)
Lemma cyclic_departments_reach_cycle : reaches_cycle (departments cyclic_db) 2.
Proof.
  assert (H2 : descendant (departments cyclic_db) 2 2).
  { eapply (descendant_root _ _ (Department.mk 2 "B" (Some 3) 1 true));
      [simpl; tauto|reflexivity]. }
  exists 2. split; [exact H2|].
  exists (Department.mk 2 "B" (Some 3) 1 true), 3.
  split; [simpl; tauto|]. split; [reflexivity|]. split; [reflexivity|].
  apply (descendant_child _ _ 2 (Department.mk 3 "C" (Some 2) 2 true));
    [exact H2|simpl; tauto|reflexivity].
Qed.

Lemma get_department_hierarchy_terminates_on_forests_witness :
  (acyclic (departments org_db)
   /\ exists out,
       (forall fuel,
           get_department_hierarchy fuel org_db (Some 1)
           = if (length out <=? fuel)%nat then Some out else None)
       /\ (forall x, In x out <->
                     exists root, Some 1 = Some root
                                  /\ descendant (departments org_db) root x)
       /\ (List.NoDup (map Department.id (departments org_db)) ->
           List.NoDup out /\ (length out <= length (departments org_db))%nat))
  /\ (reaches_cycle (departments cyclic_db) 2
      /\ get_department_hierarchy 1000 cyclic_db (Some 2) = None).
Proof.
  split.
  - split; [exact org_acyclic|].
    apply (proj1 (get_department_hierarchy_terminates_on_forests org_db (Some 1))).
    exact org_acyclic.
  - split; [exact cyclic_departments_reach_cycle|].
    exact (proj2 (get_department_hierarchy_terminates_on_forests cyclic_db (Some 2))
             2 eq_refl cyclic_departments_reach_cycle 1000%nat).
Defined.

(** Claim C2, as stated, fails: on a table where department 1 is its own
    parent the query returns for no amount of fuel. *)
Lemma get_department_hierarchy_diverges_on_cycle :
  ~ exists fuel out, get_department_hierarchy fuel self_parent_db (Some 1) = Some out.
Proof.
  intros (fuel & out & Hrun). unfold get_department_hierarchy in Hrun.
  change (initial_select (departments self_parent_db) (Some 1)) with [1] in Hrun.
  change (departments self_parent_db) with self_parent_departments in Hrun.
  rewrite self_parent_never_returns in Hrun. discriminate.
Qed.

(** Such a table can be made through [create_department]: the first
    department of an empty store, created with parent reference 1, gets id 1
    and is its own parent. *)
Example self_parent_department_can_be_created :
  create_department (mk_database [] [] [] [] [] [] [] []) "A" (Some 1)
  = Returns (self_parent_db, 1).
Proof. reflexivity. Qed.

(** ** Helper facts about the store *)

Lemma in_insert_by {A : Type} (le : A -> A -> bool) (x y : A) (l : list A) :
  In y (insert_by le x l) <-> y = x \/ In y l.
Proof.
  induction l as [|z l IH]; simpl.
  - intuition.
  - destruct (le x z); simpl; [intuition|]. rewrite IH. intuition.
Qed.

Lemma in_sort_by {A : Type} (le : A -> A -> bool) (y : A) (l : list A) :
  In y (sort_by le l) <-> In y l.
Proof.
  unfold sort_by. induction l as [|z l IH]; simpl; [tauto|].
  rewrite in_insert_by, IH. intuition.
Qed.

Lemma in_get_all_departments db x :
  In x (map Department.id (get_all_departments db)) <->
  exists d, In d (departments db) /\ Department.is_active d = true
            /\ Department.id d = x.
Proof.
  unfold get_all_departments. rewrite in_map_iff. split.
  - intros (d & Hid & Hin). apply in_sort_by, filter_In in Hin. exists d. tauto.
  - intros (d & Hin & Hact & Hid). exists d. split; [exact Hid|].
    apply in_sort_by, filter_In. tauto.
Qed.

Lemma opt_Z_eqb_eq a b : opt_Z_eqb a b = true <-> a = b.
Proof.
  destruct a as [x|], b as [y|]; simpl; try (split; congruence).
  rewrite Z.eqb_eq. split; congruence.
Qed.

Lemma opt_in_spec d l : opt_in d l = true <-> exists x, d = Some x /\ In x l.
Proof.
  destruct d as [v|]; simpl.
  - rewrite existsb_exists. split.
    + intros (x & Hin & Heq). apply Z.eqb_eq in Heq. subst. eauto.
    + intros (x & Heq & Hin). injection Heq as <-. exists v. split; [exact Hin|].
      apply Z.eqb_refl.
  - split; [discriminate|]. intros (x & Heq & _). discriminate.
Qed.

Lemma truthy_Some a : truthy a = true -> exists d, a = Some d /\ d <> 0.
Proof.
  destruct a as [d|]; simpl; [|discriminate].
  intros H. exists d. split; [reflexivity|].
  apply negb_true_iff, Z.eqb_neq in H. exact H.
Qed.

Lemma deactivate_user_inactive db u :
  active_user (fst (deactivate_user db u)) u = false.
Proof.
  unfold active_user, get_user, deactivate_user. simpl.
  induction (users db) as [|x us IH]; simpl; [reflexivity|].
  destruct (User.user_id x =? u) eqn:E; simpl; rewrite E; [reflexivity|exact IH].
Qed.

(** ** Deactivated users *)

(** Claim C10: after [deactivate_user u] every access-control check for [u]
    denies and the accessible-department list is empty, while the role
    assignments of the store are left as they were. *)
Theorem deactivated_user_is_denied db u fuel report_id :
  let db' := fst (deactivate_user db u) in
  user_roles db' = user_roles db
  /\ can_create_report db' u = false
  /\ can_view_report fuel db' u report_id = Some false
  /\ can_approve_report fuel db' u report_id = Some false
  /\ can_create_cumulative_report db' u = false
  /\ can_manage_users db' u = false
  /\ can_manage_departments db' u = false
  /\ is_admin db' u = false
  /\ is_manager db' u = false
  /\ get_accessible_departments fuel db' u = Some [].
Proof.
  intros db'. pose proof (deactivate_user_inactive db u) as Hoff.
  fold db' in Hoff.
  unfold can_create_report, can_view_report, can_approve_report,
    can_create_cumulative_report, can_manage_users, can_manage_departments,
    is_admin, is_manager, get_accessible_departments.
  rewrite Hoff. simpl. repeat split; reflexivity.
Qed.

(** ** Viewing one's own report *)

(** Claim C5 (amended): an active user can view every report they submitted
    that [get_report] retrieves, whatever its department and visibility. *)
Theorem active_owner_can_view_own_report fuel db u report_id report :
  active_user db u = true ->
  get_report db report_id = Some report ->
  Report.submitted_by report = u ->
  can_view_report fuel db u report_id = Some true.
Proof.
  intros Hact Hrep Hown. unfold can_view_report.
  rewrite Hact, Hrep. simpl.
  apply Z.eqb_eq in Hown. now rewrite Hown.
Qed.

Lemma active_owner_can_view_own_report_witness :
  active_user org_db 13 = true
  /\ get_report org_db 100 = Some (plain_report 100 "submitted" "department" 13 (Some 2))
  /\ can_view_report 0 org_db 13 100 = Some true.
Proof.
  split; [reflexivity|]. split; [reflexivity|].
  apply (active_owner_can_view_own_report 0 org_db 13 100
           (plain_report 100 "submitted" "department" 13 (Some 2)));
    reflexivity.
Defined.

(** Claim C5, as stated, fails: once employee 13 is deactivated, their own
    report 100 is still retrieved by [get_report] but they may not view it. *)
Lemma deactivated_owner_cannot_view_own_report :
  get_report org_db_deactivated 100
  = Some (plain_report 100 "submitted" "department" 13 (Some 2))
  /\ can_view_report 5 org_db_deactivated 13 100 = Some false.
Proof. split; reflexivity. Qed.

(** ** Department access of the persistence layer *)

(** The check answers [b] without running the recursive query. *)
Ltac decided b := exists 0%nat, b; split; [reflexivity|].

(** Without fuel the check can only run out, never change its answer. *)
Lemma can_access_department_decides db u d :
  acyclic (departments db) ->
  exists n b,
    (forall fuel, (n <= fuel)%nat -> can_access_department fuel db u d = Some b)
    /\ (b = true <-> department_access db u d).
Proof.
  intros Hforest. unfold can_access_department, department_access.
  destruct (get_user_primary_role db u) as [r|] eqn:Hprimary.
  2:{ decided false.
      split; [discriminate|]. intros (r & Hr & _). discriminate. }
  destruct (String.eqb (RoleInfo.role_name r) "admin") eqn:Hadmin.
  { decided true.
    split; [|reflexivity]. intros _. exists r. split; [reflexivity|]. now left. }
  destruct (truthy (RoleInfo.department_id r)) eqn:Hset; simpl.
  2:{ decided false. split; [discriminate|].
      intros (r' & Hr' & [Ha|(_ & Ht & _)]); injection Hr' as <-; congruence. }
  destruct (opt_Z_eqb (RoleInfo.department_id r) d) eqn:Hsame.
  { decided true. split; [|reflexivity].
    intros _. exists r. split; [reflexivity|]. right.
    repeat split; auto. left. now apply opt_Z_eqb_eq. }
  destruct (perm_get (RoleInfo.permissions r) "can_view_subdepartments") eqn:Hsub.
  2:{ decided false. split; [discriminate|].
      intros (r' & Hr' & [Ha|(_ & _ & [He|(Hs & _)])]); injection Hr' as <-;
        try congruence.
      apply opt_Z_eqb_eq in He. congruence. }
  destruct (hierarchy_returns_on_forest db (RoleInfo.department_id r) Hforest)
    as (n & out & Hout).
  exists n, (opt_in d out). split.
  { intros fuel Hle. now rewrite (Hout fuel Hle). }
  destruct (truthy_Some _ Hset) as (root & Hroot & _).
  pose proof (Hout n (Nat.le_refl n)) as Hrun. rewrite Hroot in Hrun.
  pose proof (get_department_hierarchy_descendants _ _ _ _ Hrun) as Hdesc.
  rewrite opt_in_spec. split.
  - intros (x & -> & Hin). exists r. split; [reflexivity|]. right.
    repeat split; auto. right. split; [exact Hsub|].
    exists root, x. repeat split; auto. now apply Hdesc.
  - intros (r' & Hr' & [Ha|(_ & _ & [He|(_ & root' & x & Hr1 & -> & Hd)])]);
      injection Hr' as <-.
    + congruence.
    + apply opt_Z_eqb_eq in He. congruence.
    + exists x. split; [reflexivity|]. apply Hdesc.
      rewrite Hroot in Hr1. injection Hr1 as <-. exact Hd.
Qed.


(** ** Reports with a null or dangling department *)








(** ** Approving reports *)

(** Claim C4 (amended): on a forest [can_approve_report] answers, and it
    answers yes exactly when the requester is active, holds the approve
    capability, the report is retrieved and was submitted by someone else,
    and [can_access_department] grants the report's department. *)
Theorem can_approve_report_characterised db u report_id :
  acyclic (departments db) ->
  exists n b,
    (forall fuel, (n <= fuel)%nat -> can_approve_report fuel db u report_id = Some b)
    /\ (b = true <->
        active_user db u = true
        /\ has_permission db u "can_approve" = true
        /\ exists report,
            get_report db report_id = Some report
            /\ Report.submitted_by report <> u
            /\ department_access db u (Report.department_id report)).
Proof.
  intros Hforest. unfold can_approve_report.
  destruct (active_user db u) eqn:Hact; simpl.
  2:{ decided false. split; [discriminate|].
      intros (H & _). discriminate. }
  destruct (has_permission db u "can_approve") eqn:Hperm; simpl.
  2:{ decided false. split; [discriminate|].
      intros (_ & H & _). discriminate. }
  destruct (get_report db report_id) as [report|] eqn:Hrep.
  2:{ decided false. split; [discriminate|].
      intros (_ & _ & report & H & _). discriminate. }
  destruct (Report.submitted_by report =? u) eqn:Hown.
  { decided false. split; [discriminate|].
    intros (_ & _ & report' & H & Hne & _). injection H as <-.
    apply Z.eqb_eq in Hown. contradiction. }
  destruct (can_access_department_decides db u (Report.department_id report) Hforest)
    as (n & b & Hrun & Hb).
  exists n, b. split; [exact Hrun|]. rewrite Hb. split.
  - intros Hacc. repeat split; auto. exists report. repeat split; auto.
    now apply Z.eqb_neq.
  - intros (_ & _ & report' & H & _ & Hacc). now injection H as <-.
Qed.

Lemma can_approve_report_characterised_witness :
  acyclic (departments org_db)
  /\ exists n b,
      (forall fuel, (n <= fuel)%nat -> can_approve_report fuel org_db 12 100 = Some b)
      /\ (b = true <->
          active_user org_db 12 = true
          /\ has_permission org_db 12 "can_approve" = true
          /\ exists report,
              get_report org_db 100 = Some report
              /\ Report.submitted_by report <> 12
              /\ department_access org_db 12 (Report.department_id report)).
Proof.
  split; [exact org_acyclic|].
  apply (can_approve_report_characterised org_db 12 100). exact org_acyclic.
Defined.

(** Claim C4, as stated, fails: department B has been soft-deleted, so the
    admin's accessible departments are [1] only, yet the admin may approve
    report 100 of department 2. *)
Lemma approval_outside_accessible_departments :
  get_report org_db_b_removed 100
  = Some (plain_report 100 "submitted" "department" 13 (Some 2))
  /\ get_accessible_departments 5 org_db_b_removed 10 = Some [1]
  /\ active_user org_db_b_removed 10 = true
  /\ has_permission org_db_b_removed 10 "can_approve" = true
  /\ can_approve_report 5 org_db_b_removed 10 100 = Some true.
Proof. repeat split; reflexivity. Qed.

(** The manager of B may approve the employee's report but not their own. *)
Example manager_approves_report_of_department :
  can_approve_report 0 org_db 12 100 = Some true
  /\ can_approve_report 0 org_db 12 101 = Some false.
Proof. split; reflexivity. Qed.

(** Nobody approves a report they submitted themselves. *)
Lemma cannot_approve_own_report fuel db u report_id report :
  get_report db report_id = Some report ->
  Report.submitted_by report = u ->
  can_approve_report fuel db u report_id = Some false.
Proof.
  intros Hrep Hown. unfold can_approve_report. rewrite Hrep.
  apply Z.eqb_eq in Hown. rewrite Hown.
  destruct (negb (active_user db u)); [reflexivity|].
  now destruct (negb (has_permission db u "can_approve")).
Qed.

(** ** Accessible departments *)

Lemma max_by_level_spec rest :
  forall first,
    In (max_by_level first rest) (first :: rest)
    /\ forall r, In r (first :: rest) ->
                 RoleInfo.level r <= RoleInfo.level (max_by_level first rest).
Proof.
  unfold max_by_level.
  induction rest as [|x rest IH]; intros first; simpl.
  - split; [now left|]. intros r [<-|[]]. lia.
  - destruct (RoleInfo.level first <? RoleInfo.level x) eqn:E.
    + destruct (IH x) as [Hin Hmax]. split.
      * right. exact Hin.
      * intros r [<-|Hr]; [|now apply Hmax].
        apply Z.ltb_lt in E. specialize (Hmax x (or_introl eq_refl)). lia.
    + destruct (IH first) as [Hin Hmax]. split.
      * destruct Hin as [<-|Hin]; [now left|now right; right].
      * intros r [<-|[<-|Hr]].
        -- apply Hmax. now left.
        -- apply Z.ltb_ge in E. specialize (Hmax first (or_introl eq_refl)). lia.
        -- apply Hmax. now right.
Qed.

Lemma primary_role_is_highest db u :
  highest_active_role db u (get_user_primary_role db u).
Proof.
  unfold highest_active_role, get_user_primary_role.
  destruct (get_user_roles db u) as [|first rest]; [reflexivity|].
  apply max_by_level_spec.
Qed.

(** The dictionary entry of one role joined with one assignment. *)
Lemma in_get_user_roles db v r :
  In r (get_user_roles db v) <->
  exists ur role,
    In ur (user_roles db) /\ UserRole.user_id ur = v /\ UserRole.is_active ur = true
    /\ In role (roles db) /\ Role.id role = UserRole.role_id ur
    /\ r = RoleInfo.mk (Role.id role) (Role.name role) (Role.name_ar role)
             (Role.level role) (decode_permissions (Role.permissions role))
             (UserRole.department_id ur).
Proof.
  unfold get_user_roles. rewrite in_flat_map. split.
  - intros (ur & Hur & Hr).
    destruct ((UserRole.user_id ur =? v) && UserRole.is_active ur) eqn:E;
      [|destruct Hr].
    apply andb_true_iff in E as [Hu Ha]. apply Z.eqb_eq in Hu.
    apply in_map_iff in Hr as (role & <- & Hrole).
    apply filter_In in Hrole as [Hrole Hid]. apply Z.eqb_eq in Hid.
    exists ur, role. repeat split; auto.
  - intros (ur & role & Hur & Hu & Ha & Hrole & Hid & ->).
    exists ur. split; [exact Hur|].
    apply Z.eqb_eq in Hu. rewrite Hu, Ha. simpl.
    apply in_map_iff. exists role. split; [reflexivity|].
    apply filter_In. split; [exact Hrole|]. now apply Z.eqb_eq.
Qed.

Lemma perm_get_grants role k :
  perm_get (decode_permissions (Role.permissions role)) k = grants role k.
Proof.
  unfold perm_get, decode_permissions, grants.
  destruct (Role.permissions role) as [| | |m]; try reflexivity.
  now destruct (m !! k) as [[|]|].
Qed.

(** The role [get_user_primary_role] picks is a highest-level active role
    of the user in the tables, and there is none exactly when the user has
    no active assignment. *)
Lemma primary_role_from_tables db u :
  match get_user_primary_role db u with
  | Some r =>
      exists ur role,
        highest_assignment db u ur role
        /\ r = RoleInfo.mk (Role.id role) (Role.name role) (Role.name_ar role)
                 (Role.level role) (decode_permissions (Role.permissions role))
                 (UserRole.department_id ur)
  | None => forall ur role, ~ active_assignment db u ur role
  end.
Proof.
  pose proof (primary_role_is_highest db u) as Hhigh.
  destruct (get_user_primary_role db u) as [r|]; simpl in Hhigh.
  - destruct Hhigh as [Hin Hmax].
    apply in_get_user_roles in Hin as (ur & role & Hur & Hu & Ha & Hrole & Hid & ->).
    exists ur, role. split; [|reflexivity]. split; [repeat split; auto|].
    intros ur' role' (Hur' & Hu' & Ha' & Hrole' & Hid').
    apply (Hmax (RoleInfo.mk (Role.id role') (Role.name role') (Role.name_ar role')
                   (Role.level role') (decode_permissions (Role.permissions role'))
                   (UserRole.department_id ur'))).
    apply in_get_user_roles. exists ur', role'. repeat split; auto.
  - intros ur role (Hur & Hu & Ha & Hrole & Hid).
    assert (Hin : In (RoleInfo.mk (Role.id role) (Role.name role) (Role.name_ar role)
                        (Role.level role) (decode_permissions (Role.permissions role))
                        (UserRole.department_id ur)) (get_user_roles db u)).
    { apply in_get_user_roles. exists ur, role. repeat split; auto. }
    rewrite Hhigh in Hin. destruct Hin.
Qed.

(** What the body of [get_accessible_departments] computes for a role held
    through an assignment. *)
Lemma accessible_departments_of_role db role ur :
  acyclic (departments db) ->
  exists n out,
    (forall fuel, (n <= fuel)%nat ->
       (if String.eqb (Role.name role) "admin"
        then Some (map Department.id (get_all_departments db))
        else if negb (truthy (UserRole.department_id ur)) then Some []
        else if grants role "can_view_subdepartments"
        then get_department_hierarchy fuel db (UserRole.department_id ur)
        else if grants role "can_view_department"
        then Some (match UserRole.department_id ur with
                   | Some d => [d]
                   | None => []
                   end)
        else Some []) = Some out)
    /\ accessible_set db role (counted_department ur) out.
Proof.
  intros Hforest. unfold accessible_set, counted_department.
  destruct (String.eqb (Role.name role) "admin") eqn:Hadmin.
  { exists 0%nat, (map Department.id (get_all_departments db)).
    split; [reflexivity|]. intros x. apply in_get_all_departments. }
  assert (Hnothing :
    if grants role "can_view_subdepartments"
    then forall x : Z, In x [] <->
           exists root, @None Z = Some root /\ descendant (departments db) root x
    else if grants role "can_view_department"
         then forall x : Z, In x [] <-> @None Z = Some x
         else @nil Z = []).
  { destruct (grants role "can_view_subdepartments").
    - intros x. split; [intros []|]. intros (root & Hroot & _). discriminate.
    - destruct (grants role "can_view_department"); [|reflexivity].
      intros x. split; [intros []|discriminate]. }
  destruct (UserRole.department_id ur) as [dept|]; simpl.
  2:{ exists 0%nat, []. split; [reflexivity|exact Hnothing]. }
  destruct (dept =? 0) eqn:Hzero; simpl.
  { exists 0%nat, []. split; [reflexivity|exact Hnothing]. }
  destruct (grants role "can_view_subdepartments") eqn:Hsub.
  - destruct (hierarchy_returns_on_forest db (Some dept) Hforest) as (n & out & Hout).
    exists n, out. split; [exact Hout|]. intros x.
    rewrite (get_department_hierarchy_descendants _ _ _ _ (Hout n (Nat.le_refl n))).
    split.
    + intros Hd. exists dept. split; [reflexivity|exact Hd].
    + intros (root & Hroot & Hd). now injection Hroot as <-.
  - destruct (grants role "can_view_department") eqn:Hown.
    + exists 0%nat, [dept]. split; [reflexivity|]. intros x. simpl.
      split; [intros [->|[]]; reflexivity|]. intros H. injection H as ->. now left.
    + exists 0%nat, []. split; reflexivity.
Qed.

(** Claim C1 (amended): for an active user, on a department forest,
    [get_accessible_departments] returns.  Without an active role
    assignment it returns nothing; otherwise it returns the set the
    specification describes for a highest-level active role of the user,
    read from the tables: all active departments for admin, the descendant
    closure of the role's department with sub-tree visibility, that
    department alone with same-department visibility, nothing otherwise,
    where a department id of 0 is read as no department. *)
Theorem get_accessible_departments_meets_spec db u :
  active_user db u = true ->
  acyclic (departments db) ->
  exists n out,
    (forall fuel, (n <= fuel)%nat ->
                  get_accessible_departments fuel db u = Some out)
    /\ ((forall ur role, ~ active_assignment db u ur role) -> out = [])
    /\ ((exists ur role, active_assignment db u ur role) ->
        exists ur role,
          highest_assignment db u ur role
          /\ accessible_set db role (counted_department ur) out).
Proof.
  intros Hact Hforest.
  pose proof (primary_role_from_tables db u) as Hprimary.
  unfold get_accessible_departments. rewrite Hact. simpl.
  destruct (get_user_primary_role db u) as [r|].
  2:{ exists 0%nat, []. split; [reflexivity|]. split; [reflexivity|].
      intros (ur & role & Hheld). now elim (Hprimary ur role). }
  destruct Hprimary as (ur & role & Hhigh & ->). simpl.
  rewrite !perm_get_grants.
  destruct (accessible_departments_of_role db role ur Hforest)
    as (n & out & Hrun & Hspec).
  exists n, out. split; [exact Hrun|]. split.
  - intros Hnone. now elim (Hnone ur role (proj1 Hhigh)).
  - intros _. exists ur, role. split; assumption.
Qed.

Lemma get_accessible_departments_meets_spec_witness :
  active_user org_db 11 = true
  /\ acyclic (departments org_db)
  /\ exists n out,
      (forall fuel, (n <= fuel)%nat ->
                    get_accessible_departments fuel org_db 11 = Some out)
      /\ ((forall ur role, ~ active_assignment org_db 11 ur role) -> out = [])
      /\ ((exists ur role, active_assignment org_db 11 ur role) ->
          exists ur role,
            highest_assignment org_db 11 ur role
            /\ accessible_set org_db role (counted_department ur) out).
Proof.
  split; [reflexivity|]. split; [exact org_acyclic|].
  apply (get_accessible_departments_meets_spec org_db 11).
  - reflexivity.
  - exact org_acyclic.
Defined.

(** Claim C1, as stated, fails for a department of id 0: manager 12 is
    assigned to department 0, which is a row of the table, and the claim's
    set for the manager's role is that department alone; the function
    returns nothing, because it tests the department id for truth. *)
Lemma department_zero_is_not_accessible :
  active_user zero_department_db 12 = true
  /\ acyclic (departments zero_department_db)
  /\ get_accessible_departments 5 zero_department_db 12 = Some []
  /\ (exists ur role,
        highest_assignment zero_department_db 12 ur role
        /\ accessible_set zero_department_db role (UserRole.department_id ur) [0])
  /\ (forall ur role,
        highest_assignment zero_department_db 12 ur role ->
        ~ accessible_set zero_department_db role (UserRole.department_id ur) []).
Proof.
  pose (row := UserRole.mk 12 2 (Some 0) true None 0 true).
  pose (manager := Role.mk 2 "manager" "مدير" JInvalid 50
                     (JObject {[ "can_create_report" := true; "can_view_own" := true;
                                 "can_view_department" := true; "can_approve" := true;
                                 "can_create_cumulative" := false ]})).
  assert (Honly : forall ur role,
            active_assignment zero_department_db 12 ur role ->
            ur = row /\ role = manager).
  { intros ur role (Hur & _ & _ & Hrole & Hid).
    simpl in Hur. destruct Hur as [<-|[]]. simpl in Hid.
    simpl in Hrole.
    destruct Hrole as [<-|[<-|[<-|[<-|[]]]]]; try discriminate.
    split; reflexivity. }
  assert (Hheld : active_assignment zero_department_db 12 row manager).
  { repeat split; simpl; auto. }
  assert (Hname : String.eqb (Role.name manager) "admin" = false) by reflexivity.
  assert (Hsub : grants manager "can_view_subdepartments" = false) by reflexivity.
  assert (Hown : grants manager "can_view_department" = true) by reflexivity.
  split; [reflexivity|]. split.
  { exists (fun _ => 0%nat). intros d p Hd Hp. simpl in Hd.
    destruct Hd as [<-|[]]. discriminate. }
  split; [reflexivity|]. split.
  - exists row, manager. split.
    + split; [exact Hheld|]. intros ur' role' Hheld'.
      destruct (Honly ur' role' Hheld') as [_ ->]. lia.
    + unfold accessible_set. rewrite Hname, Hsub, Hown. simpl. intros x.
      split; [intros [<-|[]]; reflexivity|]. intros [= <-]. now left.
  - intros ur role [Hheld' _] Hset.
    destruct (Honly ur role Hheld') as [-> ->].
    unfold accessible_set in Hset. rewrite Hname, Hsub, Hown in Hset.
    apply (proj2 (Hset 0) eq_refl).
Qed.

(** The examples of the specification: manager M of B sees exactly B, and
    upper-manager U of the root A sees exactly A and B. *)
Example manager_sees_own_department :
  get_accessible_departments 0 org_db 12 = Some [2].
Proof. reflexivity. Qed.

Example upper_manager_sees_subtree :
  get_accessible_departments 2 org_db 11 = Some [1; 2].
Proof. reflexivity. Qed.

Example admin_sees_all_active_departments :
  get_accessible_departments 0 org_db 10 = Some [1; 2].
Proof. reflexivity. Qed.

(** Every accessible department is one [can_access_department] grants. *)
Lemma accessible_department_is_granted fuel db u out x :
  active_user db u = true ->
  get_accessible_departments fuel db u = Some out ->
  In x out ->
  department_access db u (Some x).
Proof.
  intros Hact Hrun Hin. unfold get_accessible_departments in Hrun.
  rewrite Hact in Hrun. simpl in Hrun. unfold department_access.
  destruct (get_user_primary_role db u) as [r|] eqn:Hprimary.
  2:{ injection Hrun as <-. destruct Hin. }
  exists r. split; [reflexivity|].
  destruct (String.eqb (RoleInfo.role_name r) "admin") eqn:Hadmin; [now left|].
  right. split; [reflexivity|].
  destruct (truthy (RoleInfo.department_id r)) eqn:Hset; simpl in Hrun.
  2:{ injection Hrun as <-. destruct Hin. }
  split; [reflexivity|].
  destruct (truthy_Some _ Hset) as (root & Hroot & _). rewrite Hroot in *.
  destruct (perm_get (RoleInfo.permissions r) "can_view_subdepartments") eqn:Hsub.
  - right. split; [reflexivity|]. exists root, x. repeat split.
    now apply (get_department_hierarchy_descendants _ _ _ _ Hrun).
  - destruct (perm_get (RoleInfo.permissions r) "can_view_department").
    + injection Hrun as <-. destruct Hin as [<-|[]]. now left.
    + injection Hrun as <-. destruct Hin.
Qed.

(** ** Granting roles *)

Lemma get_role_by_name_has_no_level db role_name role :
  get_role_by_name db role_name = Some role -> getitem role "level" = Raises (KeyError "level").
Proof.
  unfold get_role_by_name.
  destruct (find _ (roles db)) as [row|]; [|discriminate].
  intros H. injection H as <-. reflexivity.
Qed.

(** Once the assigner passes the first two checks and the role name exists,
    the call raises instead of answering. *)
Lemma can_assign_role_raises db assigner_id target_user_id role_name department_id role :
  active_user db assigner_id = true ->
  can_manage_users db assigner_id = true ->
  get_role_by_name db role_name = Some role ->
  can_assign_role db assigner_id target_user_id role_name department_id
  = Raises (KeyError "level").
Proof.
  intros Hact Hmanage Hrole. unfold can_assign_role.
  rewrite Hact, Hmanage, Hrole. simpl.
  now rewrite (get_role_by_name_has_no_level _ _ _ Hrole).
Qed.

(** As a result no call ever returns an allow. *)
Lemma can_assign_role_never_allows db assigner_id target_user_id role_name
  department_id msg :
  can_assign_role db assigner_id target_user_id role_name department_id
  <> Returns (true, msg).
Proof.
  unfold can_assign_role.
  destruct (negb (active_user db assigner_id)); [discriminate|].
  destruct (negb (can_manage_users db assigner_id)); [discriminate|].
  destruct (get_role_by_name db role_name) as [role|] eqn:Hrole; [|discriminate].
  rewrite (get_role_by_name_has_no_level _ _ _ Hrole). discriminate.
Qed.

(** Claim C3 (code defect): admin 10 (rank 99) asks to grant the admin role
    (rank 99, not below their own) and the employee role (rank 10, below):
    instead of a rejection for the first and an allow for the second, both
    calls raise [KeyError], because the role dictionary has no ['level']. *)
Theorem can_assign_role_raises_key_error :
  can_assign_role org_db 10 13 "admin" (Some 2) = Raises (KeyError "level")
  /\ can_assign_role org_db 10 13 "employee" (Some 2) = Raises (KeyError "level").
Proof. split; reflexivity. Qed.

(** ** Duplicate role assignments *)

Lemma unset_primary_unique_violation rows u user_id role_id department_id :
  unique_violation (unset_primary u rows) user_id role_id department_id
  = unique_violation rows user_id role_id department_id.
Proof.
  unfold unique_violation, unset_primary.
  induction rows as [|ur rows IH]; simpl; [reflexivity|].
  rewrite IH. now destruct (UserRole.user_id ur =? u).
Qed.

Lemma unique_violation_same_assignment rows user_id role_id department_id :
  unique_violation rows user_id role_id department_id = true ->
  existsb (same_assignment user_id role_id department_id) rows = true.
Proof.
  unfold unique_violation. rewrite !existsb_exists.
  intros (ur & Hin & Hkey). exists ur. split; [exact Hin|].
  unfold same_assignment.
  apply andb_true_iff in Hkey as [Hkey Hdept]. rewrite Hkey. simpl.
  unfold sql_eqb in Hdept. unfold opt_Z_eqb.
  destruct (UserRole.department_id ur), department_id; auto.
Qed.

(** With a department given, a duplicate assignment is refreshed in place:
    no row is added, the matching row is reactivated and takes the new
    primary flag, assigner and time, and the call returns [True]. *)
Lemma assign_role_duplicate_refreshes now db user_id role_name dept assigned_by
  is_primary role role_id :
  get_role_by_name db role_name = Some role ->
  getitem role "id" = Returns (PyInt role_id) ->
  unique_violation (user_roles db) user_id role_id (Some dept) = true ->
  assign_role now db user_id role_name (Some dept) assigned_by is_primary
  = (with_user_roles db
       (refresh_assignment now user_id role_id (Some dept) assigned_by is_primary
          (if is_primary then unset_primary user_id (user_roles db)
           else user_roles db)),
     true).
Proof.
  intros Hrole Hid Hdup. unfold assign_role. rewrite Hrole, Hid.
  assert (Hdup' : unique_violation
                    (if is_primary then unset_primary user_id (user_roles db)
                     else user_roles db) user_id role_id (Some dept) = true).
  { destruct is_primary; [|exact Hdup]. now rewrite unset_primary_unique_violation. }
  rewrite Hdup'. simpl.
  now rewrite (unique_violation_same_assignment _ _ _ _ Hdup').
Qed.

Example assign_role_refreshes_employee :
  assign_role 9 org_db 13 "employee" (Some 2) (Some 12) true
  = (with_user_roles org_db
       [UserRole.mk 10 4 None true None 0 true;
        UserRole.mk 11 3 (Some 1) true (Some 10) 0 true;
        UserRole.mk 12 2 (Some 2) true (Some 10) 0 true;
        UserRole.mk 13 1 (Some 2) true (Some 12) 9 true],
     true).
Proof. reflexivity. Qed.

Lemma unique_violation_null rows user_id role_id :
  unique_violation rows user_id role_id None = false.
Proof.
  unfold unique_violation. induction rows as [|ur rows IH]; simpl; [reflexivity|].
  rewrite IH. unfold sql_eqb.
  destruct (UserRole.department_id ur); now rewrite andb_false_r.
Qed.

(** Without a department the insert never collides, whatever is stored: the
    update path is not taken and one more row is added. *)
Lemma assign_role_null_department_inserts now db user_id role_name assigned_by
  is_primary role role_id :
  get_role_by_name db role_name = Some role ->
  getitem role "id" = Returns (PyInt role_id) ->
  assign_role now db user_id role_name None assigned_by is_primary
  = (with_user_roles db
       ((if is_primary then unset_primary user_id (user_roles db)
         else user_roles db)
        ++ [new_assignment now user_id role_id None assigned_by is_primary]),
     true).
Proof.
  intros Hrole Hid. unfold assign_role. rewrite Hrole, Hid.
  now rewrite unique_violation_null.
Qed.

(** Claim C9 (code defect): user 20 already has an admin assignment without
    department, revoked earlier.  Granting it again does not refresh that
    row: a NULL department never collides under the UNIQUE constraint, so a
    second row is inserted and the old one stays inactive. *)
Theorem assign_role_null_department_inserts_duplicate :
  assign_role 9 revoked_admin_db 20 "admin" None (Some 10) true
  = (with_user_roles revoked_admin_db
       [UserRole.mk 10 4 None true None 0 true;
        UserRole.mk 20 4 None false (Some 10) 5 false;
        UserRole.mk 20 4 None true (Some 10) 9 true],
     true).
Proof.
  destruct (get_role_by_name revoked_admin_db "admin") as [role|] eqn:Hrole;
    [|discriminate].
  rewrite (assign_role_null_department_inserts 9 revoked_admin_db 20 "admin"
             (Some 10) true role 4 Hrole).
  - reflexivity.
  - injection Hrole as <-. reflexivity.
Qed.

(** ** Summaries that fail *)

Lemma summarize_text_blocked text :
  summarize_text blocking_service text "ar" = safety_msg.
Proof. reflexivity. Qed.

Lemma summarize_text_network_error generate_content text error_msg :
  (forall prompt, generate_content prompt = GenerateRaises error_msg) ->
  summarize_text generate_content text "ar"
  = "عذراً، حدث خطأ في التلخيص:" +++ nl +++ error_msg.
Proof. intros H. unfold summarize_text. now rewrite H. Qed.

(** The handler has no failure path for the summary: whenever it finds
    approved reports, whatever [summarize_text] returned is stored as the
    content of a new cumulative report. *)
Lemma cumulative_handler_stores_summary fuel now generate_content db user_id period
  db' reply :
  cumulative_period_handler fuel now generate_content db user_id period
  = Some (Returns (db', reply)) ->
  (reply = NoApprovedReports /\ db' = db)
  \/ exists text cumulative_id r,
      reply = CumulativeCreated cumulative_id
                (summarize_text generate_content text "ar")
      /\ reports db' = reports db ++ [r]
      /\ Report.id r = cumulative_id
      /\ Report.is_cumulative r = true
      /\ Report.content r = summarize_text generate_content text "ar".
Proof.
  unfold cumulative_period_handler.
  destruct (get_department_hierarchy fuel db (get_user_department db user_id));
    [|discriminate].
  destruct (get_hierarchical_reports fuel db (get_user_department db user_id) _ _ _)
    as [[|first rest]|]; [| |discriminate].
  - intros H. injection H as <- <-. now left.
  - unfold create_cumulative_report.
    destruct (get_user_department db user_id); [|discriminate].
    intros H. injection H as <- <-. right.
    eexists _, _, _. repeat split.
Qed.

(** Claim C7 (code defect): the service blocks the content, and
    [cumulative_period_handler] still creates cumulative report 102, whose
    content is the rejection text [summarize_text] returned. *)
Theorem blocked_summary_becomes_cumulative_report :
  exists db',
    cumulative_period_handler 5 1000500 blocking_service approved_db 11 "weekly"
    = Some (Returns (db', CumulativeCreated 102 safety_msg))
    /\ reports db' = reports approved_db ++ [blocked_cumulative_report]
    /\ Report.content blocked_cumulative_report
       = summarize_text blocking_service "any" "ar".
Proof. eexists. repeat split. Qed.

(** The sibling handler [summary_command] recognises the same rejection text
    and saves nothing. *)
Example blocked_summary_is_not_saved :
  summary_command 1000500 blocking_service approved_db 13
  = (approved_db, SummaryFailed safety_msg).
Proof. reflexivity. Qed.

(** ** The life cycle of a report *)

(** What one handler can do to the reports table: nothing, add one row that
    is a draft or submitted (submitted, if cumulative), or mark the rows of
    one id approved. *)
Lemma handler_step_shape db db' :
  handler_step db db' ->
  reports db' = reports db
  \/ (exists r, reports db' = reports db ++ [r] /\ lifecycle_ok r
                /\ Report.status r <> "approved")
  \/ (exists report_id, reports db' = map (approve_row report_id) (reports db)).
Proof.
  assert (Happrove : forall fuel now user_id report_id db' reply,
             approve_button_callback fuel now db user_id report_id = Some (db', reply) ->
             reports db' = reports db
             \/ (exists rid, reports db' = map (approve_row rid) (reports db))).
  { intros fuel now user_id report_id db1 reply. unfold approve_button_callback.
    destruct (can_approve_report fuel db user_id report_id) as [[|]|];
      intros H; try discriminate; injection H as <- _.
    - right. exists report_id. reflexivity.
    - now left. }
  intros Hstep.
  destruct Hstep as [now user_id action title content report_type
                    | fuel now user_id arg db' reply Hrun
                    | fuel now user_id report_id db' reply Hrun
                    | fuel now generate_content user_id period db' reply Hrun
                    | db' Hsame].
  - unfold save_report.
    destruct (get_user_department db user_id) as [user_dept|]; [|now left].
    destruct (user_dept =? 0); [now left|].
    destruct (validate_report_creation db user_id (Some user_dept)) as [valid msg].
    destruct valid; simpl; [|now left].
    right. left.
    destruct (String.eqb action "submit_report"); simpl;
      eexists; (split; [reflexivity|]); unfold lifecycle_ok; simpl;
      (split; [split; [tauto|discriminate]|discriminate]).
  - destruct arg as [report_id|]; simpl in Hrun.
    + destruct (Happrove _ _ _ _ _ _ Hrun) as [H|H]; [now left|now right; right].
    + injection Hrun as <- _. now left.
  - destruct (Happrove _ _ _ _ _ _ Hrun) as [H|H]; [now left|now right; right].
  - unfold cumulative_period_handler in Hrun.
    destruct (get_department_hierarchy fuel db (get_user_department db user_id));
      [|discriminate].
    destruct (get_hierarchical_reports fuel db (get_user_department db user_id) _ _ _)
      as [[|first rest]|]; [| |discriminate].
    + injection Hrun as <- _. now left.
    + unfold create_cumulative_report in Hrun.
      destruct (get_user_department db user_id); [|discriminate].
      injection Hrun as <- _. right. left. simpl.
      eexists. split; [reflexivity|]. unfold lifecycle_ok. simpl.
      split; [split; [tauto|discriminate]|discriminate].
  - now left.
Qed.

Lemma approve_row_id report_id r : Report.id (approve_row report_id r) = Report.id r.
Proof. unfold approve_row. now destruct (Report.id r =? report_id). Qed.

Lemma approve_row_ok report_id r : lifecycle_ok r -> lifecycle_ok (approve_row report_id r).
Proof.
  unfold approve_row. destruct (Report.id r =? report_id); [|auto].
  intros _. unfold lifecycle_ok. simpl. split; [tauto|discriminate].
Qed.

Lemma find_approve_row report_id rid (l : list Report.t) :
  find (fun r => Report.id r =? rid) (map (approve_row report_id) l)
  = option_map (approve_row report_id) (find (fun r => Report.id r =? rid) l).
Proof.
  induction l as [|r l IH]; simpl; [reflexivity|].
  rewrite approve_row_id. now destruct (Report.id r =? rid).
Qed.

Lemma find_app_some {A : Type} (f : A -> bool) (l1 l2 : list A) (x : A) :
  find f l1 = Some x -> find f (l1 ++ l2) = Some x.
Proof.
  induction l1 as [|y l1 IH]; simpl; [discriminate|].
  destruct (f y); auto.
Qed.

Lemma handler_step_invariant db db' :
  handler_step db db' -> lifecycle_invariant db -> lifecycle_invariant db'.
Proof.
  intros Hstep Hinv. unfold lifecycle_invariant in *.
  destruct (handler_step_shape db db' Hstep) as [->|[(r & -> & Hr & _)|(rid & ->)]].
  - exact Hinv.
  - apply List.Forall_app. split; [exact Hinv|]. now constructor.
  - apply List.Forall_forall. intros x Hx.
    apply in_map_iff in Hx as (r & <- & Hin). apply approve_row_ok.
    now apply (proj1 (List.Forall_forall _ _) Hinv).
Qed.

Lemma handler_step_status db db' report_id s :
  handler_step db db' ->
  status_of db report_id = Some s ->
  status_of db' report_id = Some s \/ status_of db' report_id = Some "approved".
Proof.
  intros Hstep. unfold status_of.
  destruct (handler_step_shape db db' Hstep) as [->|[(r & -> & _)|(rid & ->)]].
  - now left.
  - destruct (find (fun r0 => Report.id r0 =? report_id) (reports db)) as [r0|] eqn:Hfind;
      [|discriminate].
    intros H. left. rewrite (find_app_some _ _ _ _ Hfind). exact H.
  - rewrite find_approve_row.
    destruct (find (fun r => Report.id r =? report_id) (reports db)) as [r0|];
      [|discriminate].
    intros H. simpl. unfold approve_row.
    destruct (Report.id r0 =? rid); [now right|now left].
Qed.

Lemma status_of_after_update now db report_id status s0 :
  status_of db report_id = Some s0 ->
  status_of (fst (update_report_status now db report_id status)) report_id
  = Some status.
Proof.
  unfold status_of, update_report_status. simpl.
  induction (reports db) as [|r l IH]; simpl; [discriminate|].
  destruct (Report.id r =? report_id) eqn:E; simpl.
  - now rewrite E.
  - rewrite E. exact IH.
Qed.

(** What [save_report] does to the reports table: nothing, or one new row
    that is not cumulative and is submitted or a draft, as the button says. *)
Lemma save_report_shape now db user_id action title content report_type :
  let db' := fst (save_report now db user_id action title content report_type) in
  reports db' = reports db
  \/ exists r,
       reports db' = reports db ++ [r]
       /\ Report.is_cumulative r = false
       /\ Report.status r
          = (if String.eqb action "submit_report" then "submitted" else "draft").
Proof.
  cbv zeta. unfold save_report.
  destruct (get_user_department db user_id) as [user_dept|]; [|now left].
  destruct (user_dept =? 0); [now left|].
  destruct (validate_report_creation db user_id (Some user_dept)) as [valid msg].
  destruct valid; simpl; [|now left].
  right. destruct (String.eqb action "submit_report"); simpl;
    eexists; repeat split.
Qed.

(** What [cumulative_period_handler] does to the reports table: nothing, or
    one new row that is cumulative and submitted. *)
Lemma cumulative_period_handler_shape fuel now generate_content db user_id period
  db' reply :
  cumulative_period_handler fuel now generate_content db user_id period
  = Some (Returns (db', reply)) ->
  reports db' = reports db
  \/ exists r,
       reports db' = reports db ++ [r]
       /\ Report.is_cumulative r = true
       /\ Report.status r = "submitted".
Proof.
  unfold cumulative_period_handler.
  destruct (get_department_hierarchy fuel db (get_user_department db user_id));
    [|discriminate].
  destruct (get_hierarchical_reports fuel db (get_user_department db user_id) _ _ _)
    as [[|first rest]|]; [| |discriminate].
  - intros H. injection H as <- _. now left.
  - unfold create_cumulative_report.
    destruct (get_user_department db user_id); [|discriminate].
    intros H. injection H as <- _. right. simpl. eexists. repeat split.
Qed.

(** What the approve button does to the reports table: nothing, or the rows
    of that id become approved, whatever their status. *)
Lemma approve_button_callback_shape fuel now db user_id report_id db' reply :
  approve_button_callback fuel now db user_id report_id = Some (db', reply) ->
  reports db' = reports db
  \/ reports db' = map (approve_row report_id) (reports db).
Proof.
  unfold approve_button_callback.
  destruct (can_approve_report fuel db user_id report_id) as [[|]|];
    intros H; try discriminate; injection H as <- _.
  - now right.
  - now left.
Qed.

(** Claim C6 (amended): in every state the handlers can reach from a store
    whose reports are drafts, submitted or approved and whose cumulative
    reports are not drafts, the same holds, so a cumulative report is never
    observed in draft state.  There, [save_report] creates a report as a
    draft or as submitted, [cumulative_period_handler] creates a cumulative
    report as submitted, the approve command and button set the rows of one
    id to approved whatever their status, and so one handler step leaves the
    status of an existing report as it is or makes it approved;
    [update_report_status] itself writes the status it is given. *)
Theorem handlers_keep_report_lifecycle init db :
  lifecycle_invariant init ->
  reachable init db ->
  lifecycle_invariant db
  /\ (forall now user_id action title content report_type,
        let db' := fst (save_report now db user_id action title content report_type) in
        reports db' = reports db
        \/ exists r,
             reports db' = reports db ++ [r]
             /\ Report.is_cumulative r = false
             /\ Report.status r
                = (if String.eqb action "submit_report" then "submitted" else "draft"))
  /\ (forall fuel now generate_content user_id period db' reply,
        cumulative_period_handler fuel now generate_content db user_id period
        = Some (Returns (db', reply)) ->
        reports db' = reports db
        \/ exists r,
             reports db' = reports db ++ [r]
             /\ Report.is_cumulative r = true
             /\ Report.status r = "submitted")
  /\ (forall fuel now user_id report_id db' reply,
        approve_button_callback fuel now db user_id report_id = Some (db', reply) ->
        reports db' = reports db
        \/ reports db' = map (approve_row report_id) (reports db))
  /\ (forall fuel now user_id arg db' reply,
        approve_report_command fuel now db user_id arg = Some (db', reply) ->
        reports db' = reports db
        \/ exists report_id,
             arg = Some report_id
             /\ reports db' = map (approve_row report_id) (reports db))
  /\ (forall db' report_id s,
        handler_step db db' ->
        status_of db report_id = Some s ->
        status_of db' report_id = Some s \/ status_of db' report_id = Some "approved")
  /\ (forall now report_id status s,
        status_of db report_id = Some s ->
        status_of (fst (update_report_status now db report_id status)) report_id
        = Some status).
Proof.
  intros Hinit Hreach. split.
  { induction Hreach as [|db db' _ IH Hstep]; [exact Hinit|].
    eapply handler_step_invariant; eauto. }
  split; [intros; apply save_report_shape|].
  split; [intros fuel now generate_content user_id period db' reply;
          apply cumulative_period_handler_shape|].
  split; [intros fuel now user_id report_id db' reply;
          apply approve_button_callback_shape|].
  split.
  { intros fuel now user_id [report_id|] db' reply; simpl.
    - intros Hrun.
      destruct (approve_button_callback_shape _ _ _ _ _ _ _ Hrun) as [H|H];
        [now left|right; eauto].
    - intros H. injection H as <- _. now left. }
  split.
  - intros db' report_id s Hstep. now apply handler_step_status.
  - intros now report_id status s. apply status_of_after_update.
Qed.

Lemma org_lifecycle : lifecycle_invariant org_db.
Proof.
  unfold lifecycle_invariant. simpl.
  repeat constructor; simpl; auto; discriminate.
Qed.

Lemma workflow_reachable : reachable org_db workflow_db.
Proof.
  apply (reachable_step _ button_approved_db).
  - apply (reachable_step _ submitted_db).
    + apply (reachable_step _ org_db); [apply reachable_init|].
      apply step_save_report.
    + apply (step_approve_button _ 5%nat 1000100 12 102 _ (Approved 102)).
      reflexivity.
  - apply (step_cumulative _ 5%nat 1000500 answering_service 11 "weekly" _
             (CumulativeCreated 103 "digest")).
    reflexivity.
Qed.

Lemma handlers_keep_report_lifecycle_witness :
  lifecycle_invariant org_db
  /\ reachable org_db workflow_db
  /\ map (fun r => (Report.id r, Report.status r, Report.is_cumulative r))
       (reports workflow_db)
     = [(100, "submitted", false); (101, "submitted", false);
        (102, "approved", false); (103, "submitted", true)]
  /\ lifecycle_invariant workflow_db.
Proof.
  split; [exact org_lifecycle|]. split; [exact workflow_reachable|].
  split; [reflexivity|].
  exact (proj1 (handlers_keep_report_lifecycle org_db workflow_db org_lifecycle
                  workflow_reachable)).
Defined.

(** Claim C6, as stated, fails: the approve command takes draft 102 straight
    to approved, and [update_report_status] puts the cumulative report 102 of
    another store back into draft. *)
Lemma report_lifecycle_is_not_enforced :
  (status_of draft_db 102 = Some "draft"
   /\ exists db',
       approve_report_command 0 77 draft_db 12 (Some 102) = Some (db', Approved 102)
       /\ status_of db' 102 = Some "approved")
  /\ (exists db',
         fst (update_report_status 0
                (with_reports approved_db
                   (reports approved_db ++ [blocked_cumulative_report]))
                102 "draft") = db'
         /\ existsb (fun r => Report.is_cumulative r
                              && String.eqb (Report.status r) "draft")
              (reports db') = true).
Proof.
  split.
  - split; [reflexivity|]. eexists. split; reflexivity.
  - eexists. split; reflexivity.
Qed.

(* ================================================================== *)
(** * Part III: further properties of the store and the handlers *)
(* ================================================================== *)

(** ** Accounts *)

Lemma get_user_add_user db u : get_user (add_user db u) u = Some (User.mk u true).
Proof.
  unfold get_user, add_user. simpl.
  induction (users db) as [|x us IH]; simpl.
  - now rewrite Z.eqb_refl.
  - destruct (User.user_id x =? u) eqn:E; simpl; [exact IH|]. now rewrite E.
Qed.

Lemma get_user_add_user_other db u v :
  v <> u -> get_user (add_user db u) v = get_user db v.
Proof.
  intros Hne. unfold get_user, add_user. simpl.
  induction (users db) as [|x us IH]; simpl.
  - destruct (u =? v) eqn:E; [apply Z.eqb_eq in E; congruence|reflexivity].
  - destruct (User.user_id x =? u) eqn:E; simpl.
    + apply Z.eqb_eq in E.
      destruct (User.user_id x =? v) eqn:E'; [apply Z.eqb_eq in E'; congruence|].
      exact IH.
    + destruct (User.user_id x =? v); [reflexivity|exact IH].
Qed.

Lemma get_user_deactivate_other db u v :
  v <> u -> get_user (fst (deactivate_user db u)) v = get_user db v.
Proof.
  intros Hne. unfold get_user, deactivate_user. simpl.
  induction (users db) as [|x us IH]; simpl; [reflexivity|].
  destruct (User.user_id x =? u) eqn:E; simpl.
  - apply Z.eqb_eq in E.
    destruct (User.user_id x =? v) eqn:E'; [apply Z.eqb_eq in E'; congruence|].
    exact IH.
  - destruct (User.user_id x =? v); [reflexivity|exact IH].
Qed.

Lemma with_reports_same db : with_reports db (reports db) = db.
Proof. now destruct db. Qed.

Lemma with_users_same db : with_users db (users db) = db.
Proof. now destruct db. Qed.

Lemma map_unchanged {A : Type} (f : A -> A) (l : list A) :
  (forall x, In x l -> f x = x) -> map f l = l.
Proof.
  induction l as [|x l IH]; intros H; simpl; [reflexivity|].
  rewrite (H x (or_introl eq_refl)), IH; auto. intros y Hy. apply H. now right.
Qed.

(** [/start] and [/register] store the user with [is_active = 1]: a
    deactivated user who sends either is active again, with every role
    assignment as it was, so the capability checks answer from the roles
    alone; nobody else's account is touched. *)
Theorem start_reactivates_deactivated_user db u :
  let db' := start (fst (deactivate_user db u)) u in
  fst (register_command (fst (deactivate_user db u)) u) = db'
  /\ active_user db' u = true
  /\ user_roles db' = user_roles db
  /\ can_create_report db' u = has_permission db u "can_create_report"
  /\ can_create_cumulative_report db' u = has_permission db u "can_create_cumulative"
  /\ can_manage_users db' u = has_permission db u "can_manage_users"
  /\ can_manage_departments db' u = has_permission db u "can_manage_departments"
  /\ forall v, v <> u -> get_user db' v = get_user db v.
Proof.
  intros db'. subst db'. unfold start.
  set (db1 := fst (deactivate_user db u)).
  assert (Hact : active_user (add_user db1 u) u = true).
  { unfold active_user. now rewrite get_user_add_user. }
  split.
  { unfold register_command. now destruct (get_all_departments (add_user db1 u)). }
  split; [exact Hact|]. split; [reflexivity|].
  unfold can_create_report, can_create_cumulative_report, can_manage_users,
    can_manage_departments.
  rewrite Hact. simpl. repeat (split; [reflexivity|]).
  intros v Hne. rewrite (get_user_add_user_other db1 u v Hne).
  now apply get_user_deactivate_other.
Qed.

(** [deactivate_user] returns [True] exactly when the user has a row; for an
    unknown user the store is unchanged, and in every case only that user's
    account changes. *)
Theorem deactivate_user_touches_one_account db u :
  (snd (deactivate_user db u) = true <-> get_user db u <> None)
  /\ (snd (deactivate_user db u) = false -> fst (deactivate_user db u) = db)
  /\ (forall v, v <> u -> get_user (fst (deactivate_user db u)) v = get_user db v)
  /\ user_roles (fst (deactivate_user db u)) = user_roles db
  /\ reports (fst (deactivate_user db u)) = reports db
  /\ departments (fst (deactivate_user db u)) = departments db.
Proof.
  split; [|split; [|split; [|repeat split]]].
  - unfold deactivate_user, get_user. simpl.
    induction (users db) as [|x us IH]; simpl; [split; [discriminate|congruence]|].
    destruct (User.user_id x =? u); simpl; [split; [discriminate|reflexivity]|exact IH].
  - unfold deactivate_user. simpl. intros Hnone.
    rewrite map_unchanged; [apply with_users_same|].
    intros x Hx. destruct (User.user_id x =? u) eqn:E; [|reflexivity].
    exfalso. assert (Hex : existsb (fun u0 => User.user_id u0 =? u) (users db) = true).
    { apply existsb_exists. eauto. }
    congruence.
  - intros v Hne. now apply get_user_deactivate_other.
Qed.

(** ** Role assignments *)

Lemma get_role_by_name_found db role_name row :
  find (fun r => String.eqb (Role.name r) role_name) (roles db) = Some row ->
  exists role, get_role_by_name db role_name = Some role
               /\ getitem role "id" = Returns (PyInt (Role.id row)).
Proof.
  intros Hfind. unfold get_role_by_name. rewrite Hfind.
  eexists. split; reflexivity.
Qed.

(** What [assign_role] does, by cases: nothing for an unknown role name; a
    refresh in place when the key is already stored; one more row otherwise.
    The delete-and-insert path of the source is never taken. *)
Lemma assign_role_shape now db u role_name dept assigned_by (is_primary : bool) :
  match find (fun r => String.eqb (Role.name r) role_name) (roles db) with
  | None =>
      assign_role now db u role_name dept assigned_by is_primary = (db, false)
  | Some row =>
      let rows1 := if is_primary then unset_primary u (user_roles db)
                   else user_roles db in
      assign_role now db u role_name dept assigned_by is_primary
      = (with_user_roles db
           (if unique_violation rows1 u (Role.id row) dept
            then refresh_assignment now u (Role.id row) dept assigned_by is_primary rows1
            else rows1 ++ [new_assignment now u (Role.id row) dept assigned_by
                             is_primary]),
         true)
  end.
Proof.
  destruct (find _ (roles db)) as [row|] eqn:Hfind.
  - destruct (get_role_by_name_found db role_name row Hfind) as (role & Hrole & Hid).
    unfold assign_role. rewrite Hrole, Hid. cbv zeta.
    destruct (unique_violation _ u (Role.id row) dept) eqn:Hdup; simpl; [|reflexivity].
    now rewrite (unique_violation_same_assignment _ _ _ _ Hdup).
  - unfold assign_role, get_role_by_name. now rewrite Hfind.
Qed.

Lemma covers_refl ur : covers ur ur.
Proof. repeat split; auto. Qed.

Lemma covers_map (f : UserRole.t -> UserRole.t) rows ur :
  (forall x, covers x (f x)) -> In ur rows -> exists ur', In ur' (map f rows) /\ covers ur ur'.
Proof. intros Hf Hin. exists (f ur). split; [now apply in_map|apply Hf]. Qed.

Lemma assign_role_covers now db u role_name dept assigned_by is_primary ur :
  In ur (user_roles db) ->
  exists ur',
    In ur' (user_roles (fst (assign_role now db u role_name dept assigned_by is_primary)))
    /\ covers ur ur'.
Proof.
  intros Hin. pose proof (assign_role_shape now db u role_name dept assigned_by is_primary)
    as Hshape.
  destruct (find _ (roles db)) as [row|].
  2:{ rewrite Hshape. exists ur. split; [exact Hin|apply covers_refl]. }
  cbv zeta in Hshape. rewrite Hshape. simpl.
  assert (H1 : exists ur1, In ur1 (if is_primary then unset_primary u (user_roles db)
                                   else user_roles db) /\ covers ur ur1).
  { destruct is_primary; [|exists ur; split; [exact Hin|apply covers_refl]].
    apply covers_map; [|exact Hin]. intros x.
    destruct (UserRole.user_id x =? u); repeat split; auto. }
  destruct H1 as (ur1 & Hin1 & Hc1).
  destruct (unique_violation _ u (Role.id row) dept).
  - destruct (covers_map
                (fun x => if same_assignment u (Role.id row) dept x
                          then UserRole.mk (UserRole.user_id x) (UserRole.role_id x)
                                 (UserRole.department_id x) true assigned_by now is_primary
                          else x)
                (if is_primary then unset_primary u (user_roles db) else user_roles db)
                ur1) as (ur2 & Hin2 & Hc2); [|exact Hin1|].
    + intros x. destruct (same_assignment u (Role.id row) dept x); repeat split; auto.
    + exists ur2. split; [exact Hin2|].
      destruct Hc1 as (a1 & b1 & c1 & d1), Hc2 as (a2 & b2 & c2 & d2).
      repeat split; try congruence. auto.
  - exists ur1. split; [apply in_or_app; now left|exact Hc1].
Qed.

Lemma assign_role_keeps_roles now db u role_name dept assigned_by is_primary v r :
  In r (get_user_roles db v) ->
  In r (get_user_roles (fst (assign_role now db u role_name dept assigned_by is_primary)) v).
Proof.
  rewrite !in_get_user_roles.
  intros (ur & role & Hur & Hu & Ha & Hrole & Hid & ->).
  destruct (assign_role_covers now db u role_name dept assigned_by is_primary ur Hur)
    as (ur' & Hur' & (Hu' & Hr' & Hd' & Ha')).
  exists ur', role. repeat split; auto; try congruence.
  assert (Hroles : roles (fst (assign_role now db u role_name dept assigned_by is_primary))
                   = roles db).
  { pose proof (assign_role_shape now db u role_name dept assigned_by is_primary) as Hs.
    destruct (find _ (roles db)); cbv zeta in Hs; now rewrite Hs. }
  now rewrite Hroles.
Qed.

(** [assign_role] only ever adds: every active role a user holds before the
    call is held after it, for every user, so a user's highest-level role
    never drops.  In particular [/promote] to a lower role changes nothing in
    what the user may do. *)
Theorem assign_role_never_removes_a_role now db u role_name dept assigned_by
  is_primary v :
  let db' := fst (assign_role now db u role_name dept assigned_by is_primary) in
  (forall r, In r (get_user_roles db v) -> In r (get_user_roles db' v))
  /\ (forall r, get_user_primary_role db v = Some r ->
                exists r', get_user_primary_role db' v = Some r'
                           /\ RoleInfo.level r <= RoleInfo.level r').
Proof.
  intros db'. split.
  - intros r. apply assign_role_keeps_roles.
  - intros r Hr.
    pose proof (primary_role_is_highest db v) as Hold. rewrite Hr in Hold.
    destruct Hold as [Hin _].
    pose proof (assign_role_keeps_roles now db u role_name dept assigned_by
                  is_primary v r Hin) as Hin'.
    fold db' in Hin'.
    pose proof (primary_role_is_highest db' v) as Hnew.
    destruct (get_user_primary_role db' v) as [r'|].
    + exists r'. split; [reflexivity|]. now apply Hnew.
    + simpl in Hnew. rewrite Hnew in Hin'. destruct Hin'.
Qed.

Lemma unique_violation_map (f : UserRole.t -> UserRole.t) rows u r d :
  (forall x, UserRole.user_id (f x) = UserRole.user_id x
             /\ UserRole.role_id (f x) = UserRole.role_id x
             /\ UserRole.department_id (f x) = UserRole.department_id x) ->
  unique_violation (map f rows) u r d = unique_violation rows u r d.
Proof.
  intros Hf. unfold unique_violation.
  induction rows as [|x rows IH]; simpl; [reflexivity|].
  destruct (Hf x) as (-> & -> & ->). now rewrite IH.
Qed.

Lemma unique_assignments_map (f : UserRole.t -> UserRole.t) rows :
  (forall x, UserRole.user_id (f x) = UserRole.user_id x
             /\ UserRole.role_id (f x) = UserRole.role_id x
             /\ UserRole.department_id (f x) = UserRole.department_id x) ->
  unique_assignments (map f rows) = unique_assignments rows.
Proof.
  intros Hf. induction rows as [|x rows IH]; simpl; [reflexivity|].
  rewrite (unique_violation_map f rows _ _ _ Hf), IH.
  now destruct (Hf x) as (-> & -> & ->).
Qed.

Lemma unset_primary_key u x :
  let y := if UserRole.user_id x =? u
           then UserRole.mk (UserRole.user_id x) (UserRole.role_id x)
                  (UserRole.department_id x) (UserRole.is_active x)
                  (UserRole.assigned_by x) (UserRole.assigned_at x) false
           else x in
  UserRole.user_id y = UserRole.user_id x
  /\ UserRole.role_id y = UserRole.role_id x
  /\ UserRole.department_id y = UserRole.department_id x.
Proof. simpl. now destruct (UserRole.user_id x =? u). Qed.

Lemma refresh_key now u r d assigned_by p x :
  let y := if same_assignment u r d x
           then UserRole.mk (UserRole.user_id x) (UserRole.role_id x)
                  (UserRole.department_id x) true assigned_by now p
           else x in
  UserRole.user_id y = UserRole.user_id x
  /\ UserRole.role_id y = UserRole.role_id x
  /\ UserRole.department_id y = UserRole.department_id x.
Proof. simpl. now destruct (same_assignment u r d x). Qed.

Lemma sql_eqb_sym a b : sql_eqb a b = sql_eqb b a.
Proof. destruct a, b; simpl; auto. apply Z.eqb_sym. Qed.

Lemma unique_violation_app rows x u r d :
  unique_violation (rows ++ [x]) u r d
  = unique_violation rows u r d
    || ((UserRole.user_id x =? u) && (UserRole.role_id x =? r)
        && sql_eqb (UserRole.department_id x) d).
Proof.
  unfold unique_violation. rewrite existsb_app. simpl. now rewrite orb_false_r.
Qed.

Lemma unique_assignments_app rows x :
  unique_assignments rows = true ->
  unique_violation rows (UserRole.user_id x) (UserRole.role_id x)
    (UserRole.department_id x) = false ->
  unique_assignments (rows ++ [x]) = true.
Proof.
  induction rows as [|y rows IH]; intros Hok Hfresh; simpl; [reflexivity|].
  simpl in Hok. apply andb_true_iff in Hok as [Hy Hok].
  unfold unique_violation in Hfresh. simpl in Hfresh.
  apply orb_false_iff in Hfresh as [Hyx Hfresh].
  rewrite unique_violation_app. apply negb_true_iff in Hy. rewrite Hy. simpl.
  rewrite (Z.eqb_sym (UserRole.user_id x)), (Z.eqb_sym (UserRole.role_id x)),
    sql_eqb_sym, Hyx. simpl.
  now apply IH.
Qed.

Lemma primary_count_unset u rows : primary_count (unset_primary u rows) u = 0%nat.
Proof.
  unfold primary_count, unset_primary.
  induction rows as [|x rows IH]; simpl; [reflexivity|].
  destruct (UserRole.user_id x =? u) eqn:E; simpl.
  - rewrite E. simpl. exact IH.
  - rewrite E. simpl. exact IH.
Qed.

Lemma primary_count_app rows x u :
  primary_count (rows ++ [x]) u
  = Nat.add (primary_count rows u)
      (if (UserRole.user_id x =? u) && UserRole.is_primary x then 1%nat else 0%nat).
Proof.
  unfold primary_count. rewrite List.filter_app, List.length_app. simpl.
  now destruct ((UserRole.user_id x =? u) && UserRole.is_primary x).
Qed.

Lemma primary_count_refresh now u r d assigned_by rows :
  primary_count rows u = 0%nat ->
  primary_count (refresh_assignment now u r d assigned_by true rows) u
  = length (List.filter (same_assignment u r d) rows).
Proof.
  unfold primary_count, refresh_assignment.
  induction rows as [|x rows IH]; intros Hzero; simpl; [reflexivity|].
  simpl in Hzero.
  destruct (same_assignment u r d x) eqn:Hsame; simpl.
  - assert (Hu : (UserRole.user_id x =? u) = true).
    { unfold same_assignment in Hsame.
      apply andb_true_iff in Hsame as [Hsame _].
      now apply andb_true_iff in Hsame as [Hsame _]. }
    rewrite Hu in *. simpl in *.
    destruct (UserRole.is_primary x); simpl in Hzero; [discriminate|].
    now rewrite IH.
  - destruct ((UserRole.user_id x =? u) && UserRole.is_primary x); simpl in *;
      [discriminate|]. now apply IH.
Qed.

Lemma stored_once rows u r d :
  unique_assignments rows = true ->
  unique_violation rows u r d = true ->
  length (List.filter (same_assignment u r d) rows) = 1%nat.
Proof.
  induction rows as [|x rows IH]; intros Hok Hdup; [discriminate|].
  simpl in Hok. apply andb_true_iff in Hok as [Hx Hok].
  apply negb_true_iff in Hx.
  unfold unique_violation in Hdup. simpl in Hdup. simpl.
  destruct ((UserRole.user_id x =? u) && (UserRole.role_id x =? r)
            && sql_eqb (UserRole.department_id x) d) eqn:Hkey.
  - apply andb_true_iff in Hkey as [Hkey Hd].
    apply andb_true_iff in Hkey as [Hu Hr].
    apply Z.eqb_eq in Hu, Hr.
    assert (Hsame : same_assignment u r d x = true).
    { unfold same_assignment. rewrite Hu, Hr, !Z.eqb_refl. simpl.
      unfold sql_eqb in Hd. unfold opt_Z_eqb.
      destruct (UserRole.department_id x), d; auto. }
    rewrite Hsame. simpl. f_equal.
    assert (Hd' : UserRole.department_id x = d).
    { unfold sql_eqb in Hd. destruct (UserRole.department_id x), d; try discriminate.
      apply Z.eqb_eq in Hd. congruence. }
    rewrite Hu, Hr, Hd' in Hx.
    apply length_zero_iff_nil.
    destruct (List.filter (same_assignment u r d) rows) as [|y ys] eqn:Hf; [reflexivity|].
    exfalso. assert (Hy : In y (List.filter (same_assignment u r d) rows))
      by (rewrite Hf; now left).
    apply filter_In in Hy as [Hy Hsy].
    assert (Hv : unique_violation rows u r d = true).
    { unfold unique_violation. apply existsb_exists. exists y. split; [exact Hy|].
      unfold same_assignment in Hsy.
      apply andb_true_iff in Hsy as [Hsy Hdy]. rewrite Hsy. simpl.
      unfold sql_eqb in Hd. unfold opt_Z_eqb in Hdy. unfold sql_eqb.
      destruct (UserRole.department_id y), d; auto.
      destruct (UserRole.department_id x); discriminate. }
    congruence.
  - simpl in Hdup.
    assert (Hsame : same_assignment u r d x = false).
    { unfold same_assignment.
      destruct ((UserRole.user_id x =? u) && (UserRole.role_id x =? r)) eqn:E;
        [|reflexivity].
      simpl in *. unfold sql_eqb in Hkey. unfold opt_Z_eqb.
      destruct (UserRole.department_id x), d; auto.
      (* both NULL: the key cannot be stored with a NULL department *)
      exfalso. clear - Hdup. unfold sql_eqb in Hdup.
      induction rows as [|y rows IH]; simpl in Hdup; [discriminate|].
      destruct (UserRole.department_id y); rewrite andb_false_r in Hdup;
        simpl in Hdup; now apply IH. }
    rewrite Hsame. now apply IH.
Qed.

(** [assign_role] keeps the UNIQUE(user_id, role_id, department_id)
    constraint of [user_roles], and after a call with [is_primary] the user
    has exactly one assignment flagged primary. *)
Theorem assign_role_keeps_assignments_unique now db u role_name dept assigned_by
  (is_primary : bool) db' :
  unique_assignments (user_roles db) = true ->
  assign_role now db u role_name dept assigned_by is_primary = (db', true) ->
  unique_assignments (user_roles db') = true
  /\ (is_primary = true -> primary_count (user_roles db') u = 1%nat).
Proof.
  intros Hok Hrun.
  pose proof (assign_role_shape now db u role_name dept assigned_by is_primary) as Hs.
  destruct (find _ (roles db)) as [row|]; [|rewrite Hs in Hrun; discriminate].
  cbv zeta in Hs. rewrite Hs in Hrun. injection Hrun as <-. simpl.
  set (rows1 := if is_primary then unset_primary u (user_roles db) else user_roles db)
    in *.
  assert (Hok1 : unique_assignments rows1 = true).
  { subst rows1. destruct is_primary; [|exact Hok].
    unfold unset_primary. rewrite unique_assignments_map; [exact Hok|].
    intros x. apply unset_primary_key. }
  destruct (unique_violation rows1 u (Role.id row) dept) eqn:Hdup.
  - split.
    + unfold refresh_assignment. rewrite unique_assignments_map; [exact Hok1|].
      intros x. apply refresh_key.
    + intros ->. rewrite primary_count_refresh.
      * now apply stored_once.
      * subst rows1. apply primary_count_unset.
  - split.
    + now apply unique_assignments_app.
    + intros ->. rewrite primary_count_app. subst rows1.
      rewrite primary_count_unset. simpl. now rewrite Z.eqb_refl.
Qed.

Lemma assign_role_keeps_assignments_unique_witness :
  unique_assignments (user_roles org_db) = true
  /\ exists db',
      assign_role 9 org_db 13 "manager" (Some 2) (Some 10) true = (db', true)
      /\ unique_assignments (user_roles db') = true
      /\ primary_count (user_roles db') 13 = 1%nat.
Proof.
  split; [reflexivity|]. eexists. split; [reflexivity|].
  destruct (assign_role_keeps_assignments_unique 9 org_db 13 "manager" (Some 2)
              (Some 10) true _ eq_refl eq_refl) as [H1 H2].
  split; [exact H1|]. now apply H2.
Defined.

(** The primary flag written by [assign_role] is never read: two tables that
    differ only in that flag give every user the same roles, hence the same
    highest role, permissions and department access. *)
Theorem primary_flag_is_never_read db rows' :
  map forget_primary rows' = map forget_primary (user_roles db) ->
  forall fuel v d report_id permission,
    let db' := with_user_roles db rows' in
    get_user_roles db' v = get_user_roles db v
    /\ get_user_primary_role db' v = get_user_primary_role db v
    /\ has_permission db' v permission = has_permission db v permission
    /\ can_access_department fuel db' v d = can_access_department fuel db v d
    /\ get_accessible_departments fuel db' v = get_accessible_departments fuel db v
    /\ can_approve_report fuel db' v report_id = can_approve_report fuel db v report_id.
Proof.
  intros Hrows fuel v d report_id permission db'.
  assert (Hroles : forall w, get_user_roles db' w = get_user_roles db w).
  { intros w. unfold get_user_roles, db'. simpl.
    set (f := fun ur : UserRole.t => _).
    assert (Hf : forall l, flat_map f l = flat_map f (map forget_primary l)).
    { induction l as [|x l IH]; simpl; [reflexivity|]. now rewrite IH. }
    rewrite (Hf rows'), (Hf (user_roles db)). now rewrite Hrows. }
  assert (Hprimary : forall w, get_user_primary_role db' w = get_user_primary_role db w).
  { intros w. unfold get_user_primary_role. now rewrite Hroles. }
  assert (Hperm : forall w p, has_permission db' w p = has_permission db w p).
  { intros w p. unfold has_permission. now rewrite Hroles. }
  assert (Haccess : forall w x, can_access_department fuel db' w x
                                = can_access_department fuel db w x).
  { intros w x. unfold can_access_department. now rewrite Hprimary. }
  repeat split; auto.
  - unfold get_accessible_departments. now rewrite Hprimary.
  - unfold can_approve_report. rewrite Hperm.
    change (active_user db' v) with (active_user db v).
    change (get_report db' report_id) with (get_report db report_id).
    destruct (negb (active_user db v)); [reflexivity|].
    destruct (negb (has_permission db v "can_approve")); [reflexivity|].
    destruct (get_report db report_id) as [report|]; [|reflexivity].
    now rewrite Haccess.
Qed.

Lemma primary_flag_is_never_read_witness :
  map forget_primary (unset_primary 13 (user_roles org_db))
  = map forget_primary (user_roles org_db)
  /\ get_user_primary_role
       (with_user_roles org_db (unset_primary 13 (user_roles org_db))) 13
     = get_user_primary_role org_db 13.
Proof.
  split; [reflexivity|].
  exact (proj1 (proj2 (primary_flag_is_never_read org_db
                         (unset_primary 13 (user_roles org_db)) eq_refl
                         0%nat 13 None 0 "can_approve"))).
Defined.

(** ** The hidden admin commands *)

Lemma primary_role_ext db db' v :
  get_user_roles db' v = get_user_roles db v ->
  get_user_primary_role db' v = get_user_primary_role db v.
Proof. intros H. unfold get_user_primary_role. now rewrite H. Qed.

Lemma is_admin_ext db db' v :
  get_user db' v = get_user db v ->
  get_user_roles db' v = get_user_roles db v ->
  is_admin db' v = is_admin db v.
Proof.
  intros Hu Hr. unfold is_admin, active_user.
  now rewrite Hu, (primary_role_ext _ _ _ Hr).
Qed.

Lemma get_user_roles_map db (f : UserRole.t -> UserRole.t) v :
  (forall ur, UserRole.user_id ur = v -> f ur = ur) ->
  (forall ur, UserRole.user_id (f ur) = UserRole.user_id ur) ->
  get_user_roles (with_user_roles db (map f (user_roles db))) v = get_user_roles db v.
Proof.
  intros Hsame Hkey. unfold get_user_roles. simpl.
  induction (user_roles db) as [|ur rows IH]; simpl; [reflexivity|].
  rewrite IH. f_equal. rewrite Hkey.
  destruct (UserRole.user_id ur =? v) eqn:E; [|reflexivity].
  apply Z.eqb_eq in E. now rewrite (Hsame ur E).
Qed.

Lemma get_user_roles_all_inactive db (f : UserRole.t -> UserRole.t) v :
  (forall ur, (UserRole.user_id (f ur) =? v) && UserRole.is_active (f ur) = false) ->
  get_user_roles (with_user_roles db (map f (user_roles db))) v = [].
Proof.
  intros Hoff. unfold get_user_roles. simpl.
  induction (user_roles db) as [|ur rows IH]; simpl; [reflexivity|].
  now rewrite IH, Hoff.
Qed.

Lemma no_roles_no_rights db v :
  get_user_roles db v = [] ->
  (forall p, has_permission db v p = false)
  /\ can_create_report db v = false
  /\ can_create_cumulative_report db v = false
  /\ can_manage_users db v = false
  /\ can_manage_departments db v = false
  /\ is_admin db v = false /\ is_upper_manager db v = false /\ is_manager db v = false
  /\ (forall fuel d, can_access_department fuel db v d = Some false)
  /\ (forall fuel, get_accessible_departments fuel db v = Some [])
  /\ (forall fuel r, can_approve_report fuel db v r = Some false).
Proof.
  intros Hnone.
  assert (Hperm : forall p, has_permission db v p = false)
    by (intros p; unfold has_permission; now rewrite Hnone).
  assert (Hprimary : get_user_primary_role db v = None)
    by (unfold get_user_primary_role; now rewrite Hnone).
  unfold can_create_report, can_create_cumulative_report, can_manage_users,
    can_manage_departments, is_admin, is_upper_manager, is_manager,
    can_access_department, get_accessible_departments, can_approve_report.
  rewrite Hprimary, !Hperm.
  repeat split; auto; intros; now destruct (negb (active_user db v)).
Qed.

Lemma deactivate_assignments_key keep ur :
  let y := if keep ur : bool then ur
           else UserRole.mk (UserRole.user_id ur) (UserRole.role_id ur)
                  (UserRole.department_id ur) false (UserRole.assigned_by ur)
                  (UserRole.assigned_at ur) (UserRole.is_primary ur) in
  UserRole.user_id y = UserRole.user_id ur.
Proof. simpl. now destruct (keep ur). Qed.

(* A command that answered something else than success left the store as
   it was. *)
Ltac untouched :=
  split; [intros _; reflexivity
         |split; [intros [=] | first [reflexivity | assumption]]].

Lemma get_user_deactivate_same db t :
  get_user (fst (deactivate_user db t)) t
  = match get_user db t with
    | Some u => Some (User.mk (User.user_id u) false)
    | None => None
    end.
Proof.
  unfold get_user, deactivate_user. simpl.
  induction (users db) as [|x us IH]; simpl; [reflexivity|].
  destruct (User.user_id x =? t) eqn:E; simpl; rewrite E; [reflexivity|exact IH].
Qed.

(** The store [remove_user_command] commits for target [t]. *)
Lemma removed_user_state db t :
  let db1 := with_user_roles (fst (deactivate_user db t))
               (deactivate_assignments
                  (fun ur => negb (UserRole.user_id ur =? t)) (user_roles db)) in
  active_user db1 t = false
  /\ get_user_roles db1 t = []
  /\ (forall v, v <> t -> get_user db1 v = get_user db v
                          /\ get_user_roles db1 v = get_user_roles db v)
  /\ (get_user db t <> None ->
      exists u, get_user db1 t = Some u /\ User.is_active u = false).
Proof.
  intros db1.
  set (off := deactivate_assignments
                (fun ur => negb (UserRole.user_id ur =? t)) (user_roles db)).
  split; [exact (deactivate_user_inactive db t)|].
  split.
  { transitivity (get_user_roles (with_user_roles db off) t); [reflexivity|].
    subst off. unfold deactivate_assignments. apply get_user_roles_all_inactive.
    intros ur. destruct (UserRole.user_id ur =? t) eqn:E; simpl.
    - now rewrite andb_false_r.
    - now rewrite E. }
  split.
  { intros v Hv. split.
    - exact (get_user_deactivate_other db t v Hv).
    - transitivity (get_user_roles (with_user_roles db off) v); [reflexivity|].
      subst off. unfold deactivate_assignments. apply get_user_roles_map.
      + intros ur Hur. destruct (UserRole.user_id ur =? t) eqn:E; [|reflexivity].
        apply Z.eqb_eq in E. congruence.
      + intros ur. now destruct (negb (UserRole.user_id ur =? t)). }
  intros Hex.
  change (get_user db1 t) with (get_user (fst (deactivate_user db t)) t).
  rewrite get_user_deactivate_same.
  destruct (get_user db t) as [u|]; [|congruence].
  eexists. split; reflexivity.
Qed.

Lemma remove_user_command_done db admin t db1 :
  remove_user_command db admin (Some t) = (db1, AdminDone) ->
  is_admin db admin = true /\ t <> admin /\ get_user db t <> None
  /\ holds_admin_role db t = false
  /\ db1 = with_user_roles (fst (deactivate_user db t))
             (deactivate_assignments
                (fun ur => negb (UserRole.user_id ur =? t)) (user_roles db)).
Proof.
  unfold remove_user_command.
  destruct (is_admin db admin) eqn:Hadm; simpl; [|intros [=]].
  destruct (t =? admin) eqn:Hself; simpl; [intros [=]|].
  apply Z.eqb_neq in Hself.
  destruct (get_user db t) as [target|] eqn:Htarget; simpl; [|intros [=]].
  destruct (holds_admin_role db t) eqn:Hholds; simpl; [intros [=]|].
  intros [= <-]. repeat split; auto; congruence.
Qed.

(** What [remove_user_command] does: unless it answers that the user was
    removed the store is untouched; when it does, the requester is an admin,
    the user removed is someone else who holds no admin role, that account is
    inactive and has no role left, and nobody else's account or roles
    changed.  The requester is as much an admin afterwards as before. *)
Theorem remove_user_command_effect db admin arg :
  let db' := fst (remove_user_command db admin arg) in
  let reply := snd (remove_user_command db admin arg) in
  (reply <> AdminDone -> db' = db)
  /\ (reply = AdminDone ->
      is_admin db admin = true
      /\ exists t, arg = Some t /\ t <> admin /\ holds_admin_role db t = false
           /\ active_user db' t = false
           /\ get_user_roles db' t = []
           /\ forall v, v <> t -> get_user db' v = get_user db v
                                  /\ get_user_roles db' v = get_user_roles db v)
  /\ is_admin db' admin = is_admin db admin.
Proof.
  unfold remove_user_command.
  destruct (is_admin db admin) eqn:Hadm; simpl; [|untouched].
  destruct arg as [t|]; simpl; [|untouched].
  destruct (t =? admin) eqn:Hself; simpl; [untouched|].
  apply Z.eqb_neq in Hself.
  destruct (get_user db t) as [target|] eqn:Htarget; simpl; [|untouched].
  destruct (holds_admin_role db t) eqn:Hholds; simpl; [untouched|].
  destruct (removed_user_state db t) as (Hoff & Hnone & Hothers & _).
  split; [intros Hno; exfalso; apply Hno; reflexivity|].
  split.
  - intros _. split; [reflexivity|]. exists t. repeat split; auto.
    + now apply Hothers.
    + now apply Hothers.
  - destruct (Hothers admin (not_eq_sym Hself)) as [Hu Hr].
    transitivity (is_admin db admin); [exact (is_admin_ext _ _ _ Hu Hr)|exact Hadm].
Qed.

Lemma set_user_active_active db t :
  get_user db t <> None -> active_user (set_user_active db t) t = true.
Proof.
  unfold active_user, get_user, set_user_active. simpl.
  induction (users db) as [|x us IH]; simpl; [congruence|].
  destruct (User.user_id x =? t) eqn:E; simpl; rewrite E; [reflexivity|exact IH].
Qed.

(** [/removeuser] followed by [/activateuser] does not bring the roles back:
    the account is active again but has no role, so every capability check
    denies and no department is accessible until a role is assigned anew. *)
Theorem reactivated_user_has_no_roles db admin t db1 :
  remove_user_command db admin (Some t) = (db1, AdminDone) ->
  exists db2,
    activate_user_command db1 admin (Some t) = (db2, AdminDone)
    /\ active_user db2 t = true
    /\ get_user_roles db2 t = []
    /\ (forall p, has_permission db2 t p = false)
    /\ can_create_report db2 t = false
    /\ can_create_cumulative_report db2 t = false
    /\ is_manager db2 t = false
    /\ (forall fuel, get_accessible_departments fuel db2 t = Some [])
    /\ (forall fuel r, can_approve_report fuel db2 t r = Some false).
Proof.
  intros Hrun.
  destruct (remove_user_command_done _ _ _ _ Hrun) as (Hadm & Hself & Hex & _ & ->).
  destruct (removed_user_state db t) as (_ & Hnone & Hothers & Hrow).
  destruct (Hrow Hex) as (u & Hu & Hinactive).
  destruct (Hothers admin (not_eq_sym Hself)) as [Hau Har].
  set (db1 := with_user_roles _ _) in *.
  exists (set_user_active db1 t).
  assert (Hroles : get_user_roles (set_user_active db1 t) t = []) by exact Hnone.
  destruct (no_roles_no_rights _ _ Hroles)
    as (Hp & Hc & Hcc & _ & _ & _ & _ & Hm & _ & Hacc & Happ).
  split.
  - unfold activate_user_command.
    rewrite (is_admin_ext _ _ _ Hau Har), Hadm. simpl.
    now rewrite Hu, Hinactive.
  - split; [apply set_user_active_active; congruence|].
    repeat split; auto.
Qed.

Lemma reactivated_user_has_no_roles_witness :
  exists db1 db2,
    remove_user_command org_db 10 (Some 13) = (db1, AdminDone)
    /\ activate_user_command db1 10 (Some 13) = (db2, AdminDone)
    /\ active_user db2 13 = true
    /\ get_user_roles db2 13 = [].
Proof.
  eexists.
  destruct (reactivated_user_has_no_roles org_db 10 13 _ eq_refl)
    as (db2 & Hrun & Hactive & Hroles & _).
  exists db2. repeat split; assumption.
Defined.

Lemma distinct_roles_spec rs r r' :
  distinct_roles rs = true -> In r rs -> In r' rs ->
  Role.id r = Role.id r' \/ Role.name r = Role.name r' -> r = r'.
Proof.
  induction rs as [|x rs IH]; intros Hok Hr Hr' Hkey; [destruct Hr|].
  simpl in Hok. apply andb_true_iff in Hok as [Hx Hok].
  rewrite forallb_forall in Hx.
  assert (Hclash : forall y, In y rs ->
            Role.id x = Role.id y \/ Role.name x = Role.name y -> False).
  { intros y Hy Hxy. specialize (Hx y Hy). apply andb_true_iff in Hx as [Hid Hname].
    apply negb_true_iff in Hid, Hname. apply Z.eqb_neq in Hid.
    apply String.eqb_neq in Hname. destruct Hxy; congruence. }
  destruct Hr as [<-|Hr], Hr' as [<-|Hr']; auto.
  - exfalso. exact (Hclash r' Hr' Hkey).
  - exfalso. apply (Hclash r Hr). destruct Hkey; [left|right]; congruence.
Qed.

(** What [remove_admin_command] does, on a role catalogue with distinct ids
    and names: unless it answers that the role was removed the store is
    untouched; when it does, the target is someone else than the requester,
    held the admin role and no longer holds it, keeps exactly the other
    roles, and no account and no other user's roles changed.  The requester
    is as much an admin afterwards as before. *)
Theorem remove_admin_command_effect db admin arg :
  distinct_roles (roles db) = true ->
  let db' := fst (remove_admin_command db admin arg) in
  let reply := snd (remove_admin_command db admin arg) in
  (reply <> AdminDone -> db' = db)
  /\ (reply = AdminDone ->
      is_admin db admin = true
      /\ users db' = users db
      /\ exists t, arg = Some t /\ t <> admin
           /\ holds_admin_role db t = true
           /\ holds_admin_role db' t = false
           /\ (forall r, In r (get_user_roles db' t) <->
                         In r (get_user_roles db t) /\ RoleInfo.role_name r <> "admin")
           /\ forall v, v <> t -> get_user_roles db' v = get_user_roles db v)
  /\ is_admin db' admin = is_admin db admin.
Proof.
  intros Hdistinct. unfold remove_admin_command.
  destruct (is_admin db admin) eqn:Hadm; simpl; [|untouched].
  destruct arg as [t|]; simpl; [|untouched].
  destruct (t =? admin) eqn:Hself; simpl; [untouched|].
  apply Z.eqb_neq in Hself.
  destruct (get_user db t) as [target|] eqn:Htarget; simpl; [|untouched].
  destruct (holds_admin_role db t) eqn:Hholds; simpl; [|untouched].
  set (keep := fun ur : UserRole.t =>
                 negb ((UserRole.user_id ur =? t)
                       && sql_eqb (Some (UserRole.role_id ur)) (admin_role_id db))).
  set (db' := with_user_roles db (deactivate_assignments keep (user_roles db))).
  assert (Hothers : forall v, v <> t -> get_user_roles db' v = get_user_roles db v).
  { intros v Hv. subst db'. unfold deactivate_assignments. apply get_user_roles_map.
    - intros ur Hur. subst keep. cbv beta.
      destruct (UserRole.user_id ur =? t) eqn:E; [|reflexivity].
      apply Z.eqb_eq in E. congruence.
    - intros ur. now destruct (keep ur). }
  (* the admin role is the one row of that name *)
  assert (Hadmin_role : forall role, In role (roles db) ->
            (Role.name role = "admin" <-> admin_role_id db = Some (Role.id role))).
  { intros role Hrole. unfold admin_role_id.
    destruct (find _ (roles db)) as [r0|] eqn:Hfind.
    - apply find_some in Hfind as [Hr0 Hname]. apply String.eqb_eq in Hname.
      split.
      + intros Hn. f_equal. f_equal.
        apply (distinct_roles_spec _ _ _ Hdistinct Hr0 Hrole). right. congruence.
      + intros [= Hid].
        rewrite <- (distinct_roles_spec _ _ _ Hdistinct Hr0 Hrole (or_introl Hid)).
        exact Hname.
    - split; [|discriminate]. intros Hn. exfalso.
      pose proof (find_none _ _ Hfind role Hrole) as Hno. simpl in Hno.
      apply String.eqb_neq in Hno. congruence. }
  assert (Hleft : forall r, In r (get_user_roles db' t) <->
                    In r (get_user_roles db t) /\ RoleInfo.role_name r <> "admin").
  { intros r. rewrite !in_get_user_roles. split.
    - intros (ur' & role & Hur' & Hu & Ha & Hrole & Hid & ->).
      subst db'. simpl in Hur'. unfold deactivate_assignments in Hur'.
      apply in_map_iff in Hur' as (ur & <- & Hur).
      destruct (keep ur) eqn:Hkeep; [|discriminate].
      split; [exists ur, role; repeat split; auto|].
      simpl. intros Hname. apply (Hadmin_role role Hrole) in Hname.
      subst keep. cbv beta in Hkeep. apply Z.eqb_eq in Hu.
      rewrite Hu, Hname, <- Hid in Hkeep. simpl in Hkeep.
      now rewrite Z.eqb_refl in Hkeep.
    - intros [(ur & role & Hur & Hu & Ha & Hrole & Hid & ->) Hname].
      simpl in Hname.
      exists ur, role. repeat split; auto.
      subst db'. simpl. unfold deactivate_assignments. apply in_map_iff.
      exists ur. split; [|exact Hur].
      destruct (keep ur) eqn:Hkeep; [reflexivity|]. exfalso.
      subst keep. cbv beta in Hkeep. apply negb_false_iff in Hkeep.
      apply andb_true_iff in Hkeep as [_ Hkeep].
      destruct (admin_role_id db) as [a|] eqn:Ha'; [|discriminate].
      simpl in Hkeep. apply Z.eqb_eq in Hkeep.
      apply Hname, (Hadmin_role role Hrole). congruence. }
  split; [intros Hno; exfalso; apply Hno; reflexivity|].
  split.
  - intros _. split; [reflexivity|]. split; [reflexivity|].
    exists t. repeat split; auto; try (now apply Hleft).
    change (holds_admin_role db' t = false). unfold holds_admin_role.
    destruct (existsb (fun r => String.eqb (RoleInfo.role_name r) "admin")
                (get_user_roles db' t)) eqn:E; [|reflexivity].
    apply existsb_exists in E as (r & Hr & Hname). apply String.eqb_eq in Hname.
    apply Hleft in Hr. tauto.
  - transitivity (is_admin db admin); [|exact Hadm].
    apply is_admin_ext; [reflexivity|]. now apply Hothers.
Qed.

Lemma remove_admin_command_effect_witness :
  distinct_roles (roles org_db_two_admins) = true
  /\ snd (remove_admin_command org_db_two_admins 10 (Some 11)) = AdminDone
  /\ is_admin (fst (remove_admin_command org_db_two_admins 10 (Some 11))) 10
     = is_admin org_db_two_admins 10.
Proof.
  split; [reflexivity|]. split; [reflexivity|].
  exact (proj2 (proj2 (remove_admin_command_effect org_db_two_admins 10 (Some 11)
                         eq_refl))).
Defined.

(** A successful [assign_role] makes the assignment visible: the user's
    roles now contain the role with the department given, and only
    [user_roles] changed. *)
Lemma assign_role_grants now db u role_name dept assigned_by (is_primary : bool) row :
  find (fun r => String.eqb (Role.name r) role_name) (roles db) = Some row ->
  exists db',
    assign_role now db u role_name dept assigned_by is_primary = (db', true)
    /\ users db' = users db /\ departments db' = departments db
    /\ roles db' = roles db /\ reports db' = reports db
    /\ In (RoleInfo.mk (Role.id row) role_name (Role.name_ar row) (Role.level row)
             (decode_permissions (Role.permissions row)) dept)
          (get_user_roles db' u).
Proof.
  intros Hfind.
  pose proof (assign_role_shape now db u role_name dept assigned_by is_primary) as Hs.
  rewrite Hfind in Hs. cbv zeta in Hs.
  eexists. split; [exact Hs|]. repeat split.
  apply find_some in Hfind as [Hrow Hname]. apply String.eqb_eq in Hname.
  set (rows1 := if is_primary then unset_primary u (user_roles db) else user_roles db).
  apply in_get_user_roles. simpl.
  destruct (unique_violation rows1 u (Role.id row) dept) eqn:Hdup.
  - unfold unique_violation in Hdup. apply existsb_exists in Hdup as (x & Hx & Hkey).
    apply andb_true_iff in Hkey as [Hkey Hd].
    assert (Hd' : UserRole.department_id x = dept).
    { unfold sql_eqb in Hd. destruct (UserRole.department_id x), dept; try discriminate.
      apply Z.eqb_eq in Hd. congruence. }
    assert (Hsame : same_assignment u (Role.id row) dept x = true).
    { unfold same_assignment. rewrite Hkey. simpl. rewrite Hd'.
      unfold sql_eqb in Hd. rewrite Hd' in Hd. unfold opt_Z_eqb.
      now destruct dept. }
    apply andb_true_iff in Hkey as [Hu Hr]. apply Z.eqb_eq in Hu, Hr.
    exists (UserRole.mk (UserRole.user_id x) (UserRole.role_id x)
              (UserRole.department_id x) true assigned_by now is_primary), row.
    repeat split; auto.
    + unfold refresh_assignment. apply in_map_iff. exists x.
      now rewrite Hsame.
    + simpl. now rewrite Hname, Hd'.
  - exists (new_assignment now u (Role.id row) dept assigned_by is_primary), row.
    repeat split; auto.
    + apply in_app_iff. right. now left.
    + simpl. now rewrite Hname.
Qed.

(** [/promote] with a department id that names no department still commits
    the assignment, and only then fails: [dept['name']] on the missing
    department raises [TypeError], after the user has become a manager of a
    department that does not exist. *)
Theorem promote_to_missing_department_commits_then_raises
  now db admin t role_name d row :
  is_admin db admin = true ->
  get_user db t <> None ->
  role_name = "manager" \/ role_name = "upper_manager" ->
  find (fun r => String.eqb (Role.name r) role_name) (roles db) = Some row ->
  d <> 0 ->
  get_department db d = None ->
  exists db',
    promote_manager_command now db admin (PromoteParsed t role_name (Some d))
    = inr (db', AdminRaised TypeError)
    /\ departments db' = departments db
    /\ In (RoleInfo.mk (Role.id row) role_name (Role.name_ar row) (Role.level row)
             (decode_permissions (Role.permissions row)) (Some d))
          (get_user_roles db' t).
Proof.
  intros Hadm Hex Hname Hfind Hd Hmissing.
  destruct (assign_role_grants now db t role_name (Some d) (Some admin) true row Hfind)
    as (db' & Hrun & _ & Hdepts & _ & _ & Hin).
  exists db'. split; [|split; assumption].
  assert (Hrole : existsb (String.eqb role_name) ["manager"; "upper_manager"] = true).
  { destruct Hname as [-> | ->]; reflexivity. }
  assert (Htruthy : truthy (Some d) = true).
  { unfold truthy. apply negb_true_iff. now apply Z.eqb_neq. }
  unfold promote_manager_command. rewrite Hadm, Hrole. cbn [negb].
  destruct (get_user db t) as [target|]; [|congruence].
  rewrite Htruthy. cbn [negb]. rewrite Htruthy. cbn [negb]. rewrite Hrun.
  unfold get_department in *. rewrite Hdepts. now rewrite Hmissing.
Qed.

Lemma promote_to_missing_department_commits_then_raises_witness :
  exists db',
    promote_manager_command 5 org_db 10 (PromoteParsed 13 "manager" (Some 7))
    = inr (db', AdminRaised TypeError)
    /\ get_department db' 7 = None
    /\ get_user_department db' 13 = Some 7.
Proof.
  destruct (promote_to_missing_department_commits_then_raises 5 org_db 10 13
              "manager" 7 (Role.mk 2 "manager" "مدير" JInvalid 50
                (JObject {[ "can_create_report" := true; "can_view_own" := true;
                            "can_view_department" := true; "can_approve" := true;
                            "can_create_cumulative" := false ]})))
    as (db' & Hrun & Hdepts & Hin);
    [reflexivity|discriminate|now left|reflexivity|lia|reflexivity|].
  exists db'. split; [exact Hrun|].
  vm_compute in Hrun. injection Hrun as <-. split; reflexivity.
Defined.

(** Removal is undone by the removed user: after [/removeuser], the user's
    own [/register] stores the account as active again, and choosing a
    department assigns the employee role, without any admin taking part. *)
Theorem removed_user_can_register_again now db admin t db1 d dept row :
  remove_user_command db admin (Some t) = (db1, AdminDone) ->
  get_department db d = Some dept ->
  find (fun r => String.eqb (Role.name r) "employee") (roles db) = Some row ->
  exists db3,
    register_department_callback now (fst (register_command db1 t)) t d
    = (db3, Registered)
    /\ active_user db3 t = true
    /\ In (RoleInfo.mk (Role.id row) "employee" (Role.name_ar row) (Role.level row)
             (decode_permissions (Role.permissions row)) (Some d))
          (get_user_roles db3 t)
    /\ can_create_report db3 t
       = has_permission db3 t "can_create_report".
Proof.
  intros Hrun Hdept Hfind.
  destruct (remove_user_command_done _ _ _ _ Hrun) as (_ & _ & _ & _ & ->).
  destruct (removed_user_state db t) as (_ & Hnone & _ & _).
  set (db1 := with_user_roles _ _) in *.
  assert (Hdb2 : fst (register_command db1 t) = add_user db1 t).
  { unfold register_command. now destruct (get_all_departments (add_user db1 t)). }
  rewrite Hdb2.
  destruct (assign_role_grants now (add_user db1 t) t "employee" (Some d) None true
              row Hfind) as (db3 & Hassign & Husers & _ & _ & _ & Hin).
  exists db3.
  assert (Hactive : active_user db3 t = true).
  { unfold active_user, get_user. rewrite Husers.
    change (find _ (users (add_user db1 t))) with (get_user (add_user db1 t) t).
    now rewrite get_user_add_user. }
  split.
  - unfold register_department_callback.
    change (get_department (add_user db1 t) d) with (get_department db d).
    rewrite Hdept.
    change (get_user_roles (add_user db1 t) t) with (get_user_roles db1 t).
    rewrite Hnone. now rewrite Hassign.
  - split; [exact Hactive|]. split; [exact Hin|].
    unfold can_create_report. now rewrite Hactive.
Qed.

Lemma removed_user_can_register_again_witness :
  exists db1 db3,
    remove_user_command org_db 10 (Some 13) = (db1, AdminDone)
    /\ register_department_callback 9 (fst (register_command db1 13)) 13 1
       = (db3, Registered)
    /\ active_user db3 13 = true
    /\ can_create_report db3 13 = true.
Proof.
  eexists.
  destruct (removed_user_can_register_again 9 org_db 10 13 _ 1
              (Department.mk 1 "A" None 0 true)
              (Role.mk 1 "employee" "موظف" JInvalid 10
                 (JObject {[ "can_create_report" := true; "can_view_own" := true;
                             "can_view_department" := false; "can_approve" := false;
                             "can_create_cumulative" := false ]}))
              eq_refl eq_refl eq_refl) as (db3 & Hrun & Hactive & _ & _).
  exists db3. split; [reflexivity|]. split; [exact Hrun|]. split; [exact Hactive|].
  vm_compute in Hrun. injection Hrun as <-. reflexivity.
Defined.

(** ** Viewing reports *)

(** On a department forest [can_view_report] answers, and it answers yes
    exactly when the requester is active, the report is retrieved, and the
    requester submitted it, or it is public, or [can_access_department]
    grants its department.  The visibility values other than ['public'] make
    no difference. *)
Theorem can_view_report_characterised db u report_id :
  acyclic (departments db) ->
  exists n b,
    (forall fuel, (n <= fuel)%nat -> can_view_report fuel db u report_id = Some b)
    /\ (b = true <->
        active_user db u = true
        /\ exists report,
            get_report db report_id = Some report
            /\ (Report.submitted_by report = u
                \/ Report.visibility report = "public"
                \/ department_access db u (Report.department_id report))).
Proof.
  intros Hforest. unfold can_view_report.
  destruct (active_user db u) eqn:Hact; simpl.
  2:{ decided false. split; [discriminate|]. intros (H & _). discriminate. }
  destruct (get_report db report_id) as [report|] eqn:Hrep.
  2:{ decided false. split; [discriminate|]. intros (_ & report & H & _). discriminate. }
  destruct (Report.submitted_by report =? u) eqn:Hown.
  { decided true. split; [|reflexivity]. intros _. split; [reflexivity|].
    exists report. split; [reflexivity|]. left. now apply Z.eqb_eq. }
  destruct (String.eqb (Report.visibility report) "public") eqn:Hpublic.
  { decided true. split; [|reflexivity]. intros _. split; [reflexivity|].
    exists report. split; [reflexivity|]. right. left. now apply String.eqb_eq. }
  destruct (can_access_department_decides db u (Report.department_id report) Hforest)
    as (n & b & Hrun & Hb).
  exists n, b. split; [exact Hrun|]. rewrite Hb. split.
  - intros Hacc. split; [reflexivity|]. exists report. auto.
  - intros (_ & report' & H & Hcase). injection H as <-.
    destruct Hcase as [Hu|[Hp|Hacc]]; [| |exact Hacc].
    + apply Z.eqb_neq in Hown. contradiction.
    + apply String.eqb_neq in Hpublic. contradiction.
Qed.

Lemma can_view_report_characterised_witness :
  acyclic (departments org_db)
  /\ exists n b,
      (forall fuel, (n <= fuel)%nat -> can_view_report fuel org_db 11 100 = Some b)
      /\ (b = true <->
          active_user org_db 11 = true
          /\ exists report,
              get_report org_db 100 = Some report
              /\ (Report.submitted_by report = 11
                  \/ Report.visibility report = "public"
                  \/ department_access org_db 11 (Report.department_id report))).
Proof.
  split; [exact org_acyclic|].
  apply (can_view_report_characterised org_db 11 100). exact org_acyclic.
Defined.

(** Whoever may approve a report may view it, whatever the step budget and
    the shape of the department table. *)
Theorem approver_can_view_report fuel db u report_id :
  can_approve_report fuel db u report_id = Some true ->
  can_view_report fuel db u report_id = Some true.
Proof.
  unfold can_approve_report, can_view_report.
  destruct (negb (active_user db u)); [discriminate|].
  destruct (negb (has_permission db u "can_approve")); [discriminate|].
  destruct (get_report db report_id) as [report|]; [|discriminate].
  destruct (Report.submitted_by report =? u); [discriminate|].
  now destruct (String.eqb (Report.visibility report) "public").
Qed.

Lemma approver_can_view_report_witness :
  can_approve_report 5 org_db 12 100 = Some true
  /\ can_view_report 5 org_db 12 100 = Some true.
Proof.
  split; [reflexivity|].
  apply (approver_can_view_report 5 org_db 12 100). reflexivity.
Defined.

(** A user without an active role assignment, such as one who has only sent
    [/start], holds no permission, passes none of the capability and role
    checks and reaches no department; such a user can view a report exactly
    when the account is active and the report is their own or public. *)
Theorem user_without_roles_is_denied db u :
  get_user_roles db u = [] ->
  (forall p, has_permission db u p = false)
  /\ can_create_report db u = false
  /\ can_create_cumulative_report db u = false
  /\ can_manage_users db u = false
  /\ can_manage_departments db u = false
  /\ is_admin db u = false /\ is_upper_manager db u = false /\ is_manager db u = false
  /\ (forall fuel d, can_access_department fuel db u d = Some false)
  /\ (forall fuel, get_accessible_departments fuel db u = Some [])
  /\ (forall fuel r, can_approve_report fuel db u r = Some false)
  /\ (forall fuel r,
        can_view_report fuel db u r
        = Some (active_user db u
                && match get_report db r with
                   | Some report =>
                       (Report.submitted_by report =? u)
                       || String.eqb (Report.visibility report) "public"
                   | None => false
                   end))
  /\ (forall d, fst (validate_report_creation db u d) = false).
Proof.
  intros Hnone.
  destruct (no_roles_no_rights db u Hnone)
    as (Hp & Hc & Hcc & Hmu & Hmd & Ha & Hum & Hm & Hacc & Hdepts & Happ).
  repeat (split; [assumption|]). split.
  - intros fuel r. unfold can_view_report.
    destruct (active_user db u); simpl; [|reflexivity].
    destruct (get_report db r) as [report|]; [|reflexivity].
    destruct (Report.submitted_by report =? u); [reflexivity|].
    destruct (String.eqb (Report.visibility report) "public"); [reflexivity|].
    apply Hacc.
  - intros d. unfold validate_report_creation. rewrite Hc.
    now destruct (negb (active_user db u)).
Qed.

Lemma user_without_roles_is_denied_witness :
  get_user_roles (start org_db 14) 14 = []
  /\ can_create_report (start org_db 14) 14 = false.
Proof.
  split; [reflexivity|].
  exact (proj1 (proj2 (user_without_roles_is_denied (start org_db 14) 14 eq_refl))).
Defined.

(** ** Writing reports *)

Lemma next_id_fresh ids x : In x ids -> x < next_id ids.
Proof.
  unfold next_id. induction ids as [|y ids IH]; simpl; [tauto|].
  intros [->|Hx]; [lia|]. specialize (IH Hx). lia.
Qed.

Lemma find_app_none {A : Type} (f : A -> bool) l1 l2 :
  find f l1 = None -> find f (l1 ++ l2) = find f l2.
Proof.
  induction l1 as [|x l1 IH]; simpl; [reflexivity|].
  destruct (f x); [discriminate|exact IH].
Qed.

(** [create_report] gives the new row an id no stored report has.  The row
    is retrieved by [get_report] exactly when its submitter and its
    department exist, neither of which [create_report] checks: otherwise the
    report is stored but cannot be read back.  Reports already stored are
    read back as before. *)
Theorem create_report_round_trip now db title content report_type u d status priority :
  let db' := fst (create_report now db title content report_type u d status priority) in
  let report_id :=
    snd (create_report now db title content report_type u d status priority) in
  let row := Report.mk report_id title content report_type status priority
               "department" u (Some d) false None None None None None
               (if String.eqb status "draft" then None else Some now) in
  ~ In report_id (map Report.id (reports db))
  /\ reports db' = reports db ++ [row]
  /\ get_report db' report_id
     = (if existsb (fun x => User.user_id x =? u) (users db)
           && existsb (fun x => Department.id x =? d) (departments db)
        then Some row else None)
  /\ (forall other, other <> report_id -> get_report db' other = get_report db other).
Proof.
  cbv zeta. unfold create_report. simpl.
  set (report_id := next_id (map Report.id (reports db))).
  assert (Hfresh : forall r, In r (reports db) -> Report.id r <> report_id).
  { intros r Hr. pose proof (next_id_fresh (map Report.id (reports db)) (Report.id r)
                               (in_map _ _ _ Hr)). subst report_id. lia. }
  split.
  { intros Hin. apply in_map_iff in Hin as (r & Hid & Hr). exact (Hfresh r Hr Hid). }
  split.
  { now destruct (String.eqb status "draft"). }
  split.
  - unfold get_report. simpl. rewrite find_app_none.
    + simpl. rewrite Z.eqb_refl. simpl.
      assert (Hd : existsb (fun x => d =? Department.id x) (departments db)
                   = existsb (fun x => Department.id x =? d) (departments db)).
      { induction (departments db) as [|x l IH]; simpl; [reflexivity|].
        now rewrite IH, Z.eqb_sym. }
      rewrite Hd.
      destruct (existsb _ (users db) && existsb _ (departments db));
        [|reflexivity].
      now destruct (String.eqb status "draft").
    + clearbody report_id. clear - Hfresh. induction (reports db) as [|r l IH]; simpl; [reflexivity|].
      destruct (Report.id r =? report_id) eqn:E.
      * apply Z.eqb_eq in E. now elim (Hfresh r (or_introl eq_refl)).
      * simpl. apply IH. intros x Hx. apply Hfresh. now right.
  - intros other Hother. unfold get_report. simpl.
    destruct (find _ (reports db)) as [r|] eqn:Hfind.
    + erewrite find_app_some; [reflexivity|exact Hfind].
    + rewrite find_app_none; [|exact Hfind]. simpl.
      destruct (report_id =? other) eqn:E; [|reflexivity].
      apply Z.eqb_eq in E. congruence.
Qed.

Lemma get_report_after_update now db report_id status :
  get_report (fst (update_report_status now db report_id status)) report_id
  = match get_report db report_id with
    | Some r => Some (set_status status
                        (if String.eqb status "submitted" then Some now
                         else Report.submitted_at r) r)
    | None => None
    end.
Proof.
  unfold get_report, update_report_status. simpl.
  induction (reports db) as [|x l IH]; [reflexivity|]. simpl.
  destruct (Report.id x =? report_id) eqn:Ex; simpl.
  - rewrite Ex. simpl.
    destruct (existsb _ (users db) && existsb _ (departments db)); [reflexivity|].
    exact IH.
  - rewrite Ex. simpl. exact IH.
Qed.

(** [update_report_status] answers whether a report of that id is stored;
    when none is, the store is left as it was.  Otherwise the report now has
    the status given, whatever it was before, and nothing else about it
    changed except its submission time when the new status is
    ['submitted']; the other reports are read back as before. *)
Theorem update_report_status_effect now db report_id status :
  let db' := fst (update_report_status now db report_id status) in
  let found := snd (update_report_status now db report_id status) in
  (found = true <-> exists r, In r (reports db) /\ Report.id r = report_id)
  /\ (found = false -> db' = db)
  /\ (found = true -> status_of db' report_id = Some status)
  /\ get_report db' report_id
     = match get_report db report_id with
       | Some r => Some (set_status status
                           (if String.eqb status "submitted" then Some now
                            else Report.submitted_at r) r)
       | None => None
       end
  /\ (forall other, other <> report_id ->
        get_report db' other = get_report db other
        /\ status_of db' other = status_of db other).
Proof.
  cbv zeta. unfold update_report_status. simpl.
  set (f := fun r : Report.t =>
              if Report.id r =? report_id
              then set_status status
                     (if String.eqb status "submitted" then Some now
                      else Report.submitted_at r) r
              else r).
  assert (Hid : forall r, Report.id (f r) = Report.id r).
  { intros r. subst f. cbv beta. now destruct (Report.id r =? report_id). }
  split.
  { rewrite existsb_exists. split; intros (r & Hr & H); exists r; split; auto.
    - now apply Z.eqb_eq.
    - now apply Z.eqb_eq. }
  split.
  { intros Hnone.
    transitivity (with_reports db (reports db)); [|apply with_reports_same]. f_equal.
    apply map_unchanged. intros r Hr. subst f. cbv beta.
    destruct (Report.id r =? report_id) eqn:E; [|reflexivity].
    assert (existsb (fun r => Report.id r =? report_id) (reports db) = true)
      by (apply existsb_exists; eauto). congruence. }
  split.
  { intros Hsome. apply existsb_exists in Hsome as (r & Hr & E).
    unfold status_of. simpl.
    induction (reports db) as [|x l IH]; [destruct Hr|]. simpl.
    rewrite Hid. destruct (Report.id x =? report_id) eqn:Ex.
    - subst f. cbv beta. now rewrite Ex.
    - destruct Hr as [->|Hr]; [congruence|]. now apply IH. }
  split; [exact (get_report_after_update now db report_id status)|].
  intros other Hother. split.
  - unfold get_report. simpl.
    induction (reports db) as [|x l IH]; [reflexivity|]. simpl.
    rewrite Hid.
    destruct (Report.id x =? other) eqn:Ex; simpl; [|exact IH].
    assert (Hx : f x = x).
    { subst f. cbv beta. destruct (Report.id x =? report_id) eqn:E; [|reflexivity].
      apply Z.eqb_eq in E, Ex. congruence. }
    rewrite Hx. now rewrite IH.
  - unfold status_of. simpl.
    induction (reports db) as [|x l IH]; [reflexivity|]. simpl.
    rewrite Hid.
    destruct (Report.id x =? other) eqn:Ex; simpl; [|exact IH].
    assert (Hx : f x = x).
    { subst f. cbv beta. destruct (Report.id x =? report_id) eqn:E; [|reflexivity].
      apply Z.eqb_eq in E, Ex. congruence. }
    now rewrite Hx.
Qed.

Lemma validate_own_department db u d :
  get_user_department db u = Some d ->
  validate_report_creation db u (Some d)
  = if negb (active_user db u) then (false, AccountInactive)
    else if negb (can_create_report db u) then (false, NoCreatePermission)
    else (true, NoMessage).
Proof.
  intros Hdept. unfold validate_report_creation. rewrite Hdept. simpl.
  rewrite Z.eqb_refl. simpl.
  destruct (negb (active_user db u)); [reflexivity|].
  destruct (negb (can_create_report db u)); [reflexivity|].
  destruct (get_user_primary_role db u) as [r|]; [|reflexivity].
  now destruct (String.eqb (RoleInfo.role_name r) "admin").
Qed.

(** [save_report] stores a report exactly when the user is active, holds the
    create capability and the highest role carries a department; the report
    goes to that department, as a draft or submitted according to the button
    pressed, under a fresh id.  In every other case the store is left as it
    was.  The department test of [validate_report_creation] can never fail
    here, because the department passed is the user's own. *)
Theorem save_report_effect now db u action title content report_type :
  let db' := fst (save_report now db u action title content report_type) in
  let reply := snd (save_report now db u action title content report_type) in
  let submit := String.eqb action "submit_report" in
  reply <> SaveDenied ReportsOwnDepartmentOnly
  /\ match get_user_department db u with
     | Some d =>
         if negb (d =? 0) && active_user db u && has_permission db u "can_create_report"
         then
           let report_id := next_id (map Report.id (reports db)) in
           reply = (if submit then SaveSubmitted report_id else SaveDraft report_id)
           /\ reports db'
              = reports db
                ++ [Report.mk report_id title content report_type
                      (if submit then "submitted" else "draft") "normal" "department"
                      u (Some d) false None None None None None
                      (if submit then Some now else None)]
           /\ users db' = users db /\ user_roles db' = user_roles db
         else db' = db
     | None => db' = db /\ reply = SaveNoDepartment
     end.
Proof.
  cbv zeta. unfold save_report.
  destruct (get_user_department db u) as [d|] eqn:Hdept;
    [|split; [discriminate|split; reflexivity]].
  destruct (d =? 0) eqn:Hzero; simpl; [split; [discriminate|reflexivity]|].
  rewrite (validate_own_department db u d Hdept). unfold can_create_report.
  destruct (active_user db u) eqn:Hact; simpl; [|split; [discriminate|reflexivity]].
  destruct (has_permission db u "can_create_report") eqn:Hperm; simpl;
    [|split; [discriminate|reflexivity]].
  destruct (String.eqb action "submit_report"); simpl;
    (split; [discriminate|repeat split]).
Qed.

(** ** Approving reports through the bot *)

(** The approve button changes the store only when [can_approve_report]
    allows it: then one approval row of the requester is added and the
    report reads back as approved, whatever its status was.  The requester is
    active, holds the approve capability and is not the submitter.  A denial
    leaves the store as it was. *)
Theorem approve_button_callback_effect fuel now db u report_id db' reply :
  approve_button_callback fuel now db u report_id = Some (db', reply) ->
  (reply = ApproveDenied /\ db' = db
   /\ can_approve_report fuel db u report_id = Some false)
  \/ (reply = Approved report_id
      /\ can_approve_report fuel db u report_id = Some true
      /\ active_user db u = true
      /\ has_permission db u "can_approve" = true
      /\ report_approvals db'
         = report_approvals db ++ [Approval.mk report_id u "approved" (Some now)]
      /\ exists report,
          get_report db report_id = Some report
          /\ Report.submitted_by report <> u
          /\ get_report db' report_id
             = Some (set_status "approved" (Report.submitted_at report) report)).
Proof.
  unfold approve_button_callback.
  destruct (can_approve_report fuel db u report_id) as [[|]|] eqn:Hcan;
    [| |discriminate].
  - intros [= <- <-]. right. split; [reflexivity|]. split; [reflexivity|].
    unfold can_approve_report in Hcan.
    destruct (active_user db u) eqn:Hact; simpl in Hcan; [|discriminate].
    destruct (has_permission db u "can_approve") eqn:Hperm; simpl in Hcan;
      [|discriminate].
    destruct (get_report db report_id) as [report|] eqn:Hrep; [|discriminate].
    destruct (Report.submitted_by report =? u) eqn:Hown; [discriminate|].
    repeat split. exists report. split; [reflexivity|].
    split; [now apply Z.eqb_neq|].
    transitivity (get_report
                    (fst (update_report_status now
                            (add_approval now db report_id u "approved")
                            report_id "approved")) report_id); [reflexivity|].
    rewrite get_report_after_update.
    change (get_report (add_approval now db report_id u "approved") report_id)
      with (get_report db report_id).
    now rewrite Hrep.
  - intros [= <- <-]. left. auto.
Qed.

Lemma approve_button_callback_effect_witness :
  exists db',
    approve_button_callback 5 7 org_db 12 100 = Some (db', Approved 100)
    /\ report_approvals db' = [Approval.mk 100 12 "approved" (Some 7)].
Proof.
  eexists. split; [reflexivity|].
  destruct (approve_button_callback_effect 5 7 org_db 12 100 _ _ eq_refl)
    as [(H & _)|(_ & _ & _ & _ & Happ & _)]; [discriminate|exact Happ].
Defined.

(** Neither the status nor earlier approvals are looked at: whoever has
    approved a report can approve it again, and every press of the button
    adds another approval row. *)
Theorem approval_can_be_repeated fuel now now' db u report_id db' :
  approve_button_callback fuel now db u report_id = Some (db', Approved report_id) ->
  exists db'',
    approve_button_callback fuel now' db' u report_id = Some (db'', Approved report_id)
    /\ report_approvals db''
       = report_approvals db
         ++ [Approval.mk report_id u "approved" (Some now);
             Approval.mk report_id u "approved" (Some now')].
Proof.
  intros Hrun. unfold approve_button_callback in Hrun.
  destruct (can_approve_report fuel db u report_id) as [[|]|] eqn:Hcan;
    [|discriminate|discriminate].
  assert (Hdb : db' = fst (update_report_status now
                             (add_approval now db report_id u "approved")
                             report_id "approved")) by congruence.
  clear Hrun.
  assert (Hagain : can_approve_report fuel db' u report_id = Some true).
  { unfold can_approve_report in *.
    assert (Hread : get_report db' report_id
                    = match get_report db report_id with
                      | Some r => Some (set_status "approved" (Report.submitted_at r) r)
                      | None => None
                      end).
    { rewrite Hdb. now rewrite get_report_after_update. }
    rewrite Hread, Hdb.
    change (active_user (fst (update_report_status now
              (add_approval now db report_id u "approved") report_id "approved")) u)
      with (active_user db u).
    change (has_permission (fst (update_report_status now
              (add_approval now db report_id u "approved") report_id "approved")) u
              "can_approve")
      with (has_permission db u "can_approve").
    destruct (negb (active_user db u)); [discriminate|].
    destruct (negb (has_permission db u "can_approve")); [discriminate|].
    destruct (get_report db report_id) as [report|]; [|discriminate]. simpl.
    exact Hcan. }
  eexists. unfold approve_button_callback. rewrite Hagain.
  split; [reflexivity|]. rewrite Hdb. simpl. now rewrite <- app_assoc.
Qed.

Lemma approval_can_be_repeated_witness :
  exists db' db'',
    approve_button_callback 5 7 org_db 12 100 = Some (db', Approved 100)
    /\ approve_button_callback 5 8 db' 12 100 = Some (db'', Approved 100)
    /\ length (report_approvals db'') = 2%nat.
Proof.
  eexists.
  destruct (approval_can_be_repeated 5 7 8 org_db 12 100 _ eq_refl)
    as (db'' & Hrun & Hrows).
  exists db''. split; [reflexivity|]. split; [exact Hrun|]. now rewrite Hrows.
Defined.

(** ** Cumulative reports *)

(** The rows [get_hierarchical_reports] returns are stored reports in the
    status asked for, submitted within the date range, whose department is
    in the sub-tree of the department given. *)
Lemma in_get_hierarchical_reports fuel db root start_date end_date status rows pr :
  get_hierarchical_reports fuel db (Some root) start_date end_date status = Some rows ->
  In pr rows ->
  In (fst pr) (reports db)
  /\ Report.status (fst pr) = status
  /\ (exists t, Report.submitted_at (fst pr) = Some t
                /\ start_date <= date_of t <= end_date)
  /\ exists x, Report.department_id (fst pr) = Some x
               /\ descendant (departments db) root x.
Proof.
  unfold get_hierarchical_reports.
  destruct (get_department_hierarchy fuel db (Some root)) as [dept_ids|] eqn:Htree;
    [|discriminate].
  intros [= <-] Hin. apply in_sort_by in Hin. apply in_flat_map in Hin as (r & Hr & Hin).
  destruct (opt_in (Report.department_id r) dept_ids) eqn:Hdept; [|destruct Hin].
  simpl in Hin.
  destruct (existsb _ (users db)); [|destruct Hin]. simpl in Hin.
  destruct (String.eqb (Report.status r) status) eqn:Hstatus; [|destruct Hin].
  simpl in Hin.
  destruct (Report.submitted_at r) as [t|] eqn:Ht; [|destruct Hin].
  destruct ((start_date <=? date_of t) && (date_of t <=? end_date)) eqn:Hrange;
    [|destruct Hin].
  apply in_map_iff in Hin as (d & <- & _). simpl.
  split; [exact Hr|]. split; [now apply String.eqb_eq|]. split.
  - exists t. split; [exact Ht|]. apply andb_true_iff in Hrange as [H1 H2]. lia.
  - apply opt_in_spec in Hdept as (x & Hx & Hin). exists x. split; [exact Hx|].
    now apply (get_department_hierarchy_descendants _ _ _ _ Htree).
Qed.

(** Every source of a cumulative report made by [cumulative_period_handler]
    is a stored report that is approved, was submitted within the period,
    and belongs to a department in the sub-tree of the requester's
    department; there is at least one source, and the cumulative report is
    filed under the requester's department.  A report without a submission
    time is never a source. *)
Theorem cumulative_report_sources fuel now generate_content db u period db'
  cumulative_id summary :
  cumulative_period_handler fuel now generate_content db u period
  = Some (Returns (db', CumulativeCreated cumulative_id summary)) ->
  exists root ids row,
    get_user_department db u = Some root
    /\ reports db' = reports db ++ [row]
    /\ Report.id row = cumulative_id
    /\ Report.submitted_by row = u
    /\ Report.department_id row = Some root
    /\ Report.source_report_ids row = Some ids
    /\ ids <> []
    /\ length (report_aggregations db')
       = (length (report_aggregations db) + length ids)%nat
    /\ forall s, In s ids ->
         exists r t x,
           In r (reports db) /\ Report.id r = s
           /\ Report.status r = "approved"
           /\ Report.submitted_at r = Some t
           /\ date_of (now - period_days period * 86400) <= date_of t <= date_of now
           /\ Report.department_id r = Some x
           /\ descendant (departments db) root x.
Proof.
  unfold cumulative_period_handler.
  destruct (get_department_hierarchy fuel db (get_user_department db u));
    [|discriminate].
  destruct (get_hierarchical_reports fuel db (get_user_department db u) _ _ _)
    as [[|first rest]|] eqn:Hrows; [discriminate| |discriminate].
  destruct (get_user_department db u) as [root|]; [|discriminate].
  unfold create_cumulative_report. intros [= <- <- _].
  eexists root, _, _. split; [reflexivity|]. split; [reflexivity|].
  repeat (split; [reflexivity|]). split; [discriminate|]. split.
  - simpl. rewrite length_app. simpl. now rewrite !length_map.
  - intros s Hs.
    change (In s (map (fun r : Report.t * string => Report.id (fst r))
                    (first :: rest))) in Hs.
    apply in_map_iff in Hs as (pr & <- & Hpr).
    destruct (in_get_hierarchical_reports _ _ _ _ _ _ _ pr Hrows Hpr)
      as (Hr & Hstatus & (t & Ht & Hrange) & x & Hx & Hdesc).
    exists (fst pr), t, x. repeat split; auto; lia.
Qed.

Lemma cumulative_report_sources_witness :
  exists db',
    cumulative_period_handler 5 1000500 answering_service approved_db 11 "weekly"
    = Some (Returns (db', CumulativeCreated 102 "digest"))
    /\ exists row, reports db' = reports approved_db ++ [row]
                   /\ Report.source_report_ids row = Some [100].
Proof.
  eexists. split; [reflexivity|].
  destruct (cumulative_report_sources 5 1000500 answering_service approved_db 11
              "weekly" _ 102 "digest" eq_refl)
    as (root & ids & row & _ & Hrows & _).
  eexists. split; [exact Hrows|]. apply app_inv_head in Hrows.
  now injection Hrows as <-.
Defined.

Lemma deactivate_user_keeps_ids db u (f : Z -> bool) :
  existsb (fun x => f (User.user_id x)) (users (fst (deactivate_user db u)))
  = existsb (fun x => f (User.user_id x)) (users db).
Proof.
  unfold deactivate_user. simpl.
  induction (users db) as [|x l IH]; simpl; [reflexivity|].
  rewrite IH. now destruct (User.user_id x =? u).
Qed.

Lemma get_hierarchical_reports_deactivated fuel db u dept start_date end_date status :
  get_hierarchical_reports fuel (fst (deactivate_user db u)) dept start_date end_date
    status
  = get_hierarchical_reports fuel db dept start_date end_date status.
Proof.
  unfold get_hierarchical_reports.
  change (get_department_hierarchy fuel (fst (deactivate_user db u)) dept)
    with (get_department_hierarchy fuel db dept).
  destruct (get_department_hierarchy fuel db dept) as [dept_ids|]; [|reflexivity].
  f_equal. f_equal.
  change (reports (fst (deactivate_user db u))) with (reports db).
  change (departments (fst (deactivate_user db u))) with (departments db).
  apply flat_map_ext. intros r.
  now rewrite (deactivate_user_keeps_ids db u
                 (fun x => x =? Report.submitted_by r)).
Qed.

(** [cumulative_period_handler] asks for no permission and does not look at
    the account: for a deactivated user it answers as it would have before
    the deactivation and stores the same cumulative report, although
    [can_create_cumulative_report] denies that user. *)
Theorem cumulative_period_handler_ignores_deactivation fuel now generate_content db u
  period :
  match cumulative_period_handler fuel now generate_content db u period,
        cumulative_period_handler fuel now generate_content
          (fst (deactivate_user db u)) u period with
  | Some (Returns (db1, reply1)), Some (Returns (db2, reply2)) =>
      reply2 = reply1
      /\ reports db2 = reports db1
      /\ report_aggregations db2 = report_aggregations db1
      /\ active_user db2 u = false
      /\ can_create_cumulative_report db2 u = false
  | Some (Raises e1), Some (Raises e2) => e2 = e1
  | None, None => True
  | _, _ => False
  end.
Proof.
  unfold cumulative_period_handler.
  rewrite get_hierarchical_reports_deactivated.
  change (get_user_department (fst (deactivate_user db u)) u)
    with (get_user_department db u).
  change (get_department_hierarchy fuel (fst (deactivate_user db u))
            (get_user_department db u))
    with (get_department_hierarchy fuel db (get_user_department db u)).
  destruct (get_department_hierarchy fuel db (get_user_department db u));
    [|exact I].
  pose proof (deactivate_user_inactive db u) as Hoff.
  destruct (get_hierarchical_reports fuel db (get_user_department db u) _ _ _)
    as [[|first rest]|]; [| |exact I].
  - repeat split; auto. unfold can_create_cumulative_report. now rewrite Hoff.
  - unfold create_cumulative_report.
    destruct (get_user_department db u) as [root|]; [|reflexivity].
    repeat split; auto. unfold can_create_cumulative_report.
    change (active_user _ u) with (active_user (fst (deactivate_user db u)) u).
    now rewrite Hoff.
Qed.

Example deactivated_user_gets_cumulative_report :
  exists db',
    cumulative_period_handler 5 1000500 answering_service
      (fst (deactivate_user approved_db 11)) 11 "weekly"
    = Some (Returns (db', CumulativeCreated 102 "digest"))
    /\ can_create_cumulative_report db' 11 = false.
Proof. eexists. split; reflexivity. Qed.

(** ** Personal summaries *)

(** [summary_command] saves nothing when the service call raises or the
    content is blocked by the safety filter: the text [summarize_text]
    returns then starts with one of the two prefixes the handler tests. *)
Theorem summary_command_discards_errors now generate_content db u :
  (forall prompt,
     (exists error_msg, generate_content prompt = GenerateRaises error_msg)
     \/ (exists c rest text,
           generate_content prompt = GenerateResponse (Some (c :: rest)) text
           /\ finish_reason c = Some 2)) ->
  fst (summary_command now generate_content db u) = db
  /\ forall summary,
       snd (summary_command now generate_content db u) <> SummarySaved summary.
Proof.
  intros Hservice.
  assert (Herr : forall text,
            is_error_summary (summarize_text generate_content text "ar") = true).
  { intros text. unfold summarize_text. simpl.
    destruct (Hservice ("قم بتلخيص النص التالي باللغة العربية بشكل مختصر ومفيد:"
                        +++ nl +++ nl +++ text))
      as [(msg & ->)|(c & rest & txt & -> & Hreason)].
    - reflexivity.
    - rewrite Hreason. reflexivity. }
  unfold summary_command.
  destruct (get_user_reports db u 10) as [|r rs]; [split; [reflexivity|discriminate]|].
  destruct (String.eqb _ ""); [split; [reflexivity|discriminate]|].
  rewrite Herr. split; [reflexivity|discriminate].
Qed.

Lemma summary_command_discards_errors_witness :
  fst (summary_command 1000500 blocking_service approved_db 13) = approved_db
  /\ snd (summary_command 1000500 blocking_service approved_db 13)
     = SummaryFailed safety_msg.
Proof.
  split; [|reflexivity].
  apply (summary_command_discards_errors 1000500 blocking_service approved_db 13).
  intros prompt. right. eexists _, _, _. split; reflexivity.
Defined.

(** The other failures of [summarize_text] are not recognised: when the
    service stops for recitation (3) or for another reason (4), or answers
    without candidates, the fixed failure text passes the handler's test
    and, if the user's reports have any content, is saved as the summary. *)
Theorem summary_command_saves_failure_texts now generate_content db u :
  (forall prompt,
     (exists text, generate_content prompt = GenerateResponse None text)
     \/ (exists text, generate_content prompt = GenerateResponse (Some []) text)
     \/ (exists c rest text,
           generate_content prompt = GenerateResponse (Some (c :: rest)) text
           /\ (finish_reason c = Some 3 \/ finish_reason c = Some 4))) ->
  let db' := fst (summary_command now generate_content db u) in
  let reply := snd (summary_command now generate_content db u) in
  (reply = NothingToSummarise /\ db' = db)
  \/ (reply = NoContentToSummarise /\ db' = db)
  \/ exists failure,
       In failure ["لا يوجد رد من النموذج"; "المحتوى محمي بحقوق النشر";
                   "فشل في التلخيص لأسباب فنية"]
       /\ reply = SummarySaved failure
       /\ summaries db' = summaries db ++ [Summary.mk u failure (date_of now)].
Proof.
  intros Hservice.
  assert (Hfail : forall text,
            In (summarize_text generate_content text "ar")
              ["لا يوجد رد من النموذج"; "المحتوى محمي بحقوق النشر";
               "فشل في التلخيص لأسباب فنية"]).
  { intros text. unfold summarize_text. simpl String.eqb. cbv iota.
    destruct (Hservice ("قم بتلخيص النص التالي باللغة العربية بشكل مختصر ومفيد:"
                        +++ nl +++ nl +++ text))
      as [(txt & ->)|[(txt & ->)|(c & rest & txt & -> & [Hreason|Hreason])]];
      try rewrite Hreason; simpl; auto. }
  cbv zeta. unfold summary_command.
  destruct (get_user_reports db u 10) as [|r rs]; [now left|].
  destruct (String.eqb _ ""); [right; now left|].
  right. right.
  set (summary := summarize_text generate_content _ "ar").
  assert (Hin : In summary ["لا يوجد رد من النموذج"; "المحتوى محمي بحقوق النشر";
                            "فشل في التلخيص لأسباب فنية"]) by apply Hfail.
  exists summary. split; [exact Hin|].
  assert (Hok : is_error_summary summary = false).
  { destruct Hin as [<-|[<-|[<-|[]]]]; reflexivity. }
  rewrite Hok. split; reflexivity.
Qed.

Lemma summary_command_saves_failure_texts_witness :
  snd (summary_command 1000500 recitation_service approved_db 13)
  = SummarySaved "المحتوى محمي بحقوق النشر"
  /\ ((snd (summary_command 1000500 recitation_service approved_db 13)
       = NothingToSummarise
       /\ fst (summary_command 1000500 recitation_service approved_db 13) = approved_db)
      \/ (snd (summary_command 1000500 recitation_service approved_db 13)
          = NoContentToSummarise
          /\ fst (summary_command 1000500 recitation_service approved_db 13)
             = approved_db)
      \/ exists failure,
           In failure ["لا يوجد رد من النموذج"; "المحتوى محمي بحقوق النشر";
                       "فشل في التلخيص لأسباب فنية"]
           /\ snd (summary_command 1000500 recitation_service approved_db 13)
              = SummarySaved failure
           /\ summaries (fst (summary_command 1000500 recitation_service approved_db 13))
              = summaries approved_db ++ [Summary.mk 13 failure (date_of 1000500)]).
Proof.
  split; [reflexivity|].
  apply (summary_command_saves_failure_texts 1000500 recitation_service approved_db 13).
  intros prompt. right. right. eexists _, _, _. split; [reflexivity|]. now left.
Defined.

(** ** Creating departments *)

Lemma get_department_some db p q :
  get_department db p = Some q -> In q (departments db) /\ Department.id q = p.
Proof.
  unfold get_department. intros H. apply find_some in H as [Hin Hid].
  split; [exact Hin|]. now apply Z.eqb_eq.
Qed.

Lemma NoDup_snoc {A : Type} (l : list A) (x : A) :
  List.NoDup l -> ~ In x l -> List.NoDup (l ++ [x]).
Proof.
  induction l as [|y l IH]; intros Hl Hx; simpl.
  - constructor; [tauto|constructor].
  - apply List.NoDup_cons_iff in Hl as [Hy Hl]. constructor.
    + rewrite in_app_iff. simpl. intros [H|[H|[]]]; [tauto|].
      apply Hx. now left.
    + apply IH; [exact Hl|]. intros H. apply Hx. now right.
Qed.

(** [create_department] under a parent that exists, or under none, keeps
    the department table well formed (unique ids, parent links that form a
    forest and name stored rows).  The new department gets a fresh id, is
    active, lies one level below its parent (level 0 without one) and is
    read back by [get_department]; the departments already stored are read
    back as before. *)
Theorem create_department_keeps_forest db name parent_id db' dept_id :
  well_formed_departments (departments db) ->
  (forall p, parent_id = Some p -> p <> 0 /\ get_department db p <> None) ->
  create_department db name parent_id = Returns (db', dept_id) ->
  well_formed_departments (departments db')
  /\ ~ In dept_id (map Department.id (departments db))
  /\ (exists level,
        get_department db' dept_id
        = Some (Department.mk dept_id name parent_id level true)
        /\ match parent_id with
           | Some p => exists q, get_department db p = Some q
                                 /\ level = Department.level q + 1
           | None => level = 0
           end)
  /\ (forall other, other <> dept_id ->
        get_department db' other = get_department db other)
  /\ users db' = users db /\ user_roles db' = user_roles db
  /\ reports db' = reports db.
Proof.
  intros (Hnodup & (rank & Hrank) & Hresolve) Hparent.
  unfold create_department.
  destruct (existsb _ (departments db)); [discriminate|].
  set (level := if truthy parent_id then _ else _).
  intros [= <- <-]. simpl.
  set (dept_id := next_id (map Department.id (departments db))).
  set (row := Department.mk dept_id name parent_id level true).
  assert (Hfresh : forall d, In d (departments db) -> Department.id d <> dept_id).
  { intros d Hd. pose proof (next_id_fresh (map Department.id (departments db))
                               (Department.id d) (in_map _ _ _ Hd)).
    subst dept_id. lia. }
  assert (Hnotin : ~ In dept_id (map Department.id (departments db))).
  { intros Hin. apply in_map_iff in Hin as (d & Hid & Hd). exact (Hfresh d Hd Hid). }
  assert (Hparent_row : forall p, parent_id = Some p ->
            exists q, In q (departments db) /\ Department.id q = p).
  { intros p Hp. destruct (Hparent p Hp) as [_ Hex].
    destruct (get_department db p) as [q|] eqn:Hq; [|congruence].
    exists q. now apply get_department_some. }
  split; [|split; [exact Hnotin|split; [|split; [|repeat split]]]].
  - (* well-formedness *)
    split; [|split].
    + rewrite map_app. simpl. now apply NoDup_snoc.
    + exists (fun x => if x =? dept_id then 0%nat else S (rank x)).
      intros d p Hd Hp. apply in_app_iff in Hd as [Hd|[<-|[]]].
      * destruct (Hresolve d p Hd Hp) as (q & Hq & Hqid).
        assert (E1 : (Department.id d =? dept_id) = false)
          by (apply Z.eqb_neq; now apply Hfresh).
        assert (E2 : (p =? dept_id) = false)
          by (apply Z.eqb_neq; rewrite <- Hqid; now apply Hfresh).
        rewrite E1, E2. pose proof (Hrank d p Hd Hp). lia.
      * simpl in Hp. destruct (Hparent_row p Hp) as (q & Hq & Hqid).
        assert (E2 : (p =? dept_id) = false)
          by (apply Z.eqb_neq; rewrite <- Hqid; now apply Hfresh).
        simpl. rewrite Z.eqb_refl, E2. lia.
    + intros d p Hd Hp. apply in_app_iff in Hd as [Hd|[<-|[]]].
      * destruct (Hresolve d p Hd Hp) as (q & Hq & Hqid).
        exists q. split; [apply in_app_iff; now left|exact Hqid].
      * simpl in Hp. destruct (Hparent_row p Hp) as (q & Hq & Hqid).
        exists q. split; [apply in_app_iff; now left|exact Hqid].
  - (* the new row *)
    exists level. split.
    + unfold get_department. simpl. rewrite find_app_none.
      * simpl. now rewrite Z.eqb_refl.
      * clearbody dept_id. clear - Hfresh.
        induction (departments db) as [|d l IH]; simpl; [reflexivity|].
        destruct (Department.id d =? dept_id) eqn:E.
        -- apply Z.eqb_eq in E. now elim (Hfresh d (or_introl eq_refl)).
        -- apply IH. intros x Hx. apply Hfresh. now right.
    + subst level. destruct parent_id as [p|]; [|reflexivity].
      destruct (Hparent p eq_refl) as [Hp Hex].
      assert (Htruthy : truthy (Some p) = true).
      { simpl. apply negb_true_iff. now apply Z.eqb_neq. }
      rewrite Htruthy.
      destruct (get_department db p) as [q|] eqn:Hq; [|congruence].
      exists q. split; [reflexivity|].
      unfold get_department in Hq. simpl. now rewrite Hq.
  - (* the other rows *)
    intros other Hother. unfold get_department. simpl.
    destruct (find (fun d => Department.id d =? other) (departments db))
      as [d|] eqn:Hfind.
    + erewrite find_app_some; [reflexivity|exact Hfind].
    + rewrite find_app_none; [|exact Hfind]. simpl.
      destruct (dept_id =? other) eqn:E; [|reflexivity].
      apply Z.eqb_eq in E. congruence.
Qed.

Lemma org_well_formed : well_formed_departments (departments org_db).
Proof.
  split; [|split; [exact org_acyclic|]].
  - simpl. repeat constructor; simpl; intuition discriminate.
  - intros d p Hd Hp. simpl in Hd. destruct Hd as [<-|[<-|[]]]; simpl in Hp.
    + discriminate.
    + injection Hp as <-. eexists. split; [left; reflexivity|reflexivity].
Qed.

Lemma create_department_keeps_forest_witness :
  well_formed_departments (departments org_db)
  /\ exists db',
      create_department org_db "C" (Some 2) = Returns (db', 3)
      /\ well_formed_departments (departments db')
      /\ get_department db' 4 = get_department org_db 4.
Proof.
  split; [exact org_well_formed|]. eexists. split; [reflexivity|].
  match goal with
  | |- well_formed_departments (departments ?d) /\ _ =>
      destruct (create_department_keeps_forest org_db "C" (Some 2) d 3 org_well_formed)
        as (Hwf & _ & _ & Hothers & _)
  end.
  - intros p [= <-]. split; [lia|discriminate].
  - reflexivity.
  - split; [exact Hwf|]. apply Hothers. lia.
Defined.

(** ** Sub-departments *)

(** Whenever the hierarchy query returns for a stored department, its
    result contains that department and every immediate sub-department
    [get_subdepartments] lists. *)
Theorem subdepartments_are_in_hierarchy fuel db dept_id out :
  get_department db dept_id <> None ->
  get_department_hierarchy fuel db (Some dept_id) = Some out ->
  In dept_id out
  /\ forall sub, In sub (get_subdepartments db dept_id) ->
       Department.parent_department_id sub = Some dept_id
       /\ Department.is_active sub = true
       /\ In (Department.id sub) out.
Proof.
  intros Hex Hrun.
  pose proof (get_department_hierarchy_descendants _ _ _ _ Hrun) as Hdesc.
  destruct (get_department db dept_id) as [d|] eqn:Hd; [|congruence].
  apply get_department_some in Hd as [Hin Hid].
  assert (Hroot : descendant (departments db) dept_id dept_id)
    by (eapply descendant_root; eauto).
  split; [now apply Hdesc|].
  intros sub Hsub. unfold get_subdepartments in Hsub.
  apply filter_In in Hsub as [Hs Hcond].
  apply andb_true_iff in Hcond as [Hparent Hactive].
  assert (Hp : Department.parent_department_id sub = Some dept_id).
  { unfold sql_eqb in Hparent.
    destruct (Department.parent_department_id sub) as [p|]; [|discriminate].
    apply Z.eqb_eq in Hparent. congruence. }
  repeat split; auto. apply Hdesc. eapply descendant_child; eauto.
Qed.

Lemma subdepartments_are_in_hierarchy_witness :
  get_department org_db 1 <> None
  /\ get_department_hierarchy 5 org_db (Some 1) = Some [1; 2]
  /\ In 1 [1; 2].
Proof.
  split; [discriminate|]. split; [reflexivity|].
  exact (proj1 (subdepartments_are_in_hierarchy 5 org_db 1 [1; 2]
                  ltac:(discriminate) eq_refl)).
Defined.

Lemma dept_tree_empty fuel depts : dept_tree fuel depts [] = Some [].
Proof. now destruct fuel. Qed.

(** A user whose highest role carries no department, such as an admin made
    by [/createadmin], gets no cumulative report from
    [cumulative_period_handler]: it finds no approved report and leaves the
    store as it was, whatever reports are stored. *)
Theorem cumulative_period_handler_needs_department fuel now generate_content db u
  period :
  get_user_department db u = None ->
  cumulative_period_handler fuel now generate_content db u period
  = Some (Returns (db, NoApprovedReports)).
Proof.
  intros Hnone. unfold cumulative_period_handler, get_hierarchical_reports.
  rewrite Hnone.
  assert (Hempty : get_department_hierarchy fuel db None = Some []).
  { unfold get_department_hierarchy.
    assert (Hq : initial_select (departments db) None = []).
    { unfold initial_select. induction (departments db) as [|d l IH]; [reflexivity|].
      simpl. exact IH. }
    rewrite Hq. apply dept_tree_empty. }
  rewrite Hempty.
  assert (Hrows : forall (f : Report.t -> list (Report.t * string)) l,
            (forall r, In r l -> f r = []) -> flat_map f l = []).
  { intros f l Hf. induction l as [|r l IH]; [reflexivity|]. simpl.
    rewrite (Hf r (or_introl eq_refl)), IH; [reflexivity|].
    intros x Hx. apply Hf. now right. }
  rewrite Hrows; [reflexivity|].
  intros r _. now destruct (Report.department_id r).
Qed.

Lemma cumulative_period_handler_needs_department_witness :
  get_user_department approved_db 10 = None
  /\ cumulative_period_handler 5 1000500 answering_service approved_db 10 "weekly"
     = Some (Returns (approved_db, NoApprovedReports)).
Proof.
  split; [reflexivity|].
  apply (cumulative_period_handler_needs_department 5 1000500 answering_service
           approved_db 10 "weekly").
  reflexivity.
Defined.

(** ** Listing reports *)

Lemma get_user_reports_without_status db u limit :
  get_user_reports_by_status db u limit None = get_user_reports db u limit.
Proof.
  unfold get_user_reports_by_status, get_user_reports. simpl. do 2 f_equal.
  induction (reports db) as [|r l IH]; simpl; [reflexivity|].
  now rewrite andb_true_r, IH.
Qed.

Lemma in_firstn {A : Type} (n : nat) (l : list A) (x : A) :
  In x (firstn n l) -> In x l.
Proof.
  revert l. induction n as [|n IH]; intros [|y l]; simpl; try tauto.
  intros [->|H]; [now left|right; now apply IH].
Qed.

Lemma in_unique_reports seen l r : In r (unique_reports seen l) -> In r l.
Proof.
  revert seen. induction l as [|x l IH]; intros seen; simpl; [tauto|].
  destruct (existsb (Z.eqb (Report.id x)) seen).
  - intros H. right. exact (IH _ H).
  - intros [->|H]; [now left|right; exact (IH _ H)].
Qed.

Lemma in_get_department_reports db d status limit r :
  In r (get_department_reports db d status limit) ->
  In r (reports db) /\ Report.department_id r = Some d
  /\ status_filter status r = true.
Proof.
  unfold get_department_reports. intros H.
  apply in_firstn, in_sort_by, filter_In in H as [Hr Hcond].
  apply andb_true_iff in Hcond as [Hcond Hstatus].
  apply andb_true_iff in Hcond as [Hdept _].
  repeat split; auto. unfold sql_eqb in Hdept.
  destruct (Report.department_id r) as [x|]; [|discriminate].
  apply Z.eqb_eq in Hdept. congruence.
Qed.

Lemma in_get_user_reports_by_status db u limit status r :
  In r (get_user_reports_by_status db u limit status) ->
  In r (reports db) /\ Report.submitted_by r = u /\ status_filter status r = true.
Proof.
  unfold get_user_reports_by_status. intros H.
  apply in_firstn in H. apply in_rev in H. apply filter_In in H as [Hr Hcond].
  apply andb_true_iff in Hcond as [Hcond Hstatus].
  apply andb_true_iff in Hcond as [Hown _].
  repeat split; auto. now apply Z.eqb_eq.
Qed.

(** The reports that go into the listing of a user who is active and does
    not hold [can_view_all]: stored reports that pass the status filter and
    are the user's own or belong to a department the user has access to. *)
Lemma listing_candidates fuel db u limit status depts r :
  active_user db u = true ->
  get_accessible_departments fuel db u = Some depts ->
  In r (unique_reports []
          (flat_map (fun d => get_department_reports db d status limit) depts
           ++ get_user_reports_by_status db u limit status)) ->
  In r (reports db) /\ status_filter status r = true
  /\ (Report.submitted_by r = u \/ department_access db u (Report.department_id r)).
Proof.
  intros Hact Hdepts Hin. apply in_unique_reports, in_app_iff in Hin as [Hin|Hin].
  - apply in_flat_map in Hin as (d & Hd & Hin).
    apply in_get_department_reports in Hin as (Hr & Hdept & Hstatus).
    repeat split; auto. right. rewrite Hdept.
    exact (accessible_department_is_granted fuel db u depts d Hact Hdepts Hd).
  - apply in_get_user_reports_by_status in Hin as (Hr & Hown & Hstatus).
    repeat split; auto.
Qed.

(** Whatever [get_accessible_reports] lists is a stored report that passes
    the status filter and is the user's own or belongs to a department
    [can_access_department] grants to the user; the list is no longer than
    the limit. *)
Theorem get_accessible_reports_sound fuel db u limit status l :
  get_accessible_reports fuel db u limit status = Some (Returns l) ->
  (length l <= limit)%nat
  /\ forall r, In r l ->
       In r (reports db) /\ status_filter status r = true
       /\ (Report.submitted_by r = u
           \/ department_access db u (Report.department_id r)).
Proof.
  unfold get_accessible_reports.
  destruct (active_user db u) eqn:Hact; simpl;
    [|intros [= <-]; split; [simpl; lia|intros r []]].
  destruct (get_user_primary_role db u) as [role|];
    [|intros [= <-]; split; [simpl; lia|intros r []]].
  destruct (perm_get (RoleInfo.permissions role) "can_view_all");
    [intros [= <-]; split; [simpl; lia|intros r []]|].
  destruct (get_accessible_departments fuel db u) as [[|d depts]|] eqn:Hdepts;
    [| |discriminate].
  - intros [= <-]. split.
    + unfold get_user_reports_by_status. apply firstn_le_length.
    + intros r Hr. apply in_get_user_reports_by_status in Hr as (Hr & Hown & Hstatus).
      repeat split; auto.
  - unfold sort_by_submitted_at.
    destruct ((2 <=? length _)%nat && existsb no_submission_time _); [discriminate|].
    intros [= <-]. split; [apply firstn_le_length|].
    intros r Hr. apply in_firstn, in_sort_by in Hr.
    exact (listing_candidates fuel db u limit status (d :: depts) r Hact Hdepts Hr).
Qed.

Lemma get_accessible_reports_sound_witness :
  exists l,
    get_accessible_reports 5 approved_db 12 20 (Some "approved") = Some (Returns l)
    /\ map Report.id l = [100]
    /\ (length l <= 20)%nat.
Proof.
  eexists. split; [reflexivity|]. split; [reflexivity|].
  exact (proj1 (get_accessible_reports_sound 5 approved_db 12 20 (Some "approved")
                  _ eq_refl)).
Defined.

(** The listing of an administrator is empty.  A user whose highest role is
    the admin role and carries [can_view_all] may view every report that
    [get_report] retrieves, yet [get_accessible_reports] returns no report
    and [search_reports_command] answers that there is none. *)
Theorem admin_listing_is_empty fuel db u role limit status :
  active_user db u = true ->
  get_user_primary_role db u = Some role ->
  RoleInfo.role_name role = "admin" ->
  perm_get (RoleInfo.permissions role) "can_view_all" = true ->
  get_accessible_reports fuel db u limit status = Some (Returns [])
  /\ search_reports_command fuel db u = Some (Returns SearchNothing)
  /\ forall report_id, get_report db report_id <> None ->
       can_view_report fuel db u report_id = Some true.
Proof.
  intros Hact Hrole Hname Hall.
  assert (Hlist : forall l s, get_accessible_reports fuel db u l s = Some (Returns [])).
  { intros l s. unfold get_accessible_reports. now rewrite Hact, Hrole, Hall. }
  split; [apply Hlist|]. split.
  - unfold search_reports_command. now rewrite Hlist.
  - intros report_id Hex. unfold can_view_report. rewrite Hact. simpl.
    destruct (get_report db report_id) as [report|]; [|congruence].
    destruct (Report.submitted_by report =? u); [reflexivity|].
    destruct (String.eqb (Report.visibility report) "public"); [reflexivity|].
    unfold can_access_department. now rewrite Hrole, Hname.
Qed.

Lemma admin_listing_is_empty_witness :
  get_accessible_reports 5 org_db 10 20 (Some "submitted") = Some (Returns [])
  /\ can_view_report 5 org_db 10 100 = Some true.
Proof.
  destruct (admin_listing_is_empty 5 org_db 10
              (RoleInfo.mk 4 "admin" "مسؤول النظام" 99
                 {[ "can_create_report" := true; "can_view_all" := true;
                    "can_approve" := true; "can_create_cumulative" := true;
                    "can_manage_users" := true; "can_manage_departments" := true ]}
                 None)
              20 (Some "submitted") eq_refl eq_refl eq_refl eq_refl)
    as (Hlist & _ & Hview).
  split; [exact Hlist|]. apply Hview. discriminate.
Defined.

(** [search_reports_command] can fail only with [TypeError], and only when
    an approved report without a submission time is among the reports the
    user can reach: sorting the listing by submission time then compares
    [None].  A draft that was approved directly is such a report. *)
Theorem search_raises_on_missing_submission_time fuel db u e :
  search_reports_command fuel db u = Some (Raises e) ->
  e = TypeError
  /\ active_user db u = true
  /\ exists r,
       In r (reports db)
       /\ Report.status r = "approved"
       /\ Report.submitted_at r = None
       /\ (Report.submitted_by r = u
           \/ department_access db u (Report.department_id r)).
Proof.
  unfold search_reports_command.
  destruct (get_accessible_reports fuel db u 20 (Some "approved"))
    as [[[|first rest]|e']|] eqn:Hlist; try discriminate.
  intros [= <-]. unfold get_accessible_reports in Hlist.
  destruct (active_user db u) eqn:Hact; simpl in Hlist; [|discriminate].
  destruct (get_user_primary_role db u) as [role|]; [|discriminate].
  destruct (perm_get (RoleInfo.permissions role) "can_view_all"); [discriminate|].
  destruct (get_accessible_departments fuel db u) as [[|d depts]|] eqn:Hdepts;
    try discriminate.
  unfold sort_by_submitted_at in Hlist.
  destruct ((2 <=? length _)%nat && existsb no_submission_time _) eqn:Hnone;
    [|discriminate].
  injection Hlist as <-. split; [reflexivity|]. split; [reflexivity|].
  apply andb_true_iff in Hnone as [_ Hnone].
  apply existsb_exists in Hnone as (r & Hr & Hmissing).
  destruct (listing_candidates fuel db u 20 (Some "approved") (d :: depts) r
              Hact Hdepts Hr) as (Hin & Hstatus & Hreach).
  exists r. split; [exact Hin|]. split; [now apply String.eqb_eq|].
  split; [|exact Hreach].
  unfold no_submission_time in Hmissing.
  now destruct (Report.submitted_at r).
Qed.

Lemma search_raises_on_missing_submission_time_witness :
  search_reports_command 5 approved_drafts_db 12 = Some (Raises TypeError)
  /\ active_user approved_drafts_db 12 = true.
Proof.
  split; [reflexivity|].
  exact (proj1 (proj2 (search_raises_on_missing_submission_time 5 approved_drafts_db
                         12 TypeError eq_refl))).
Defined.

(** ** Validating the sources of a cumulative report *)

Lemma check_sources_allows db accessible ids :
  (forall s, In s ids ->
     exists report, get_report db s = Some report
                    /\ opt_in (Report.department_id report) accessible = true) ->
  check_sources db accessible ids = (true, CumulativeAllowed).
Proof.
  induction ids as [|s ids IH]; intros Hall; simpl; [reflexivity|].
  destruct (Hall s (or_introl eq_refl)) as (report & -> & ->). simpl.
  apply IH. intros x Hx. apply Hall. now right.
Qed.

Lemma get_report_unique db r :
  List.NoDup (map Report.id (reports db)) ->
  In r (reports db) ->
  existsb (fun u => User.user_id u =? Report.submitted_by r) (users db) = true ->
  existsb (fun d => sql_eqb (Report.department_id r) (Some (Department.id d)))
    (departments db) = true ->
  get_report db (Report.id r) = Some r.
Proof.
  intros Hnodup Hin Huser Hdept. unfold get_report.
  induction (reports db) as [|x l IH]; [destruct Hin|].
  simpl in Hnodup. apply List.NoDup_cons_iff in Hnodup as [Hx Hnodup]. simpl.
  destruct Hin as [->|Hin].
  - now rewrite Z.eqb_refl, Huser, Hdept.
  - destruct (Report.id x =? Report.id r) eqn:E.
    + apply Z.eqb_eq in E. exfalso. apply Hx. rewrite E. now apply in_map.
    + simpl. now apply IH.
Qed.

(** [cumulative_period_handler] does not call the validator, but for an
    active user who may create cumulative reports and whose highest role
    has sub-tree visibility the sources it picks are exactly of the kind
    [validate_cumulative_report_creation] accepts (report ids being
    unique). *)
Theorem cumulative_sources_pass_validation fuel now generate_content db u period role
  db' cumulative_id summary :
  List.NoDup (map Report.id (reports db)) ->
  active_user db u = true ->
  can_create_cumulative_report db u = true ->
  get_user_primary_role db u = Some role ->
  String.eqb (RoleInfo.role_name role) "admin" = false ->
  perm_get (RoleInfo.permissions role) "can_view_subdepartments" = true ->
  RoleInfo.department_id role <> Some 0 ->
  cumulative_period_handler fuel now generate_content db u period
  = Some (Returns (db', CumulativeCreated cumulative_id summary)) ->
  exists row ids,
    reports db' = reports db ++ [row]
    /\ Report.source_report_ids row = Some ids
    /\ validate_cumulative_report_creation fuel db u ids
       = Some (true, CumulativeAllowed).
Proof.
  intros Hnodup Hact Hcan Hrole Hadmin Hsub Hzero.
  unfold cumulative_period_handler.
  assert (Hdept : get_user_department db u = RoleInfo.department_id role)
    by (unfold get_user_department; now rewrite Hrole).
  rewrite Hdept.
  destruct (get_department_hierarchy fuel db (RoleInfo.department_id role))
    as [dept_ids|] eqn:Htree; [|discriminate].
  destruct (get_hierarchical_reports fuel db (RoleInfo.department_id role) _ _ _)
    as [[|first rest]|] eqn:Hrows; [discriminate| |discriminate].
  destruct (RoleInfo.department_id role) as [root|] eqn:Hroot; [|discriminate].
  unfold create_cumulative_report. intros [= <- _ _].
  eexists _, _. split; [reflexivity|]. split; [reflexivity|].
  unfold validate_cumulative_report_creation. rewrite Hact, Hcan. simpl.
  assert (Haccessible : get_accessible_departments fuel db u = Some dept_ids).
  { unfold get_accessible_departments. rewrite Hact, Hrole, Hadmin, Hroot. simpl.
    assert (Hroot0 : (root =? 0) = false) by (apply Z.eqb_neq; congruence).
    rewrite Hroot0. simpl. now rewrite Hsub. }
  rewrite Haccessible. f_equal.
  change (check_sources db dept_ids
            (map (fun r : Report.t * string => Report.id (fst r)) (first :: rest))
          = (true, CumulativeAllowed)).
  apply check_sources_allows.
  intros s Hs.
  change (In s (map (fun r : Report.t * string => Report.id (fst r))
                  (first :: rest))) in Hs.
  apply in_map_iff in Hs as (pr & <- & Hpr).
  unfold get_hierarchical_reports in Hrows. rewrite Htree in Hrows.
  injection Hrows as Hrows. rewrite <- Hrows in Hpr.
  apply in_sort_by, in_flat_map in Hpr as (r & Hr & Hpr).
  destruct (opt_in (Report.department_id r) dept_ids) eqn:Hin; [|destruct Hpr].
  simpl in Hpr.
  destruct (existsb _ (users db)) eqn:Huser; [|destruct Hpr]. simpl in Hpr.
  destruct (String.eqb (Report.status r) "approved"); [|destruct Hpr]. simpl in Hpr.
  destruct (match Report.submitted_at r with Some _ => _ | None => false end);
    [|destruct Hpr].
  apply in_map_iff in Hpr as (d & <- & Hd). simpl.
  exists r. split; [|exact Hin].
  apply get_report_unique; auto.
  apply filter_In in Hd as [Hd Hjoin].
  apply existsb_exists. exists d. split; assumption.
Qed.

Lemma cumulative_sources_pass_validation_witness :
  exists db',
    cumulative_period_handler 5 1000500 answering_service approved_db 11 "weekly"
    = Some (Returns (db', CumulativeCreated 102 "digest"))
    /\ validate_cumulative_report_creation 5 approved_db 11 [100]
       = Some (true, CumulativeAllowed).
Proof.
  eexists. split; [reflexivity|].
  pose proof (cumulative_sources_pass_validation 5 1000500 answering_service
                approved_db 11 "weekly"
                (RoleInfo.mk 3 "upper_manager" "مدير أعلى" 70
                   {[ "can_create_report" := true; "can_view_own" := true;
                      "can_view_department" := true;
                      "can_view_subdepartments" := true;
                      "can_approve" := true; "can_create_cumulative" := true ]}
                   (Some 1))) as H.
  edestruct H as (row & ids & Hrows & Hids & Hvalid);
    [ simpl; repeat constructor; simpl; intuition discriminate
    | reflexivity | reflexivity | reflexivity | reflexivity | reflexivity
    | discriminate | reflexivity | ].
  apply app_inv_head in Hrows. injection Hrows as <-.
  simpl in Hids. injection Hids as <-. exact Hvalid.
Defined.

(** ** Creating administrators *)

(** [assign_role] for user [u] leaves the roles of every other user as
    they were. *)
Lemma assign_role_other_users now db u role_name dept assigned_by (is_primary : bool) v :
  v <> u ->
  get_user_roles (fst (assign_role now db u role_name dept assigned_by is_primary)) v
  = get_user_roles db v.
Proof.
  intros Hv.
  pose proof (assign_role_shape now db u role_name dept assigned_by is_primary) as Hs.
  destruct (find _ (roles db)) as [row|]; [|now rewrite Hs].
  cbv zeta in Hs. rewrite Hs. simpl. clear Hs.
  unfold get_user_roles. simpl.
  set (g := fun ur : UserRole.t => _).
  assert (Hmap : forall (f : UserRole.t -> UserRole.t) rows,
            (forall x, UserRole.user_id x = v -> f x = x) ->
            (forall x, UserRole.user_id (f x) = UserRole.user_id x) ->
            flat_map g (map f rows) = flat_map g rows).
  { intros f rows Hsame Hkey. induction rows as [|x rows IH]; [reflexivity|].
    simpl. rewrite IH. f_equal. subst g. cbv beta. rewrite Hkey.
    destruct (UserRole.user_id x =? v) eqn:E; [|reflexivity].
    apply Z.eqb_eq in E. now rewrite (Hsame x E). }
  assert (H1 : flat_map g (if is_primary then unset_primary u (user_roles db)
                           else user_roles db)
               = flat_map g (user_roles db)).
  { destruct is_primary; [|reflexivity]. unfold unset_primary. apply Hmap.
    - intros x Hx. destruct (UserRole.user_id x =? u) eqn:E; [|reflexivity].
      apply Z.eqb_eq in E. congruence.
    - intros x. now destruct (UserRole.user_id x =? u). }
  destruct (unique_violation _ u (Role.id row) dept).
  - unfold refresh_assignment. rewrite Hmap; [exact H1| |].
    + intros x Hx. destruct (same_assignment u (Role.id row) dept x) eqn:E;
        [|reflexivity].
      unfold same_assignment in E. apply andb_true_iff in E as [E _].
      apply andb_true_iff in E as [E _]. apply Z.eqb_eq in E. congruence.
    + intros x. now destruct (same_assignment u (Role.id row) dept x).
  - rewrite flat_map_app, H1. simpl.
    assert (E : (u =? v) = false) by (apply Z.eqb_neq; congruence).
    subst g. cbv beta. simpl. rewrite E. simpl. now rewrite !app_nil_r.
Qed.

(** What [create_admin_command] does: unless it answers that the admin was
    created the store is untouched; when it does, the requester is an
    admin, the target is a stored user who held no admin role and now holds
    one, keeps every role held before, and nobody else's roles and no
    account changed. *)
Theorem create_admin_command_effect now db admin arg :
  let db' := fst (create_admin_command now db admin arg) in
  let reply := snd (create_admin_command now db admin arg) in
  (reply <> AdminDone -> db' = db)
  /\ (reply = AdminDone ->
      is_admin db admin = true
      /\ users db' = users db
      /\ exists t, arg = Some t
           /\ get_user db t <> None
           /\ holds_admin_role db t = false
           /\ holds_admin_role db' t = true
           /\ (forall r, In r (get_user_roles db t) -> In r (get_user_roles db' t))
           /\ forall v, v <> t -> get_user_roles db' v = get_user_roles db v).
Proof.
  cbv zeta. unfold create_admin_command.
  destruct (is_admin db admin) eqn:Hadm; simpl;
    [|split; [reflexivity|intros [=]]].
  destruct arg as [t|]; simpl; [|split; [reflexivity|intros [=]]].
  destruct (get_user db t) as [target|] eqn:Htarget; simpl;
    [|split; [reflexivity|intros [=]]].
  destruct (holds_admin_role db t) eqn:Hholds; simpl;
    [split; [reflexivity|intros [=]]|].
  pose proof (assign_role_shape now db t "admin" None (Some admin) true) as Hs.
  pose proof (fun r => assign_role_keeps_roles now db t "admin" None (Some admin) true
                         t r) as Hkeeps.
  pose proof (assign_role_other_users now db t "admin" None (Some admin) true)
    as Hothers.
  destruct (find (fun r => String.eqb (Role.name r) "admin") (roles db))
    as [row|] eqn:Hfind.
  - destruct (assign_role_grants now db t "admin" None (Some admin) true row Hfind)
      as (db' & Hrun & Husers & _ & _ & _ & Hin).
    rewrite Hrun in *. simpl in *. split; [intros Hno; now elim Hno|].
    intros _. split; [reflexivity|]. split; [exact Husers|].
    exists t. repeat split; auto; [congruence|].
    unfold holds_admin_role. apply existsb_exists. eexists. split; [exact Hin|].
    reflexivity.
  - rewrite Hs. simpl. split; [reflexivity|intros [=]].
Qed.
